(** * Werewolf game engine (Werewolves-Master-Plugin/plugin.py)

    A shallow embedding of the room manager, the night and vote resolution
    and the command router of the plugin, and the properties of the
    engine checked against it.

    Conventions of the embedding.
    - A Python dict is an association list in insertion order; assigning to
      an existing key keeps its position.
    - A reference to a player dict (what [_get_player_by_number] returns)
      is the index of the entry in [g_players]; a mutation through the
      reference is an update at that index.
    - A lookup that can raise ([KeyError] on [ROLES[None]] or on a missing
      player key, [IndexError]) returns [option]: [None] is the raised
      exception.  A call that can raise after it has mutated the room or the
      manager returns an [outcome]: [Ok] with what it returns, or [Raise]
      with the state as mutated up to the exception, which is the state the
      router goes on with.  [ValueError] of [int()] is caught where the
      source catches it.
    - Outbound chat messages are left out, but not the lookups made while a
      message is built, which can raise.  The JSON files (room snapshots,
      profiles, archived games) are left out and writing them is taken to
      succeed; of an archived game the manager keeps the game code.  Of the
      clock only the second that names a new room is kept.
    - The reply of a command is a tag naming the [return] that produced it;
      the commands that only read the manager (status, profile, archive,
      test_private) share one tag, and what they answer is not modelled. *)

From Stdlib Require Import List String Ascii ZArith Lia Bool Arith Permutation.
From Stdlib Require Import DecimalString DecimalZ DecimalPos QArith.
Import ListNotations.
Open Scope string_scope.
Open Scope Z_scope.

Set Implicit Arguments.

(** ** Enumerations *)

Module GamePhase.
Inductive t : Type :=
  SETUP | NIGHT | DAY | VOTE | HUNTER_REVENGE | WITCH_SAVE_PHASE | ENDED.

Definition eqb (a b : t) : bool :=
  match a, b with
  | SETUP, SETUP | NIGHT, NIGHT | DAY, DAY | VOTE, VOTE
  | HUNTER_REVENGE, HUNTER_REVENGE | WITCH_SAVE_PHASE, WITCH_SAVE_PHASE
  | ENDED, ENDED => true
  | _, _ => false
  end.
End GamePhase.

Module PlayerStatus.
Inductive t : Type := ALIVE | DEAD | EXILED.

Definition eqb (a b : t) : bool :=
  match a, b with
  | ALIVE, ALIVE | DEAD, DEAD | EXILED, EXILED => true
  | _, _ => false
  end.
End PlayerStatus.

Module DeathReason.
Inductive t : Type :=
  WOLF_KILL | VOTE | POISON | HUNTER_SHOOT | SUICIDE | WHITE_WOLF | LOVER_SUICIDE.

Definition eqb (a b : t) : bool :=
  match a, b with
  | WOLF_KILL, WOLF_KILL | VOTE, VOTE | POISON, POISON
  | HUNTER_SHOOT, HUNTER_SHOOT | SUICIDE, SUICIDE | WHITE_WOLF, WHITE_WOLF
  | LOVER_SUICIDE, LOVER_SUICIDE => true
  | _, _ => false
  end.
End DeathReason.

Module Camp.
Inductive t : Type := VILLAGE | WOLF | THIRD_PARTY | LOVER.

Definition eqb (a b : t) : bool :=
  match a, b with
  | VILLAGE, VILLAGE | WOLF, WOLF | THIRD_PARTY, THIRD_PARTY | LOVER, LOVER => true
  | _, _ => false
  end.
End Camp.

Module WitchStatus.
Inductive t : Type := HAS_BOTH | HAS_SAVE_ONLY | HAS_POISON_ONLY | USED_BOTH.
End WitchStatus.

(** ** Role catalog: the keys of [ROLES] and the entries the engine reads *)

Inductive Role : Type :=
  | villager | seer | witch | hunter | wolf | hidden_wolf | guard | magician
  | double_faced | spiritualist | successor | painter | white_wolf | cupid.

Definition role_eqb (a b : Role) : bool :=
  match a, b with
  | villager, villager | seer, seer | witch, witch | hunter, hunter
  | wolf, wolf | hidden_wolf, hidden_wolf | guard, guard | magician, magician
  | double_faced, double_faced | spiritualist, spiritualist
  | successor, successor | painter, painter | white_wolf, white_wolf
  | cupid, cupid => true
  | _, _ => false
  end.

(** The keys of [ROLES], in the order of the dict literal (also the order of
    the default ["roles"] settings dict). *)
Definition all_roles : list Role :=
  [villager; seer; witch; hunter; wolf; hidden_wolf; guard; magician;
   double_faced; spiritualist; successor; painter; white_wolf; cupid].

Record RoleInfo : Type := mkRoleInfo {
  ri_camp : Camp.t;
  ri_night_action : bool;
  ri_day_action : bool;
  ri_command : option string
}.

Definition ROLES (r : Role) : RoleInfo :=
  match r with
  | villager     => mkRoleInfo Camp.VILLAGE false false None
  | seer         => mkRoleInfo Camp.VILLAGE true false (Some "check")
  | witch        => mkRoleInfo Camp.VILLAGE true false (Some "save/poison")
  | hunter       => mkRoleInfo Camp.VILLAGE false true (Some "shoot")
  | wolf         => mkRoleInfo Camp.WOLF true false (Some "kill")
  | hidden_wolf  => mkRoleInfo Camp.WOLF false false None
  | guard        => mkRoleInfo Camp.VILLAGE true false (Some "guard")
  | magician     => mkRoleInfo Camp.VILLAGE true false (Some "swap")
  | double_faced => mkRoleInfo Camp.THIRD_PARTY false false None
  | spiritualist => mkRoleInfo Camp.VILLAGE true false (Some "inspect")
  | successor    => mkRoleInfo Camp.VILLAGE false false None
  | painter      => mkRoleInfo Camp.WOLF true false (Some "disguise")
  | white_wolf   => mkRoleInfo Camp.WOLF false true (Some "explode")
  | cupid        => mkRoleInfo Camp.THIRD_PARTY true false (Some "choose")
  end.

(** [ROLES[x]] where [x] is a player's ["role"] field: [None] is not a key. *)
Definition ROLES_get (r : option Role) : option RoleInfo := option_map ROLES r.

(** [_get_role_action_key]: the default [""] is returned for roles that are
    not in the table. *)
Definition _get_role_action_key (r : Role) : string :=
  match r with
  | seer => "seer"
  | witch => "witch_poison"
  | wolf => "wolf_kill"
  | guard => "guard"
  | magician => "magician"
  | spiritualist => "spiritualist"
  | cupid => "cupid"
  | painter => "painter"
  | _ => ""
  end.

(** ** Python helpers: option as the exception monad, dicts, [int], [split] *)

Definition bind {A B : Type} (x : option A) (k : A -> option B) : option B :=
  match x with
  | Some a => k a
  | None => None
  end.

Notation "x <- e ;; k" := (bind e (fun x => k))
  (at level 61, e at next level, right associativity).

Notation "' pat <- e ;; k" := (bind e (fun x => match x with pat => k end))
  (at level 61, pat pattern, e at next level, right associativity).

(** ** Calls that raise after they have mutated state *)

Inductive outcome (S A : Type) : Type :=
  | Ok (a : A)
  | Raise (s : S).

Arguments Ok {S A} a.
Arguments Raise {S A} s.

Definition obind {S A B : Type} (x : outcome S A) (k : A -> outcome S B) : outcome S B :=
  match x with
  | Ok a => k a
  | Raise s => Raise s
  end.

(** a lookup made in state [s]: its exception leaves [s] behind *)
Definition raising {S A : Type} (s : S) (x : option A) : outcome S A :=
  match x with
  | Some a => Ok a
  | None => Raise s
  end.

(** the state a call leaves behind a raise, seen from the caller's state *)
Definition raise_map {S T A : Type} (f : S -> T) (x : outcome S A) : outcome T A :=
  match x with
  | Ok a => Ok a
  | Raise s => Raise (f s)
  end.

Notation "x <~ e ;; k" := (obind e (fun x => k))
  (at level 61, e at next level, right associativity).

Notation "' pat <~ e ;; k" := (obind e (fun x => match x with pat => k end))
  (at level 61, pat pattern, e at next level, right associativity).

Section Dict.
Variable V : Type.

(** [d.get(k)] *)
Fixpoint dict_get (d : list (string * V)) (k : string) : option V :=
  match d with
  | [] => None
  | (k', v) :: r => if String.eqb k' k then Some v else dict_get r k
  end.

(** [k in d] *)
Definition dict_mem (d : list (string * V)) (k : string) : bool :=
  match dict_get d k with
  | Some _ => true
  | None => false
  end.

(** [d[k] = v] *)
Fixpoint dict_set (d : list (string * V)) (k : string) (v : V) : list (string * V) :=
  match d with
  | [] => [(k, v)]
  | (k', v') :: r =>
      if String.eqb k' k then (k', v) :: r else (k', v') :: dict_set r k v
  end.

(** [del d[k]] for a key that is present *)
Fixpoint dict_del (d : list (string * V)) (k : string) : list (string * V) :=
  match d with
  | [] => []
  | (k', v') :: r => if String.eqb k' k then r else (k', v') :: dict_del r k
  end.

(** index of the entry of key [k]: the reference [d[k]] *)
Fixpoint dict_index (d : list (string * V)) (k : string) : option nat :=
  match d with
  | [] => None
  | (k', _) :: r =>
      if String.eqb k' k then Some O else option_map S (dict_index r k)
  end.

Definition dict_values (d : list (string * V)) : list V := map snd d.
Definition dict_keys (d : list (string * V)) : list string := map fst d.
End Dict.

Section ListRef.
Variable A : Type.

(** index of the first element satisfying [f]: what a [for ... : if ...:
    return x] loop over a list returns, as a reference *)
Fixpoint find_index (f : A -> bool) (l : list A) : option nat :=
  match l with
  | [] => None
  | x :: r => if f x then Some O else option_map S (find_index f r)
  end.

(** in-place mutation of the element at index [i] *)
Fixpoint alter_at (f : A -> A) (i : nat) (l : list A) : list A :=
  match l, i with
  | [], _ => []
  | x :: r, O => f x :: r
  | x :: r, S j => x :: alter_at f j r
  end.
End ListRef.

Definition is_space (c : ascii) : bool :=
  let n := nat_of_ascii c in
  ((9 <=? n) && (n <=? 13) || (28 <=? n) && (n <=? 32))%nat.

Definition digit_of (c : ascii) : option Z :=
  let n := nat_of_ascii c in
  if ((48 <=? n) && (n <=? 57))%nat then Some (Z.of_nat (n - 48)) else None.

Fixpoint lstrip (l : list ascii) : list ascii :=
  match l with
  | c :: r => if is_space c then lstrip r else l
  | [] => []
  end.

Definition strip (l : list ascii) : list ascii := rev (lstrip (rev (lstrip l))).

(** digits with single underscores between them; [prev_us] tells that the
    previous character was an underscore *)
Fixpoint parse_digits (acc : Z) (prev_us : bool) (l : list ascii) : option Z :=
  match l with
  | [] => if prev_us then None else Some acc
  | c :: r =>
      match digit_of c with
      | Some d => parse_digits (acc * 10 + d) false r
      | None =>
          if Ascii.eqb c "_"%char
          then (if prev_us then None else parse_digits acc true r)
          else None
      end
  end.

Definition parse_unsigned (l : list ascii) : option Z :=
  match l with
  | c :: _ =>
      match digit_of c with
      | Some _ => parse_digits 0 false l
      | None => None
      end
  | [] => None
  end.

(** [int(s)] on an ASCII string, base 10: [None] is [ValueError]. *)
Definition py_int (s : string) : option Z :=
  match strip (list_ascii_of_string s) with
  | c :: r =>
      if Ascii.eqb c "-"%char then option_map Z.opp (parse_unsigned r)
      else if Ascii.eqb c "+"%char then parse_unsigned r
      else parse_unsigned (c :: r)
  | [] => None
  end.

(** [s.split()]: the maximal runs of non-blank characters *)
Fixpoint split_ws (cur : list ascii) (l : list ascii) : list string :=
  match l with
  | [] =>
      match cur with
      | [] => []
      | _ => [string_of_list_ascii (rev cur)]
      end
  | c :: r =>
      if is_space c
      then match cur with
           | [] => split_ws [] r
           | _ => string_of_list_ascii (rev cur) :: split_ws [] r
           end
      else split_ws (c :: cur) r
  end.

Definition py_split (s : string) : list string := split_ws [] (list_ascii_of_string s).

(** [str(n)] *)
Definition py_str (n : Z) : string := NilZero.string_of_int (Z.to_int n).

(** truthiness of an optional string: [None] and [""] are falsy *)
Definition truthy (x : option string) : option string :=
  match x with
  | Some "" => None
  | other => other
  end.

(** ** Data model: players, rooms, the manager *)

Record Player : Type := mkPlayer {
  p_name : string;
  p_qq : string;
  p_number : Z;
  p_role : option Role;
  p_original_role : option Role;
  p_status : PlayerStatus.t;
  p_death_reason : option DeathReason.t;
  p_killer : option string;
  p_has_acted : bool;
  p_is_lover : bool;
  p_lover_partner : option string;
  p_camp : option Camp.t
}.

Definition set_p_role (v : option Role) (p : Player) : Player :=
  {| p_name := p_name p; p_qq := p_qq p; p_number := p_number p; p_role := v; p_original_role :=
     p_original_role p; p_status := p_status p; p_death_reason := p_death_reason p; p_killer :=
     p_killer p; p_has_acted := p_has_acted p; p_is_lover := p_is_lover p; p_lover_partner :=
     p_lover_partner p; p_camp := p_camp p |}.

Definition set_p_original_role (v : option Role) (p : Player) : Player :=
  {| p_name := p_name p; p_qq := p_qq p; p_number := p_number p; p_role := p_role p;
     p_original_role := v; p_status := p_status p; p_death_reason := p_death_reason p; p_killer
     := p_killer p; p_has_acted := p_has_acted p; p_is_lover := p_is_lover p; p_lover_partner :=
     p_lover_partner p; p_camp := p_camp p |}.

Definition set_p_status (v : PlayerStatus.t) (p : Player) : Player :=
  {| p_name := p_name p; p_qq := p_qq p; p_number := p_number p; p_role := p_role p;
     p_original_role := p_original_role p; p_status := v; p_death_reason := p_death_reason p;
     p_killer := p_killer p; p_has_acted := p_has_acted p; p_is_lover := p_is_lover p;
     p_lover_partner := p_lover_partner p; p_camp := p_camp p |}.

Definition set_p_death_reason (v : option DeathReason.t) (p : Player) : Player :=
  {| p_name := p_name p; p_qq := p_qq p; p_number := p_number p; p_role := p_role p;
     p_original_role := p_original_role p; p_status := p_status p; p_death_reason := v; p_killer
     := p_killer p; p_has_acted := p_has_acted p; p_is_lover := p_is_lover p; p_lover_partner :=
     p_lover_partner p; p_camp := p_camp p |}.

Definition set_p_killer (v : option string) (p : Player) : Player :=
  {| p_name := p_name p; p_qq := p_qq p; p_number := p_number p; p_role := p_role p;
     p_original_role := p_original_role p; p_status := p_status p; p_death_reason :=
     p_death_reason p; p_killer := v; p_has_acted := p_has_acted p; p_is_lover := p_is_lover p;
     p_lover_partner := p_lover_partner p; p_camp := p_camp p |}.

Definition set_p_has_acted (v : bool) (p : Player) : Player :=
  {| p_name := p_name p; p_qq := p_qq p; p_number := p_number p; p_role := p_role p;
     p_original_role := p_original_role p; p_status := p_status p; p_death_reason :=
     p_death_reason p; p_killer := p_killer p; p_has_acted := v; p_is_lover := p_is_lover p;
     p_lover_partner := p_lover_partner p; p_camp := p_camp p |}.

Definition set_p_is_lover (v : bool) (p : Player) : Player :=
  {| p_name := p_name p; p_qq := p_qq p; p_number := p_number p; p_role := p_role p;
     p_original_role := p_original_role p; p_status := p_status p; p_death_reason :=
     p_death_reason p; p_killer := p_killer p; p_has_acted := p_has_acted p; p_is_lover := v;
     p_lover_partner := p_lover_partner p; p_camp := p_camp p |}.

Definition set_p_lover_partner (v : option string) (p : Player) : Player :=
  {| p_name := p_name p; p_qq := p_qq p; p_number := p_number p; p_role := p_role p;
     p_original_role := p_original_role p; p_status := p_status p; p_death_reason :=
     p_death_reason p; p_killer := p_killer p; p_has_acted := p_has_acted p; p_is_lover :=
     p_is_lover p; p_lover_partner := v; p_camp := p_camp p |}.

Definition set_p_camp (v : option Camp.t) (p : Player) : Player :=
  {| p_name := p_name p; p_qq := p_qq p; p_number := p_number p; p_role := p_role p;
     p_original_role := p_original_role p; p_status := p_status p; p_death_reason :=
     p_death_reason p; p_killer := p_killer p; p_has_acted := p_has_acted p; p_is_lover :=
     p_is_lover p; p_lover_partner := p_lover_partner p; p_camp := v |}.

(** An entry of the death queue *)
Record Death : Type := mkDeath {
  d_player_qq : string;
  d_reason : DeathReason.t;
  d_killer : string
}.

(** [game["settings"]]: the seat cap and the count of every role key.  The
    settings command rejects negative counts, and [ROLES] fixes the keys. *)
Record Settings : Type := mkSettings {
  player_count : Z;
  roles : Role -> nat
}.

Record Game : Type := mkGame {
  g_room_id : string;
  g_host : string;
  g_group_id : string;
  g_players : list (string * Player);
  g_player_order : list string;
  g_settings : Settings;
  g_phase : GamePhase.t;
  g_day_count : nat;
  g_night_actions : list (string * string);
  g_votes : list (string * Z);
  g_death_queue : list Death;
  g_lovers : list string;
  g_guard_protected : option Z;
  g_last_guard_target : option Z;
  g_magician_swap : option (Z * Z);
  g_painter_disguised : option Role;
  g_white_wolf_exploded : bool;
  g_witch_status : WitchStatus.t;
  g_witch_save_candidates : list (Z * string);
  g_witch_used_save_this_night : bool;
  g_witch_used_poison_this_night : bool;
  g_winner : option string;
  g_game_code : option string;
  g_saved_players : list string
}.

Definition set_g_players (v : list (string * Player)) (g : Game) : Game :=
  {| g_room_id := g_room_id g; g_host := g_host g; g_group_id := g_group_id g; g_players := v;
     g_player_order := g_player_order g; g_settings := g_settings g; g_phase := g_phase g;
     g_day_count := g_day_count g; g_night_actions := g_night_actions g; g_votes := g_votes g;
     g_death_queue := g_death_queue g; g_lovers := g_lovers g; g_guard_protected :=
     g_guard_protected g; g_last_guard_target := g_last_guard_target g; g_magician_swap :=
     g_magician_swap g; g_painter_disguised := g_painter_disguised g; g_white_wolf_exploded :=
     g_white_wolf_exploded g; g_witch_status := g_witch_status g; g_witch_save_candidates :=
     g_witch_save_candidates g; g_witch_used_save_this_night := g_witch_used_save_this_night g;
     g_witch_used_poison_this_night := g_witch_used_poison_this_night g; g_winner := g_winner g;
     g_game_code := g_game_code g; g_saved_players := g_saved_players g |}.

Definition set_g_player_order (v : list string) (g : Game) : Game :=
  {| g_room_id := g_room_id g; g_host := g_host g; g_group_id := g_group_id g; g_players :=
     g_players g; g_player_order := v; g_settings := g_settings g; g_phase := g_phase g;
     g_day_count := g_day_count g; g_night_actions := g_night_actions g; g_votes := g_votes g;
     g_death_queue := g_death_queue g; g_lovers := g_lovers g; g_guard_protected :=
     g_guard_protected g; g_last_guard_target := g_last_guard_target g; g_magician_swap :=
     g_magician_swap g; g_painter_disguised := g_painter_disguised g; g_white_wolf_exploded :=
     g_white_wolf_exploded g; g_witch_status := g_witch_status g; g_witch_save_candidates :=
     g_witch_save_candidates g; g_witch_used_save_this_night := g_witch_used_save_this_night g;
     g_witch_used_poison_this_night := g_witch_used_poison_this_night g; g_winner := g_winner g;
     g_game_code := g_game_code g; g_saved_players := g_saved_players g |}.

Definition set_g_settings (v : Settings) (g : Game) : Game :=
  {| g_room_id := g_room_id g; g_host := g_host g; g_group_id := g_group_id g; g_players :=
     g_players g; g_player_order := g_player_order g; g_settings := v; g_phase := g_phase g;
     g_day_count := g_day_count g; g_night_actions := g_night_actions g; g_votes := g_votes g;
     g_death_queue := g_death_queue g; g_lovers := g_lovers g; g_guard_protected :=
     g_guard_protected g; g_last_guard_target := g_last_guard_target g; g_magician_swap :=
     g_magician_swap g; g_painter_disguised := g_painter_disguised g; g_white_wolf_exploded :=
     g_white_wolf_exploded g; g_witch_status := g_witch_status g; g_witch_save_candidates :=
     g_witch_save_candidates g; g_witch_used_save_this_night := g_witch_used_save_this_night g;
     g_witch_used_poison_this_night := g_witch_used_poison_this_night g; g_winner := g_winner g;
     g_game_code := g_game_code g; g_saved_players := g_saved_players g |}.

Definition set_g_phase (v : GamePhase.t) (g : Game) : Game :=
  {| g_room_id := g_room_id g; g_host := g_host g; g_group_id := g_group_id g; g_players :=
     g_players g; g_player_order := g_player_order g; g_settings := g_settings g; g_phase := v;
     g_day_count := g_day_count g; g_night_actions := g_night_actions g; g_votes := g_votes g;
     g_death_queue := g_death_queue g; g_lovers := g_lovers g; g_guard_protected :=
     g_guard_protected g; g_last_guard_target := g_last_guard_target g; g_magician_swap :=
     g_magician_swap g; g_painter_disguised := g_painter_disguised g; g_white_wolf_exploded :=
     g_white_wolf_exploded g; g_witch_status := g_witch_status g; g_witch_save_candidates :=
     g_witch_save_candidates g; g_witch_used_save_this_night := g_witch_used_save_this_night g;
     g_witch_used_poison_this_night := g_witch_used_poison_this_night g; g_winner := g_winner g;
     g_game_code := g_game_code g; g_saved_players := g_saved_players g |}.

Definition set_g_day_count (v : nat) (g : Game) : Game :=
  {| g_room_id := g_room_id g; g_host := g_host g; g_group_id := g_group_id g; g_players :=
     g_players g; g_player_order := g_player_order g; g_settings := g_settings g; g_phase :=
     g_phase g; g_day_count := v; g_night_actions := g_night_actions g; g_votes := g_votes g;
     g_death_queue := g_death_queue g; g_lovers := g_lovers g; g_guard_protected :=
     g_guard_protected g; g_last_guard_target := g_last_guard_target g; g_magician_swap :=
     g_magician_swap g; g_painter_disguised := g_painter_disguised g; g_white_wolf_exploded :=
     g_white_wolf_exploded g; g_witch_status := g_witch_status g; g_witch_save_candidates :=
     g_witch_save_candidates g; g_witch_used_save_this_night := g_witch_used_save_this_night g;
     g_witch_used_poison_this_night := g_witch_used_poison_this_night g; g_winner := g_winner g;
     g_game_code := g_game_code g; g_saved_players := g_saved_players g |}.

Definition set_g_night_actions (v : list (string * string)) (g : Game) : Game :=
  {| g_room_id := g_room_id g; g_host := g_host g; g_group_id := g_group_id g; g_players :=
     g_players g; g_player_order := g_player_order g; g_settings := g_settings g; g_phase :=
     g_phase g; g_day_count := g_day_count g; g_night_actions := v; g_votes := g_votes g;
     g_death_queue := g_death_queue g; g_lovers := g_lovers g; g_guard_protected :=
     g_guard_protected g; g_last_guard_target := g_last_guard_target g; g_magician_swap :=
     g_magician_swap g; g_painter_disguised := g_painter_disguised g; g_white_wolf_exploded :=
     g_white_wolf_exploded g; g_witch_status := g_witch_status g; g_witch_save_candidates :=
     g_witch_save_candidates g; g_witch_used_save_this_night := g_witch_used_save_this_night g;
     g_witch_used_poison_this_night := g_witch_used_poison_this_night g; g_winner := g_winner g;
     g_game_code := g_game_code g; g_saved_players := g_saved_players g |}.

Definition set_g_votes (v : list (string * Z)) (g : Game) : Game :=
  {| g_room_id := g_room_id g; g_host := g_host g; g_group_id := g_group_id g; g_players :=
     g_players g; g_player_order := g_player_order g; g_settings := g_settings g; g_phase :=
     g_phase g; g_day_count := g_day_count g; g_night_actions := g_night_actions g; g_votes :=
     v; g_death_queue := g_death_queue g; g_lovers := g_lovers g; g_guard_protected :=
     g_guard_protected g; g_last_guard_target := g_last_guard_target g; g_magician_swap :=
     g_magician_swap g; g_painter_disguised := g_painter_disguised g; g_white_wolf_exploded :=
     g_white_wolf_exploded g; g_witch_status := g_witch_status g; g_witch_save_candidates :=
     g_witch_save_candidates g; g_witch_used_save_this_night := g_witch_used_save_this_night g;
     g_witch_used_poison_this_night := g_witch_used_poison_this_night g; g_winner := g_winner g;
     g_game_code := g_game_code g; g_saved_players := g_saved_players g |}.

Definition set_g_death_queue (v : list Death) (g : Game) : Game :=
  {| g_room_id := g_room_id g; g_host := g_host g; g_group_id := g_group_id g; g_players :=
     g_players g; g_player_order := g_player_order g; g_settings := g_settings g; g_phase :=
     g_phase g; g_day_count := g_day_count g; g_night_actions := g_night_actions g; g_votes :=
     g_votes g; g_death_queue := v; g_lovers := g_lovers g; g_guard_protected :=
     g_guard_protected g; g_last_guard_target := g_last_guard_target g; g_magician_swap :=
     g_magician_swap g; g_painter_disguised := g_painter_disguised g; g_white_wolf_exploded :=
     g_white_wolf_exploded g; g_witch_status := g_witch_status g; g_witch_save_candidates :=
     g_witch_save_candidates g; g_witch_used_save_this_night := g_witch_used_save_this_night g;
     g_witch_used_poison_this_night := g_witch_used_poison_this_night g; g_winner := g_winner g;
     g_game_code := g_game_code g; g_saved_players := g_saved_players g |}.

Definition set_g_lovers (v : list string) (g : Game) : Game :=
  {| g_room_id := g_room_id g; g_host := g_host g; g_group_id := g_group_id g; g_players :=
     g_players g; g_player_order := g_player_order g; g_settings := g_settings g; g_phase :=
     g_phase g; g_day_count := g_day_count g; g_night_actions := g_night_actions g; g_votes :=
     g_votes g; g_death_queue := g_death_queue g; g_lovers := v; g_guard_protected :=
     g_guard_protected g; g_last_guard_target := g_last_guard_target g; g_magician_swap :=
     g_magician_swap g; g_painter_disguised := g_painter_disguised g; g_white_wolf_exploded :=
     g_white_wolf_exploded g; g_witch_status := g_witch_status g; g_witch_save_candidates :=
     g_witch_save_candidates g; g_witch_used_save_this_night := g_witch_used_save_this_night g;
     g_witch_used_poison_this_night := g_witch_used_poison_this_night g; g_winner := g_winner g;
     g_game_code := g_game_code g; g_saved_players := g_saved_players g |}.

Definition set_g_guard_protected (v : option Z) (g : Game) : Game :=
  {| g_room_id := g_room_id g; g_host := g_host g; g_group_id := g_group_id g; g_players :=
     g_players g; g_player_order := g_player_order g; g_settings := g_settings g; g_phase :=
     g_phase g; g_day_count := g_day_count g; g_night_actions := g_night_actions g; g_votes :=
     g_votes g; g_death_queue := g_death_queue g; g_lovers := g_lovers g; g_guard_protected :=
     v; g_last_guard_target := g_last_guard_target g; g_magician_swap := g_magician_swap g;
     g_painter_disguised := g_painter_disguised g; g_white_wolf_exploded :=
     g_white_wolf_exploded g; g_witch_status := g_witch_status g; g_witch_save_candidates :=
     g_witch_save_candidates g; g_witch_used_save_this_night := g_witch_used_save_this_night g;
     g_witch_used_poison_this_night := g_witch_used_poison_this_night g; g_winner := g_winner g;
     g_game_code := g_game_code g; g_saved_players := g_saved_players g |}.

Definition set_g_last_guard_target (v : option Z) (g : Game) : Game :=
  {| g_room_id := g_room_id g; g_host := g_host g; g_group_id := g_group_id g; g_players :=
     g_players g; g_player_order := g_player_order g; g_settings := g_settings g; g_phase :=
     g_phase g; g_day_count := g_day_count g; g_night_actions := g_night_actions g; g_votes :=
     g_votes g; g_death_queue := g_death_queue g; g_lovers := g_lovers g; g_guard_protected :=
     g_guard_protected g; g_last_guard_target := v; g_magician_swap := g_magician_swap g;
     g_painter_disguised := g_painter_disguised g; g_white_wolf_exploded :=
     g_white_wolf_exploded g; g_witch_status := g_witch_status g; g_witch_save_candidates :=
     g_witch_save_candidates g; g_witch_used_save_this_night := g_witch_used_save_this_night g;
     g_witch_used_poison_this_night := g_witch_used_poison_this_night g; g_winner := g_winner g;
     g_game_code := g_game_code g; g_saved_players := g_saved_players g |}.

Definition set_g_magician_swap (v : option (Z * Z)) (g : Game) : Game :=
  {| g_room_id := g_room_id g; g_host := g_host g; g_group_id := g_group_id g; g_players :=
     g_players g; g_player_order := g_player_order g; g_settings := g_settings g; g_phase :=
     g_phase g; g_day_count := g_day_count g; g_night_actions := g_night_actions g; g_votes :=
     g_votes g; g_death_queue := g_death_queue g; g_lovers := g_lovers g; g_guard_protected :=
     g_guard_protected g; g_last_guard_target := g_last_guard_target g; g_magician_swap := v;
     g_painter_disguised := g_painter_disguised g; g_white_wolf_exploded :=
     g_white_wolf_exploded g; g_witch_status := g_witch_status g; g_witch_save_candidates :=
     g_witch_save_candidates g; g_witch_used_save_this_night := g_witch_used_save_this_night g;
     g_witch_used_poison_this_night := g_witch_used_poison_this_night g; g_winner := g_winner g;
     g_game_code := g_game_code g; g_saved_players := g_saved_players g |}.

Definition set_g_painter_disguised (v : option Role) (g : Game) : Game :=
  {| g_room_id := g_room_id g; g_host := g_host g; g_group_id := g_group_id g; g_players :=
     g_players g; g_player_order := g_player_order g; g_settings := g_settings g; g_phase :=
     g_phase g; g_day_count := g_day_count g; g_night_actions := g_night_actions g; g_votes :=
     g_votes g; g_death_queue := g_death_queue g; g_lovers := g_lovers g; g_guard_protected :=
     g_guard_protected g; g_last_guard_target := g_last_guard_target g; g_magician_swap :=
     g_magician_swap g; g_painter_disguised := v; g_white_wolf_exploded := g_white_wolf_exploded
     g; g_witch_status := g_witch_status g; g_witch_save_candidates := g_witch_save_candidates
     g; g_witch_used_save_this_night := g_witch_used_save_this_night g;
     g_witch_used_poison_this_night := g_witch_used_poison_this_night g; g_winner := g_winner g;
     g_game_code := g_game_code g; g_saved_players := g_saved_players g |}.

Definition set_g_white_wolf_exploded (v : bool) (g : Game) : Game :=
  {| g_room_id := g_room_id g; g_host := g_host g; g_group_id := g_group_id g; g_players :=
     g_players g; g_player_order := g_player_order g; g_settings := g_settings g; g_phase :=
     g_phase g; g_day_count := g_day_count g; g_night_actions := g_night_actions g; g_votes :=
     g_votes g; g_death_queue := g_death_queue g; g_lovers := g_lovers g; g_guard_protected :=
     g_guard_protected g; g_last_guard_target := g_last_guard_target g; g_magician_swap :=
     g_magician_swap g; g_painter_disguised := g_painter_disguised g; g_white_wolf_exploded :=
     v; g_witch_status := g_witch_status g; g_witch_save_candidates := g_witch_save_candidates
     g; g_witch_used_save_this_night := g_witch_used_save_this_night g;
     g_witch_used_poison_this_night := g_witch_used_poison_this_night g; g_winner := g_winner g;
     g_game_code := g_game_code g; g_saved_players := g_saved_players g |}.

Definition set_g_witch_status (v : WitchStatus.t) (g : Game) : Game :=
  {| g_room_id := g_room_id g; g_host := g_host g; g_group_id := g_group_id g; g_players :=
     g_players g; g_player_order := g_player_order g; g_settings := g_settings g; g_phase :=
     g_phase g; g_day_count := g_day_count g; g_night_actions := g_night_actions g; g_votes :=
     g_votes g; g_death_queue := g_death_queue g; g_lovers := g_lovers g; g_guard_protected :=
     g_guard_protected g; g_last_guard_target := g_last_guard_target g; g_magician_swap :=
     g_magician_swap g; g_painter_disguised := g_painter_disguised g; g_white_wolf_exploded :=
     g_white_wolf_exploded g; g_witch_status := v; g_witch_save_candidates :=
     g_witch_save_candidates g; g_witch_used_save_this_night := g_witch_used_save_this_night g;
     g_witch_used_poison_this_night := g_witch_used_poison_this_night g; g_winner := g_winner g;
     g_game_code := g_game_code g; g_saved_players := g_saved_players g |}.

Definition set_g_witch_save_candidates (v : list (Z * string)) (g : Game) : Game :=
  {| g_room_id := g_room_id g; g_host := g_host g; g_group_id := g_group_id g; g_players :=
     g_players g; g_player_order := g_player_order g; g_settings := g_settings g; g_phase :=
     g_phase g; g_day_count := g_day_count g; g_night_actions := g_night_actions g; g_votes :=
     g_votes g; g_death_queue := g_death_queue g; g_lovers := g_lovers g; g_guard_protected :=
     g_guard_protected g; g_last_guard_target := g_last_guard_target g; g_magician_swap :=
     g_magician_swap g; g_painter_disguised := g_painter_disguised g; g_white_wolf_exploded :=
     g_white_wolf_exploded g; g_witch_status := g_witch_status g; g_witch_save_candidates := v;
     g_witch_used_save_this_night := g_witch_used_save_this_night g;
     g_witch_used_poison_this_night := g_witch_used_poison_this_night g; g_winner := g_winner g;
     g_game_code := g_game_code g; g_saved_players := g_saved_players g |}.

Definition set_g_witch_used_save_this_night (v : bool) (g : Game) : Game :=
  {| g_room_id := g_room_id g; g_host := g_host g; g_group_id := g_group_id g; g_players :=
     g_players g; g_player_order := g_player_order g; g_settings := g_settings g; g_phase :=
     g_phase g; g_day_count := g_day_count g; g_night_actions := g_night_actions g; g_votes :=
     g_votes g; g_death_queue := g_death_queue g; g_lovers := g_lovers g; g_guard_protected :=
     g_guard_protected g; g_last_guard_target := g_last_guard_target g; g_magician_swap :=
     g_magician_swap g; g_painter_disguised := g_painter_disguised g; g_white_wolf_exploded :=
     g_white_wolf_exploded g; g_witch_status := g_witch_status g; g_witch_save_candidates :=
     g_witch_save_candidates g; g_witch_used_save_this_night := v;
     g_witch_used_poison_this_night := g_witch_used_poison_this_night g; g_winner := g_winner g;
     g_game_code := g_game_code g; g_saved_players := g_saved_players g |}.

Definition set_g_witch_used_poison_this_night (v : bool) (g : Game) : Game :=
  {| g_room_id := g_room_id g; g_host := g_host g; g_group_id := g_group_id g; g_players :=
     g_players g; g_player_order := g_player_order g; g_settings := g_settings g; g_phase :=
     g_phase g; g_day_count := g_day_count g; g_night_actions := g_night_actions g; g_votes :=
     g_votes g; g_death_queue := g_death_queue g; g_lovers := g_lovers g; g_guard_protected :=
     g_guard_protected g; g_last_guard_target := g_last_guard_target g; g_magician_swap :=
     g_magician_swap g; g_painter_disguised := g_painter_disguised g; g_white_wolf_exploded :=
     g_white_wolf_exploded g; g_witch_status := g_witch_status g; g_witch_save_candidates :=
     g_witch_save_candidates g; g_witch_used_save_this_night := g_witch_used_save_this_night g;
     g_witch_used_poison_this_night := v; g_winner := g_winner g; g_game_code := g_game_code g;
     g_saved_players := g_saved_players g |}.

Definition set_g_winner (v : option string) (g : Game) : Game :=
  {| g_room_id := g_room_id g; g_host := g_host g; g_group_id := g_group_id g; g_players :=
     g_players g; g_player_order := g_player_order g; g_settings := g_settings g; g_phase :=
     g_phase g; g_day_count := g_day_count g; g_night_actions := g_night_actions g; g_votes :=
     g_votes g; g_death_queue := g_death_queue g; g_lovers := g_lovers g; g_guard_protected :=
     g_guard_protected g; g_last_guard_target := g_last_guard_target g; g_magician_swap :=
     g_magician_swap g; g_painter_disguised := g_painter_disguised g; g_white_wolf_exploded :=
     g_white_wolf_exploded g; g_witch_status := g_witch_status g; g_witch_save_candidates :=
     g_witch_save_candidates g; g_witch_used_save_this_night := g_witch_used_save_this_night g;
     g_witch_used_poison_this_night := g_witch_used_poison_this_night g; g_winner := v;
     g_game_code := g_game_code g; g_saved_players := g_saved_players g |}.

Definition set_g_game_code (v : option string) (g : Game) : Game :=
  {| g_room_id := g_room_id g; g_host := g_host g; g_group_id := g_group_id g; g_players :=
     g_players g; g_player_order := g_player_order g; g_settings := g_settings g; g_phase :=
     g_phase g; g_day_count := g_day_count g; g_night_actions := g_night_actions g; g_votes :=
     g_votes g; g_death_queue := g_death_queue g; g_lovers := g_lovers g; g_guard_protected :=
     g_guard_protected g; g_last_guard_target := g_last_guard_target g; g_magician_swap :=
     g_magician_swap g; g_painter_disguised := g_painter_disguised g; g_white_wolf_exploded :=
     g_white_wolf_exploded g; g_witch_status := g_witch_status g; g_witch_save_candidates :=
     g_witch_save_candidates g; g_witch_used_save_this_night := g_witch_used_save_this_night g;
     g_witch_used_poison_this_night := g_witch_used_poison_this_night g; g_winner := g_winner g;
     g_game_code := v; g_saved_players := g_saved_players g |}.

Definition set_g_saved_players (v : list string) (g : Game) : Game :=
  {| g_room_id := g_room_id g; g_host := g_host g; g_group_id := g_group_id g; g_players :=
     g_players g; g_player_order := g_player_order g; g_settings := g_settings g; g_phase :=
     g_phase g; g_day_count := g_day_count g; g_night_actions := g_night_actions g; g_votes :=
     g_votes g; g_death_queue := g_death_queue g; g_lovers := g_lovers g; g_guard_protected :=
     g_guard_protected g; g_last_guard_target := g_last_guard_target g; g_magician_swap :=
     g_magician_swap g; g_painter_disguised := g_painter_disguised g; g_white_wolf_exploded :=
     g_white_wolf_exploded g; g_witch_status := g_witch_status g; g_witch_save_candidates :=
     g_witch_save_candidates g; g_witch_used_save_this_night := g_witch_used_save_this_night g;
     g_witch_used_poison_this_night := g_witch_used_poison_this_night g; g_winner := g_winner g;
     g_game_code := g_game_code g; g_saved_players := v |}.


(** ** Player profiles and the statistics of archival

    [player_profiles] is the per-identity statistics store of the manager.
    [archive_game] rolls the finished game into the profiles of its players:
    [update_profiles] is that loop, and its [Raise] carries the profiles as
    mutated up to the [KeyError] of [ROLES[None]].  The timestamps of a
    profile and of a recent game are left out; the recent win rate is the
    quotient that Python rounds to a float. *)

Record RecentGame : Type := mkRecentGame {
  rg_game_code : string;
  rg_role : option Role;
  rg_won : bool
}.

Record Profile : Type := mkProfile {
  pf_qq : string;
  pf_name : string;
  pf_total_games : nat;
  pf_wins : nat;
  pf_losses : nat;
  pf_kills : nat;
  pf_votes : nat;
  pf_recent_win_rate : Q;
  pf_recent_games : list RecentGame
}.

Definition new_profile (qq name : string) : Profile :=
  {| pf_qq := qq; pf_name := name; pf_total_games := 0; pf_wins := 0; pf_losses := 0;
     pf_kills := 0; pf_votes := 0; pf_recent_win_rate := 0%Q; pf_recent_games := [] |}.

(** [get_or_create_profile]: the profile dict afterwards and the profile *)
Definition get_or_create_profile (qq name : string) (profiles : list (string * Profile))
  : list (string * Profile) * Profile :=
  match dict_get profiles qq with
  | Some profile => (profiles, profile)
  | None => (dict_set profiles qq (new_profile qq name), new_profile qq name)
  end.

(** a mutation of [d[k]] when [k] is a key, nothing otherwise *)
Definition dict_alter (V : Type) (k : string) (f : V -> V) (d : list (string * V))
  : list (string * V) :=
  match dict_index d k with
  | Some i => alter_at (fun kv => (fst kv, f (snd kv))) i d
  | None => d
  end.

(** [profile["total_games"] += 1] *)
Definition incr_total_games (p : Profile) : Profile :=
  {| pf_qq := pf_qq p; pf_name := pf_name p;
     pf_total_games := S (pf_total_games p);
     pf_wins := pf_wins p; pf_losses := pf_losses p;
     pf_kills := pf_kills p; pf_votes := pf_votes p;
     pf_recent_win_rate := pf_recent_win_rate p;
     pf_recent_games := pf_recent_games p |}.

(** [total_games += 1], then [wins += 1] or [losses += 1] *)
Definition count_game (won : bool) (p : Profile) : Profile :=
  {| pf_qq := pf_qq p; pf_name := pf_name p;
     pf_total_games := S (pf_total_games p);
     pf_wins := if won then S (pf_wins p) else pf_wins p;
     pf_losses := if won then pf_losses p else S (pf_losses p);
     pf_kills := pf_kills p; pf_votes := pf_votes p;
     pf_recent_win_rate := pf_recent_win_rate p;
     pf_recent_games := pf_recent_games p |}.

Definition incr_kills (p : Profile) : Profile :=
  {| pf_qq := pf_qq p; pf_name := pf_name p; pf_total_games := pf_total_games p;
     pf_wins := pf_wins p; pf_losses := pf_losses p;
     pf_kills := S (pf_kills p); pf_votes := pf_votes p;
     pf_recent_win_rate := pf_recent_win_rate p;
     pf_recent_games := pf_recent_games p |}.

Definition incr_votes (p : Profile) : Profile :=
  {| pf_qq := pf_qq p; pf_name := pf_name p; pf_total_games := pf_total_games p;
     pf_wins := pf_wins p; pf_losses := pf_losses p;
     pf_kills := pf_kills p; pf_votes := S (pf_votes p);
     pf_recent_win_rate := pf_recent_win_rate p;
     pf_recent_games := pf_recent_games p |}.

(** [l[-10:]] *)
Definition last10 (A : Type) (l : list A) : list A := skipn (List.length l - 10) l.

(** [recent_wins / len(recent_games) if recent_games else 0] *)
Definition win_rate (recent : list RecentGame) : Q :=
  match recent with
  | [] => 0%Q
  | _ => Qmake (Z.of_nat (List.length (filter rg_won recent)))
               (Pos.of_nat (List.length recent))
  end.

(** the new entry is appended, the list is cut to its last ten entries when
    it is longer, and the rate is computed anew *)
Definition record_recent (entry : RecentGame) (p : Profile) : Profile :=
  let appended := (pf_recent_games p ++ [entry])%list in
  let recent := if (10 <? List.length appended)%nat then last10 appended else appended in
  {| pf_qq := pf_qq p; pf_name := pf_name p; pf_total_games := pf_total_games p;
     pf_wins := pf_wins p; pf_losses := pf_losses p;
     pf_kills := pf_kills p; pf_votes := pf_votes p;
     pf_recent_win_rate := win_rate recent;
     pf_recent_games := recent |}.

(** the chain of comparisons of the winner with the camp of the player *)
Definition is_winner (winner : option string) (camp : Camp.t) : bool :=
  match winner with
  | None => false
  | Some w =>
      if String.eqb w "village" && Camp.eqb camp Camp.VILLAGE then true
      else if String.eqb w "wolf" && Camp.eqb camp Camp.WOLF then true
      else if String.eqb w "lover" && Camp.eqb camp Camp.LOVER then true
      else if String.eqb w "third_party" && Camp.eqb camp Camp.THIRD_PARTY then true
      else false
  end.

Definition opt_string_eqb (a : option string) (b : string) : bool :=
  match a with
  | Some a' => String.eqb a' b
  | None => false
  end.

Definition reason_is (r : DeathReason.t) (p : Player) : bool :=
  match p_death_reason p with
  | Some r' => DeathReason.eqb r' r
  | None => false
  end.

(** the kill goes to the killer of a player shot or poisoned, the vote kill
    to every voter whose recorded vote names the seat of an exiled player;
    a player who is their own killer credits nobody *)
Definition credit (game : Game) (player_qq : string) (player : Player)
    (profiles : list (string * Profile)) : list (string * Profile) :=
  if opt_string_eqb (p_killer player) player_qq then profiles
  else if reason_is DeathReason.HUNTER_SHOOT player || reason_is DeathReason.POISON player
  then match p_killer player with
       | Some killer => dict_alter killer incr_kills profiles
       | None => profiles
       end
  else if reason_is DeathReason.VOTE player
  then fold_left
         (fun ps v => if snd v =? p_number player
                      then dict_alter (fst v) incr_votes ps else ps)
         (g_votes game) profiles
  else profiles.

(** one iteration of the loop over [game["players"].items()]; the game
    counter of the profile is raised before [ROLES[original_role]] is looked
    up *)
Definition archive_player (code : string) (game : Game)
    (profiles : list (string * Profile)) (entry : string * Player)
  : outcome (list (string * Profile)) (list (string * Profile)) :=
  let player_qq := fst entry in
  let player := snd entry in
  if dict_mem profiles player_qq
  then
    info <~ raising (dict_alter player_qq incr_total_games profiles)
              (ROLES_get (p_original_role player)) ;;
    let camp := if p_is_lover player then Camp.LOVER else ri_camp info in
    let won := is_winner (g_winner game) camp in
    let counted := dict_alter player_qq (count_game won) profiles in
    let credited := credit game player_qq player counted in
    Ok (dict_alter player_qq
          (record_recent (mkRecentGame code (p_original_role player) won)) credited)
  else Ok profiles.

Fixpoint archive_players (code : string) (game : Game)
    (profiles : list (string * Profile)) (entries : list (string * Player))
  : outcome (list (string * Profile)) (list (string * Profile)) :=
  match entries with
  | [] => Ok profiles
  | entry :: rest =>
      profiles' <~ archive_player code game profiles entry ;;
      archive_players code game profiles' rest
  end.

Definition update_profiles (code : string) (game : Game)
    (profiles : list (string * Profile))
  : outcome (list (string * Profile)) (list (string * Profile)) :=
  archive_players code game profiles (g_players game).


(** The singleton manager: the live rooms ([self.games]), the profile store
    ([self.player_profiles]) and the game codes under which rooms were
    archived, in the order of archival. *)
Record Manager : Type := mkManager {
  games : list (string * Game);
  player_profiles : list (string * Profile);
  finished : list string
}.

Definition set_games (v : list (string * Game)) (m : Manager) : Manager :=
  {| games := v; player_profiles := player_profiles m; finished := finished m |}.

Definition set_player_profiles (v : list (string * Profile)) (m : Manager) : Manager :=
  {| games := games m; player_profiles := v; finished := finished m |}.

(** [self.get_or_create_profile(qq, name)], the profile itself not used *)
Definition register_profile (qq name : string) (m : Manager) : Manager :=
  set_player_profiles (fst (get_or_create_profile qq name (player_profiles m))) m.

(** [self.games[room_id] = f(self.games[room_id])]: a mutation of the room
    object, which every holder of the reference sees *)
Definition upd_game (room_id : string) (f : Game -> Game) (m : Manager) : Manager :=
  match dict_index (games m) room_id with
  | Some i => set_games (alter_at (fun kv => (fst kv, f (snd kv))) i (games m)) m
  | None => m
  end.

Definition put_game (room_id : string) (g : Game) (m : Manager) : Manager :=
  upd_game room_id (fun _ => g) m.

(** ** WerewolfGameManager *)

Definition is_alive (p : Player) : bool := PlayerStatus.eqb (p_status p) PlayerStatus.ALIVE.

Definition has_role (r : Role) (p : Player) : bool :=
  match p_role p with
  | Some r' => role_eqb r' r
  | None => false
  end.

(** the player dict that [create_game] and [join_game] build *)
Definition new_player (name qq : string) (number : Z) : Player :=
  {| p_name := name; p_qq := qq; p_number := number; p_role := None;
     p_original_role := None; p_status := PlayerStatus.ALIVE; p_death_reason := None;
     p_killer := None; p_has_acted := false; p_is_lover := false;
     p_lover_partner := None; p_camp := None |}.

Definition default_roles (r : Role) : nat :=
  match r with
  | villager => 2
  | seer => 1
  | witch => 1
  | hunter => 1
  | wolf => 2
  | _ => 0
  end%nat.

Definition default_settings : Settings :=
  {| player_count := 8; roles := default_roles |}.

Definition new_game (room_id host_qq group_id host_name : string) : Game :=
  {| g_room_id := room_id; g_host := host_qq; g_group_id := group_id;
     g_players := [(host_qq, new_player host_name host_qq 1)];
     g_player_order := [host_qq];
     g_settings := default_settings;
     g_phase := GamePhase.SETUP; g_day_count := 0;
     g_night_actions := []; g_votes := []; g_death_queue := []; g_lovers := [];
     g_guard_protected := None; g_last_guard_target := None;
     g_magician_swap := None; g_painter_disguised := None;
     g_white_wolf_exploded := false;
     g_witch_status := WitchStatus.HAS_BOTH; g_witch_save_candidates := [];
     g_witch_used_save_this_night := false; g_witch_used_poison_this_night := false;
     g_winner := None; g_game_code := None; g_saved_players := [] |}.

(** [create_game]: the profile of the host is registered, and the room is
    stored under [room_id], replacing a room of the same id; the new room is
    returned. *)
Definition create_game (room_id host_qq group_id host_name : string) (m : Manager)
  : Manager * Game :=
  let game := new_game room_id host_qq group_id host_name in
  let m1 := register_profile host_qq host_name m in
  (set_games (dict_set (games m1) room_id game) m1, game).

Definition join_game (room_id player_qq player_name : string) (m : Manager)
  : Manager * bool :=
  match dict_get (games m) room_id with
  | None => (m, false)
  | Some game =>
      if Z.of_nat (List.length (g_players game)) >=? player_count (g_settings game)
      then (m, false)
      else if dict_mem (g_players game) player_qq then (m, false)
      else
        let m1 := register_profile player_qq player_name m in
        let p := new_player player_name player_qq (Z.of_nat (List.length (g_players game)) + 1) in
        let game' :=
          set_g_player_order (g_player_order game ++ [player_qq])
            (set_g_players (dict_set (g_players game) player_qq p) game) in
        (put_game room_id game' m1, true)
  end.

Definition destroy_game (room_id : string) (m : Manager) : Manager * bool :=
  if dict_mem (games m) room_id
  then (set_games (dict_del (games m) room_id) m, true)
  else (m, false).

(** [roles_to_assign]: every role key repeated by its configured count, in
    the order of the settings dict *)
Definition roles_to_assign (s : Settings) : list Role :=
  flat_map (fun r => repeat r (roles s r)) all_roles.

Section Shuffle.
Variable A : Type.

(** [x[i], x[j] = x[j], x[i]] *)
Definition swap (i j : nat) (x : list A) : list A :=
  match nth_error x i, nth_error x j with
  | Some a, Some b => alter_at (fun _ => a) j (alter_at (fun _ => b) i x)
  | _, _ => x
  end.

(** the loop of [random.shuffle]: [for i in reversed(range(1, len(x)))],
    with [j = randbelow(i + 1)].  [draw] is the random source; the draw
    for bound [n] is reduced into [0 .. n-1]. *)
Fixpoint shuffle_loop (draw : nat -> nat) (i : nat) (x : list A) : list A :=
  match i with
  | O => x
  | S i' => shuffle_loop draw i' (swap i (Nat.modulo (draw (S i)) (S i)) x)
  end.

Definition shuffle (draw : nat -> nat) (x : list A) : list A :=
  shuffle_loop draw (List.length x - 1) x.
End Shuffle.

Definition deal (r : Role) (p : Player) : Player :=
  set_p_original_role (Some r) (set_p_role (Some r) p).

(** [for i, player_qq in enumerate(game["player_order"])]: the [IndexError]
    of [roles_to_assign[i]] or the [KeyError] of the player leaves the
    players dealt so far *)
Fixpoint assign_roles (i : nat) (order : list string) (rs : list Role)
    (players : list (string * Player))
  : outcome (list (string * Player)) (list (string * Player)) :=
  match order with
  | [] => Ok players
  | player_qq :: order' =>
      r <~ raising players (nth_error rs i) ;;
      k <~ raising players (dict_index players player_qq) ;;
      assign_roles (S i) order' rs
        (alter_at (fun kv => (fst kv, deal r (snd kv))) k players)
  end.

Definition start_game (draw : nat -> nat) (room_id : string) (m : Manager)
  : outcome Manager (Manager * bool) :=
  match dict_get (games m) room_id with
  | None => Ok (m, false)
  | Some game =>
      if (List.length (g_players game) <? 6)%nat then Ok (m, false)
      else
        let rs := roles_to_assign (g_settings game) in
        if negb (List.length rs =? List.length (g_players game))%nat then Ok (m, false)
        else
          let rs' := shuffle draw rs in
          players' <~ raise_map (fun ps => put_game room_id (set_g_players ps game) m)
                        (assign_roles 0 (g_player_order game) rs' (g_players game)) ;;
          let game' :=
            set_g_day_count 1%nat
              (set_g_phase GamePhase.NIGHT (set_g_players players' game)) in
          Ok (put_game room_id game' m, true)
  end.

(** [archive_game]: the game code (a digest of the room id and the clock) is
    an input.  The code is written into the room, the profiles of the
    players are updated, and the room leaves the live map; the snapshot file
    that is moved is left out, the code is recorded in [finished]. *)
Definition archive_game (code : string) (room_id : string) (m : Manager)
  : outcome Manager (Manager * option string) :=
  match dict_get (games m) room_id with
  | None => Ok (m, None)
  | Some game =>
      let game' := set_g_game_code (Some code) game in
      let m1 := put_game room_id game' m in
      profiles <~ raise_map (fun ps => set_player_profiles ps m1)
                    (update_profiles code game' (player_profiles m)) ;;
      Ok ({| games := dict_del (games m) room_id;
             player_profiles := profiles;
             finished := finished m ++ [code] |}, Some code)
  end.

(** ** GameLogicProcessor *)

Definition player_values (g : Game) : list Player := dict_values (g_players g).

(** a reference to a player dict together with its current content *)
Definition find_player (f : Player -> bool) (g : Game) : option (nat * Player) :=
  i <- find_index f (player_values g) ;;
  p <- nth_error (player_values g) i ;;
  Some (i, p).

Definition _get_player_by_number (g : Game) (number : Z) : option (nat * Player) :=
  find_player (fun p => p_number p =? number) g.

Definition _get_player_by_role (g : Game) (role : Role) : option (nat * Player) :=
  find_player (fun p => has_role role p && is_alive p) g.

(** [game["players"][qq]]: [None] is [KeyError] *)
Definition player_ref (g : Game) (qq : string) : option (nat * Player) :=
  i <- dict_index (g_players g) qq ;;
  p <- nth_error (player_values g) i ;;
  Some (i, p).

(** mutation of a player through a reference *)
Definition alter_player (f : Player -> Player) (i : nat) (g : Game) : Game :=
  set_g_players (alter_at (fun kv => (fst kv, f (snd kv))) i (g_players g)) g.

Definition opt_Z_eqb (a : Z) (b : option Z) : bool :=
  match b with
  | Some b' => a =? b'
  | None => false
  end.

Definition str_mem (x : string) (l : list string) : bool :=
  existsb (String.eqb x) l.

(** the living players that must act at night, in dict order; [None] when a
    living player has no role ([ROLES[None]]) *)
Fixpoint night_action_players (ps : list Player) : option (list Player) :=
  match ps with
  | [] => Some []
  | p :: r =>
      if is_alive p
      then
        info <- ROLES_get (p_role p) ;;
        rest <- night_action_players r ;;
        Some (if ri_night_action info && negb (has_role witch p) then p :: rest else rest)
      else night_action_players r
  end.

Definition _check_all_night_actions_completed (g : Game) : option bool :=
  ps <- night_action_players (player_values g) ;;
  Some (forallb
          (fun p =>
             match p_role p with
             | Some r => dict_mem (g_night_actions g) (_get_role_action_key r)
             | None => dict_mem (g_night_actions g) ""
             end) ps).

Definition _calculate_potential_deaths (g : Game) : list (Z * string) :=
  match truthy (dict_get (g_night_actions g) "wolf_kill") with
  | None => []
  | Some wolf_kill_action =>
      match py_int wolf_kill_action with
      | None => []
      | Some target_num =>
          match _get_player_by_number g target_num with
          | Some (_, target_player) =>
              if is_alive target_player && negb (has_role double_faced target_player)
              then [(target_num, p_name target_player)]
              else []
          | None => []
          end
      end
  end.

(** [player1_num, player2_num = map(int, parts[:2])] for [len(parts) >= 2] *)
Definition two_ints (parts : list string) : option (Z * Z) :=
  match parts with
  | a :: b :: _ =>
      x <- py_int a ;;
      y <- py_int b ;;
      Some (x, y)
  | _ => None
  end.

Definition _process_cupid_action (g : Game) : option Game :=
  match truthy (dict_get (g_night_actions g) "cupid") with
  | None => Some g
  | Some cupid_action =>
      match two_ints (py_split cupid_action) with
      | None => Some g
      | Some (player1_num, player2_num) =>
          match _get_player_by_number g player1_num, _get_player_by_number g player2_num with
          | Some (i1, player1), Some (i2, player2) =>
              if is_alive player1 && is_alive player2
              then
                let g1 := alter_player
                            (fun p => set_p_lover_partner (Some (p_qq player2))
                                        (set_p_is_lover true p)) i1 g in
                let g2 := alter_player
                            (fun p => set_p_lover_partner (Some (p_qq player1))
                                        (set_p_is_lover true p)) i2 g1 in
                Some (set_g_lovers (g_lovers g2 ++ [p_qq player1; p_qq player2]) g2)
              else Some g
          | _, _ => Some g
          end
      end
  end.

Definition _process_guard_action (g : Game) : option Game :=
  match truthy (dict_get (g_night_actions g) "guard") with
  | None => Some g
  | Some guard_action =>
      match py_int guard_action with
      | None => Some g
      | Some target_num =>
          match _get_player_by_number g target_num with
          | Some (_, target_player) =>
              if is_alive target_player
              then
                if negb (opt_Z_eqb target_num (g_last_guard_target g))
                then Some (set_g_last_guard_target (Some target_num)
                             (set_g_guard_protected (Some target_num) g))
                else Some g
              else Some g
          | None => Some g
          end
      end
  end.

Definition _process_wolf_action (g : Game) : option Game :=
  match truthy (dict_get (g_night_actions g) "wolf_kill") with
  | None => Some g
  | Some wolf_kill_action =>
      match py_int wolf_kill_action with
      | None => Some g
      | Some target_num =>
          match _get_player_by_number g target_num with
          | Some (i, target_player) =>
              if is_alive target_player
              then
                if opt_Z_eqb target_num (g_guard_protected g) then Some g
                else if has_role double_faced target_player
                then Some (alter_player (set_p_camp (Some Camp.WOLF)) i g)
                else if str_mem (p_qq target_player) (g_saved_players g) then Some g
                else Some (set_g_death_queue
                             (g_death_queue g ++
                                [mkDeath (p_qq target_player) DeathReason.WOLF_KILL "wolf"]) g)
              else Some g
          | None => Some g
          end
      end
  end.

(** the seer only receives a private message; [ROLES[target_role]] raises
    when the target has no role *)
Definition _process_seer_action (g : Game) : option Game :=
  match truthy (dict_get (g_night_actions g) "seer") with
  | None => Some g
  | Some seer_action =>
      match py_int seer_action with
      | None => Some g
      | Some target_num =>
          match _get_player_by_number g target_num, _get_player_by_role g seer with
          | Some (_, target_player), Some _ =>
              _ <- ROLES_get (p_role target_player) ;; Some g
          | _, _ => Some g
          end
      end
  end.

Definition has_poison (w : WitchStatus.t) : bool :=
  match w with
  | WitchStatus.HAS_BOTH | WitchStatus.HAS_POISON_ONLY => true
  | _ => false
  end.

Definition has_save (w : WitchStatus.t) : bool :=
  match w with
  | WitchStatus.HAS_BOTH | WitchStatus.HAS_SAVE_ONLY => true
  | _ => false
  end.

Definition use_poison (w : WitchStatus.t) : WitchStatus.t :=
  match w with
  | WitchStatus.HAS_BOTH => WitchStatus.HAS_SAVE_ONLY
  | WitchStatus.HAS_POISON_ONLY => WitchStatus.USED_BOTH
  | other => other
  end.

Definition use_save (w : WitchStatus.t) : WitchStatus.t :=
  match w with
  | WitchStatus.HAS_BOTH => WitchStatus.HAS_POISON_ONLY
  | WitchStatus.HAS_SAVE_ONLY => WitchStatus.USED_BOTH
  | other => other
  end.

Definition _process_witch_poison_action (g : Game) : option Game :=
  match truthy (dict_get (g_night_actions g) "witch_poison") with
  | None => Some g
  | Some witch_poison_action =>
      match _get_player_by_role g witch with
      | None => Some g
      | Some (_, witch_player) =>
          match py_int witch_poison_action with
          | None => Some g
          | Some target_num =>
              match _get_player_by_number g target_num with
              | None => Some g
              | Some (_, target_player) =>
                  if negb (has_poison (g_witch_status g)) then Some g
                  else
                    let g1 := set_g_witch_status (use_poison (g_witch_status g))
                                (set_g_witch_used_poison_this_night true g) in
                    if has_role spiritualist target_player
                       || has_role double_faced target_player
                    then Some g1
                    else Some (set_g_death_queue
                                 (g_death_queue g1 ++
                                    [mkDeath (p_qq target_player) DeathReason.POISON
                                       (p_qq witch_player)]) g1)
              end
          end
      end
  end.

Definition _process_spiritualist_action (g : Game) : option Game :=
  match truthy (dict_get (g_night_actions g) "spiritualist") with
  | None => Some g
  | Some spiritualist_action =>
      match py_int spiritualist_action with
      | None => Some g
      | Some target_num =>
          match _get_player_by_number g target_num, _get_player_by_role g spiritualist with
          | Some (_, target_player), Some _ =>
              _ <- ROLES_get (p_role target_player) ;; Some g
          | _, _ => Some g
          end
      end
  end.

Definition _process_magician_action (g : Game) : option Game :=
  match truthy (dict_get (g_night_actions g) "magician") with
  | None => Some g
  | Some magician_action =>
      match two_ints (py_split magician_action) with
      | None => Some g
      | Some (num1, num2) =>
          match _get_player_by_number g num1, _get_player_by_number g num2 with
          | Some _, Some _ => Some (set_g_magician_swap (Some (num1, num2)) g)
          | _, _ => Some g
          end
      end
  end.

(** the disguise is written before the message to the painter is built,
    where [ROLES[target_player["role"]]] raises when the target has no role *)
Definition _process_painter_action (g : Game) : outcome Game Game :=
  match truthy (dict_get (g_night_actions g) "painter") with
  | None => Ok g
  | Some painter_action =>
      match py_int painter_action with
      | None => Ok g
      | Some target_num =>
          match _get_player_by_number g target_num, _get_player_by_role g painter with
          | Some (_, target_player), Some _ =>
              if negb (is_alive target_player)
              then
                let g1 := set_g_painter_disguised (p_role target_player) g in
                _ <~ raising g1 (ROLES_get (p_role target_player)) ;;
                Ok g1
              else Ok g
          | _, _ => Ok g
          end
      end
  end.

Definition kill (reason : DeathReason.t) (killer : string) (p : Player) : Player :=
  set_p_killer (Some killer)
    (set_p_death_reason (Some reason) (set_p_status PlayerStatus.DEAD p)).

(** one iteration of the loop of [_execute_deaths] *)
Definition execute_death (death : Death) (g : Game) : outcome Game Game :=
  '(i, player) <~ raising g (player_ref g (d_player_qq death)) ;;
  if is_alive player
  then
    let g1 := alter_player (kill (d_reason death) (d_killer death)) i g in
    if p_is_lover player
    then
      match truthy (p_lover_partner player) with
      | Some partner =>
          '(j, lover) <~ raising g1 (player_ref g1 partner) ;;
          if is_alive lover
          then Ok (alter_player (kill DeathReason.LOVER_SUICIDE (p_qq player)) j g1)
          else Ok g1
      | None => Ok g1
      end
    else Ok g1
  else Ok g.

Fixpoint execute_death_queue (q : list Death) (g : Game) : outcome Game Game :=
  match q with
  | [] => Ok g
  | death :: q' => g' <~ execute_death death g ;; execute_death_queue q' g'
  end.

Definition _execute_deaths (g : Game) : outcome Game Game :=
  g' <~ execute_death_queue (g_death_queue g) g ;;
  Ok (set_g_death_queue [] g').

(** the four counters of [_check_game_end] *)
Record Counts : Type := mkCounts {
  village_alive : nat;
  wolf_alive : nat;
  third_party_alive : nat;
  lovers_alive : nat
}.

Definition count_player (p : Player) (info : RoleInfo) (c : Counts) : Counts :=
  if p_is_lover p
  then mkCounts (village_alive c) (wolf_alive c) (third_party_alive c) (S (lovers_alive c))
  else
    match ri_camp info with
    | Camp.VILLAGE =>
        mkCounts (S (village_alive c)) (wolf_alive c) (third_party_alive c) (lovers_alive c)
    | Camp.WOLF =>
        mkCounts (village_alive c) (S (wolf_alive c)) (third_party_alive c) (lovers_alive c)
    | Camp.THIRD_PARTY =>
        mkCounts (village_alive c) (wolf_alive c) (S (third_party_alive c)) (lovers_alive c)
    | Camp.LOVER => c
    end.

(** the counting loop; [None] when a living player has no original role *)
Fixpoint count_alive (ps : list Player) (c : Counts) : option Counts :=
  match ps with
  | [] => Some c
  | p :: r =>
      if negb (is_alive p) then count_alive r c
      else
        info <- ROLES_get (p_original_role p) ;;
        count_alive r (count_player p info c)
  end.

(** the chain of win conditions; [None] is the [return False] branch *)
Definition decide_winner (c : Counts) : option string :=
  if (wolf_alive c =? 0)%nat then Some "village"
  else if (village_alive c + third_party_alive c <=? wolf_alive c)%nat then Some "wolf"
  else if (0 <? lovers_alive c)%nat
          && (village_alive c + wolf_alive c + third_party_alive c =? 0)%nat
  then Some "lover"
  else if (0 <? third_party_alive c)%nat
          && (village_alive c + wolf_alive c + lovers_alive c =? 0)%nat
  then Some "third_party"
  else None.

(** the role-reveal loop of the result message: [ROLES[original_role]] is
    looked up for every player, alive or not *)
Fixpoint reveal_roles (ps : list Player) : option unit :=
  match ps with
  | [] => Some tt
  | p :: r => _ <- ROLES_get (p_original_role p) ;; reveal_roles r
  end.

(** [_check_game_end(game, room_id)], where [game] is the room stored under
    [room_id]; [code] is the game code drawn by [archive_game].  The winner
    and the phase ENDED are written before the result message is built and
    before the room is archived. *)
Definition _check_game_end (code room_id : string) (m : Manager)
  : outcome Manager (Manager * bool) :=
  game <~ raising m (dict_get (games m) room_id) ;;
  c <~ raising m (count_alive (player_values game) (mkCounts 0 0 0 0)) ;;
  match decide_winner c with
  | None => Ok (m, false)
  | Some w =>
      let game' := set_g_phase GamePhase.ENDED (set_g_winner (Some w) game) in
      let m1 := put_game room_id game' m in
      _ <~ raising m1 (reveal_roles (player_values game')) ;;
      '(m2, _) <~ archive_game code room_id m1 ;;
      Ok (m2, true)
  end.

(** the abilities of the night in their fixed order, then the deaths; an
    ability that raises leaves what the abilities before it have written *)
Definition resolve_night (game : Game) : outcome Game Game :=
  g1 <~ (if (g_day_count game =? 1)%nat
         then raising game (_process_cupid_action game) else Ok game) ;;
  g2 <~ raising g1 (_process_guard_action g1) ;;
  g3 <~ raising g2 (_process_wolf_action g2) ;;
  g4 <~ raising g3 (_process_seer_action g3) ;;
  g5 <~ raising g4 (_process_witch_poison_action g4) ;;
  g6 <~ raising g5 (_process_spiritualist_action g5) ;;
  g7 <~ raising g6 (_process_magician_action g6) ;;
  g8 <~ (if (2 <=? g_day_count g7)%nat then _process_painter_action g7 else Ok g7) ;;
  _execute_deaths g8.

(** the transient state cleared when the day starts *)
Definition enter_day (g : Game) : Game :=
  set_g_saved_players []
    (set_g_witch_used_poison_this_night false
       (set_g_witch_used_save_this_night false
          (set_g_witch_save_candidates []
             (set_g_night_actions [] (set_g_phase GamePhase.DAY g))))).

Definition _process_all_night_actions (code room_id : string) (m : Manager)
  : outcome Manager (Manager * bool) :=
  game <~ raising m (dict_get (games m) room_id) ;;
  game' <~ raise_map (fun g => put_game room_id g m) (resolve_night game) ;;
  '(m', ended) <~ _check_game_end code room_id (put_game room_id game' m) ;;
  if ended : bool then Ok (m', true)
  else Ok (upd_game room_id enter_day m', true).

Definition process_night_actions (code room_id : string) (m : Manager)
  : outcome Manager (Manager * bool) :=
  match dict_get (games m) room_id with
  | None => Ok (m, false)
  | Some game =>
      all_acted <~ raising m (_check_all_night_actions_completed game) ;;
      if negb all_acted then Ok (m, false)
      else
        match _get_player_by_role game witch with
        | Some (_, witch_player) =>
            if is_alive witch_player && has_save (g_witch_status game)
               && negb (g_witch_used_save_this_night game)
            then
              let potential_deaths := _calculate_potential_deaths game in
              let game1 := set_g_witch_save_candidates potential_deaths game in
              match potential_deaths with
              | _ :: _ =>
                  Ok (put_game room_id (set_g_phase GamePhase.WITCH_SAVE_PHASE game1) m,
                      true)
              | [] => _process_all_night_actions code room_id (put_game room_id game1 m)
              end
            else _process_all_night_actions code room_id m
        | None => _process_all_night_actions code room_id m
        end
  end.

(** [set.add] *)
Definition set_add (x : string) (s : list string) : list string :=
  if str_mem x s then s else s ++ [x].

Definition apply_witch_save (game : Game) : Game :=
  match truthy (dict_get (g_night_actions game) "witch_save") with
  | Some witch_save_action =>
      match py_int witch_save_action with
      | None => game
      | Some target_num =>
          if existsb (Z.eqb target_num) (map fst (g_witch_save_candidates game))
          then
            let g1 := set_g_witch_status (use_save (g_witch_status game))
                        (set_g_witch_used_save_this_night true game) in
            match _get_player_by_number g1 target_num with
            | Some (_, target_player) =>
                set_g_saved_players (set_add (p_qq target_player) (g_saved_players g1)) g1
            | None => g1
            end
          else game
      end
  | None =>
      match truthy (dict_get (g_night_actions game) "witch_skip") with
      | Some _ => set_g_witch_used_save_this_night true game
      | None => game
      end
  end.

Definition process_witch_save_phase (code room_id : string) (m : Manager)
  : outcome Manager (Manager * bool) :=
  match dict_get (games m) room_id with
  | None => Ok (m, false)
  | Some game =>
      match _get_player_by_role game witch with
      | None => _process_all_night_actions code room_id m
      | Some _ =>
          _process_all_night_actions code room_id
            (put_game room_id (apply_witch_save game) m)
      end
  end.

(** ** Vote resolution *)

(** the votes of living voters, in dict order; [None] is the [KeyError] of a
    voter who is not a player *)
Fixpoint alive_votes (g : Game) (votes : list (string * Z)) : option (list (string * Z)) :=
  match votes with
  | [] => Some []
  | (voter_qq, vote_number) :: r =>
      '(_, voter) <- player_ref g voter_qq ;;
      rest <- alive_votes g r ;;
      Some (if is_alive voter then (voter_qq, vote_number) :: rest else rest)
  end.

(** [vote_count[n] = vote_count.get(n, 0) + 1] *)
Fixpoint vote_incr (vote_count : list (Z * nat)) (n : Z) : list (Z * nat) :=
  match vote_count with
  | [] => [(n, 1%nat)]
  | (k, c) :: r => if k =? n then (k, S c) :: r else (k, c) :: vote_incr r n
  end.

Definition tally (votes : list (string * Z)) : list (Z * nat) :=
  fold_left (fun vc v => vote_incr vc (snd v)) votes [].

Definition max_votes (vote_count : list (Z * nat)) : nat :=
  fold_right Nat.max 0%nat (map snd vote_count).

Definition candidates (vote_count : list (Z * nat)) : list Z :=
  map fst (filter (fun kc => (snd kc =? max_votes vote_count)%nat) vote_count).

Definition exile (p : Player) : Player :=
  let p1 := set_p_death_reason (Some DeathReason.VOTE)
              (set_p_status PlayerStatus.EXILED p) in
  if has_role double_faced p1 then set_p_camp (Some Camp.VILLAGE) p1 else p1.

(** the tally and the exile of [process_vote] *)
Definition resolve_vote (game : Game) (counted : list (string * Z)) : Game :=
  let vote_count := tally counted in
  match vote_count with
  | [] => game
  | _ =>
      match candidates vote_count with
      | [exiled_number] =>
          match find_player (fun p => (p_number p =? exiled_number) && is_alive p) game with
          | Some (i, _) => alter_player exile i game
          | None => game
          end
      | _ => game
      end
  end.

Definition hunter_triggered (p : Player) : bool :=
  negb (is_alive p) && has_role hunter p
  && negb match p_death_reason p with
          | Some r => DeathReason.eqb r DeathReason.POISON
          | None => false
          end.

Definition enter_night (g : Game) : Game :=
  set_g_witch_used_poison_this_night false
    (set_g_witch_used_save_this_night false
       (set_g_witch_save_candidates []
          (set_g_night_actions []
             (set_g_votes []
                (set_g_day_count (S (g_day_count g))
                   (set_g_phase GamePhase.NIGHT g)))))).

(** the loop of [_get_detailed_role_message] over the team mates of a wolf:
    [ROLES[p["role"]]] is looked up for every other player *)
Fixpoint wolf_teammates (player_qq : string) (ps : list Player) : option (list Z) :=
  match ps with
  | [] => Some []
  | p :: r =>
      if negb (String.eqb (p_qq p) player_qq)
      then
        info <- ROLES_get (p_role p) ;;
        rest <- wolf_teammates player_qq r ;;
        Some (if Camp.eqb (ri_camp info) Camp.WOLF && negb (has_role hidden_wolf p)
                 && is_alive p
              then p_number p :: rest else rest)
      else wolf_teammates player_qq r
  end.

(** [_get_detailed_role_message]: the text is left out, its lookups are not *)
Definition _get_detailed_role_message (player : Player) (g : Game) : option unit :=
  _ <- ROLES_get (p_role player) ;;
  if has_role wolf player
  then _ <- wolf_teammates (p_qq player) (player_values g) ;; Some tt
  else Some tt.

(** the private notices of [_send_night_start_message] of the game logic:
    every living player whose role acts at night and has a command gets the
    detailed role message *)
Fixpoint night_start_notices (g : Game) (ps : list Player) : option unit :=
  match ps with
  | [] => Some tt
  | p :: r =>
      if is_alive p
      then
        info <- ROLES_get (p_role p) ;;
        if ri_night_action info
        then
          match truthy (ri_command info) with
          | Some _ => _ <- _get_detailed_role_message p g ;; night_start_notices g r
          | None => night_start_notices g r
          end
        else night_start_notices g r
      else night_start_notices g r
  end.

Definition _send_night_start_message (g : Game) : option unit :=
  night_start_notices g (player_values g).

(** [process_vote]: the move to the night is written before the night-start
    message is sent *)
Definition process_vote (room_id : string) (m : Manager)
  : outcome Manager (Manager * bool) :=
  match dict_get (games m) room_id with
  | None => Ok (m, false)
  | Some game =>
      counted <~ raising m (alive_votes game (g_votes game)) ;;
      let total_alive := List.length (filter is_alive (player_values game)) in
      if (List.length counted <? total_alive)%nat then Ok (m, false)
      else
        let game1 := resolve_vote game counted in
        if existsb hunter_triggered (player_values game1)
        then Ok (put_game room_id (set_g_phase GamePhase.HUNTER_REVENGE game1) m, true)
        else
          let m1 := put_game room_id (enter_night game1) m in
          _ <~ raising m1 (_send_night_start_message (enter_night game1)) ;;
          Ok (m1, true)
  end.

(** The reply of a handler: one tag per [return] of the source. *)
Inductive Reply : Type :=
  (* _host_game *)
  | HostUnfinishedGame | HostNotGroupChat | HostCreated (room_id : string)
  (* _join_game *)
  | JoinMissingRoomId | JoinUnfinishedGame | JoinJoined (room_id : string) | JoinFailed
  (* _destroy_game *)
  | DestroyNotInGame | DestroyNotHost | DestroyDestroyed (room_id : string) | DestroyFailed
  (* _handle_settings *)
  | SettingsMissingArgs | SettingsBadFormat | SettingsNotInGame | SettingsNotHost
  | SettingsWrongPhase | SettingsPlayersNotNumber | SettingsPlayersOutOfRange
  | SettingsPlayersSet (n : Z) | SettingsRolesMissing | SettingsUnknownRole
  | SettingsRoleNotNumber | SettingsRoleNegative | SettingsRoleSet (r : Role) (n : nat)
  | SettingsUnknownType
  (* _start_game *)
  | StartNotInGame | StartNotHost | StartStarted | StartFailed
  (* _handle_name_command *)
  | NameMissingOperation | NameMissingNickname | NameTooLong | NameEmpty
  | NameSet | NameViewed | NameNotSet | NameUnknownOperation
  (* execute: the help text, the read-only commands, the answer to an
     exception *)
  | Help | OtherCommand | ExecuteError
  (* _handle_game_action *)
  | ActUserNotInAnyGame | ActPlayerNotInGame | ActPlayerOut
  | ActWitchSavePhaseOnlySaveSkip | ActDayOnlyVoteExplode | ActHunterPhaseOnlyShoot
  | ActWrongPhase
  (* _handle_night_action *)
  | NightRoleHasNoAction | NightCommandMismatch | NightWitchSaveNotReady
  | NightWitchNoPoison | NightMissingTarget | NightTargetInvalid
  | NightTargetNotNumber | NightWitchPoisoned | NightRecorded | NightUnhandled
  (* _handle_witch_save_action, _handle_witch_skip_action *)
  | SaveNotWitch | SaveMissingTarget | SaveTargetNotCandidate | SaveTargetNotNumber
  | SaveUsed | SkipNotWitch | SkipDone
  (* _handle_vote_action *)
  | VoteMissingTarget | VoteTargetInvalid | VoteTargetNotNumber | VoteVoted (n : Z)
  (* _handle_white_wolf_action *)
  | ExplodeNotWhiteWolf | ExplodeMissingTarget | ExplodeTargetInvalid
  | ExplodeTargetNotNumber | ExplodeDone
  (* _handle_hunter_action *)
  | ShootNotHunter | ShootMissingTarget | ShootTargetInvalid | ShootTargetNotNumber
  | ShootDone.

(** the first component of the returned tuple: whether the command succeeded *)
Definition reply_ok (r : Reply) : bool :=
  match r with
  | HostCreated _ | JoinJoined _ | DestroyDestroyed _ | StartStarted
  | SettingsPlayersSet _ | SettingsRoleSet _ _ | Help | NameSet | NameViewed
  | NightWitchPoisoned | NightRecorded | SaveUsed | SkipDone | VoteVoted _
  | ExplodeDone | ShootDone => true
  | _ => false
  end.

Definition _has_unfinished_game (user_id : string) (m : Manager) : bool :=
  existsb
    (fun game => dict_mem (g_players game) user_id
                 && negb (GamePhase.eqb (g_phase game) GamePhase.ENDED))
    (dict_values (games m)).

Definition _find_user_game (user_id : string) (m : Manager) : option string :=
  option_map fst (find (fun kv => dict_mem (g_players (snd kv)) user_id) (games m)).

(** [f"WWG{int(time.time()) % 1000000:06d}"] *)
Definition pad6 (s : string) : string :=
  string_of_list_ascii (repeat "0"%char (6 - String.length s)) ++ s.

Definition room_id_of_time (now : Z) : string :=
  "WWG" ++ pad6 (py_str (now mod 1000000)).

(** [_host_game]: [group_info] is the group the message came from, if any;
    [user_name] is the nickname looked up for the sender; [now] is the clock. *)
Definition _host_game (now : Z) (user_id user_name : string) (group_info : option string)
    (m : Manager) : Manager * Reply :=
  if _has_unfinished_game user_id m then (m, HostUnfinishedGame)
  else
    match group_info with
    | None => (m, HostNotGroupChat)
    | Some group_id =>
        let room_id := room_id_of_time now in
        let '(m', _) := create_game room_id user_id group_id user_name m in
        (m', HostCreated room_id)
    end.

Definition py_strip (s : string) : string :=
  string_of_list_ascii (strip (list_ascii_of_string s)).

Definition _join_game (args user_id user_name : string) (m : Manager) : Manager * Reply :=
  match args with
  | "" => (m, JoinMissingRoomId)
  | _ =>
      let room_id := py_strip args in
      if _has_unfinished_game user_id m then (m, JoinUnfinishedGame)
      else
        let '(m', success) := join_game room_id user_id user_name m in
        if success : bool then (m', JoinJoined room_id) else (m', JoinFailed)
  end.

Definition _destroy_game (user_id : string) (m : Manager)
  : outcome Manager (Manager * Reply) :=
  match truthy (_find_user_game user_id m) with
  | None => Ok (m, DestroyNotInGame)
  | Some room_id =>
      game <~ raising m (dict_get (games m) room_id) ;;
      if negb (String.eqb (g_host game) user_id) then Ok (m, DestroyNotHost)
      else
        let '(m', success) := destroy_game room_id m in
        Ok (m', if success : bool then DestroyDestroyed room_id else DestroyFailed)
  end.

(** [role_key in ROLES] *)
Definition role_of_key (k : string) : option Role :=
  match k with
  | "villager" => Some villager
  | "seer" => Some seer
  | "witch" => Some witch
  | "hunter" => Some hunter
  | "wolf" => Some wolf
  | "hidden_wolf" => Some hidden_wolf
  | "guard" => Some guard
  | "magician" => Some magician
  | "double_faced" => Some double_faced
  | "spiritualist" => Some spiritualist
  | "successor" => Some successor
  | "painter" => Some painter
  | "white_wolf" => Some white_wolf
  | "cupid" => Some cupid
  | _ => None
  end.

Definition set_player_count (n : Z) (s : Settings) : Settings :=
  {| player_count := n; roles := roles s |}.

(** [settings["roles"][role_key] = role_count] *)
Definition set_role_count (r : Role) (n : nat) (s : Settings) : Settings :=
  {| player_count := player_count s;
     roles := fun r' => if role_eqb r' r then n else roles s r' |}.

Definition _handle_settings (args user_id : string) (m : Manager)
  : outcome Manager (Manager * Reply) :=
  match args with
  | "" => Ok (m, SettingsMissingArgs)
  | _ =>
      match py_split args with
      | setting_type :: value :: rest =>
          match truthy (_find_user_game user_id m) with
          | None => Ok (m, SettingsNotInGame)
          | Some room_id =>
              game <~ raising m (dict_get (games m) room_id) ;;
              if negb (String.eqb (g_host game) user_id) then Ok (m, SettingsNotHost)
              else if negb (GamePhase.eqb (g_phase game) GamePhase.SETUP)
              then Ok (m, SettingsWrongPhase)
              else if String.eqb setting_type "players"
              then
                match py_int value with
                | None => Ok (m, SettingsPlayersNotNumber)
                | Some n =>
                    if (n <? 6) || (n >? 18) then Ok (m, SettingsPlayersOutOfRange)
                    else Ok (put_game room_id
                               (set_g_settings (set_player_count n (g_settings game)) game)
                               m, SettingsPlayersSet n)
                end
              else if String.eqb setting_type "roles"
              then
                match rest with
                | [] => Ok (m, SettingsRolesMissing)
                | count :: _ =>
                    match role_of_key value with
                    | None => Ok (m, SettingsUnknownRole)
                    | Some role_key =>
                        match py_int count with
                        | None => Ok (m, SettingsRoleNotNumber)
                        | Some role_count =>
                            if role_count <? 0 then Ok (m, SettingsRoleNegative)
                            else
                              let n := Z.to_nat role_count in
                              Ok (put_game room_id
                                    (set_g_settings
                                       (set_role_count role_key n (g_settings game)) game)
                                    m, SettingsRoleSet role_key n)
                        end
                    end
                end
              else Ok (m, SettingsUnknownType)
          end
      | _ => Ok (m, SettingsBadFormat)
      end
  end.

(** the team mates listed in the start message of a wolf-camp player *)
Fixpoint start_teammates (player_qq : string) (ps : list Player) : option (list Z) :=
  match ps with
  | [] => Some []
  | p :: r =>
      if negb (String.eqb (p_qq p) player_qq)
      then
        info <- ROLES_get (p_role p) ;;
        rest <- start_teammates player_qq r ;;
        Some (if Camp.eqb (ri_camp info) Camp.WOLF && negb (has_role hidden_wolf p)
              then p_number p :: rest else rest)
      else start_teammates player_qq r
  end.

(** the private role messages of [_start_game], one per player *)
Fixpoint start_notices (g : Game) (entries : list (string * Player)) : option unit :=
  match entries with
  | [] => Some tt
  | (player_qq, player) :: r =>
      info <- ROLES_get (p_role player) ;;
      _ <- (if Camp.eqb (ri_camp info) Camp.WOLF && negb (has_role hidden_wolf player)
            then start_teammates player_qq (player_values g) else Some []) ;;
      start_notices g r
  end.

Definition _start_game (draw : nat -> nat) (user_id : string) (m : Manager)
  : outcome Manager (Manager * Reply) :=
  match truthy (_find_user_game user_id m) with
  | None => Ok (m, StartNotInGame)
  | Some room_id =>
      game <~ raising m (dict_get (games m) room_id) ;;
      if negb (String.eqb (g_host game) user_id) then Ok (m, StartNotHost)
      else
        '(m', success) <~ start_game draw room_id m ;;
        if success : bool
        then
          started <~ raising m' (dict_get (games m') room_id) ;;
          _ <~ raising m' (start_notices started (g_players started)) ;;
          Ok (m', StartStarted)
        else Ok (m', StartFailed)
  end.

(** the target check shared by the handlers:
    [not target_player or target_player["status"] != ALIVE] *)
Definition living_target (g : Game) (n : Z) : option (nat * Player) :=
  match _get_player_by_number g n with
  | Some (i, p) => if is_alive p then Some (i, p) else None
  | None => None
  end.

Section Handlers.
(** the game code drawn if the command ends the game *)
Variable code : string.
Variable room_id : string.

Definition record_night_action (key value : string) (i : nat) (game : Game) (m : Manager)
  : outcome Manager (Manager * bool) :=
  let game' :=
    alter_player (set_p_has_acted true) i
      (set_g_night_actions (dict_set (g_night_actions game) key value) game) in
  process_night_actions code room_id (put_game room_id game' m).

Definition _handle_night_action (game : Game) (i : nat) (player : Player)
    (action args : string) (m : Manager) : outcome Manager (Manager * Reply) :=
  role_info <~ raising m (ROLES_get (p_role player)) ;;
  if negb (ri_night_action role_info) then Ok (m, NightRoleHasNoAction)
  else
    let matches :=
      match ri_command role_info with
      | Some expected => String.eqb action expected
      | None => false
      end in
    if negb matches
       && negb (has_role witch player
                && (String.eqb action "save" || String.eqb action "poison"))
    then Ok (m, NightCommandMismatch)
    else if has_role witch player
    then
      if String.eqb action "save" then Ok (m, NightWitchSaveNotReady)
      else if String.eqb action "poison"
      then
        if negb (has_poison (g_witch_status game)) then Ok (m, NightWitchNoPoison)
        else
          match args with
          | "" => Ok (m, NightMissingTarget)
          | _ =>
              match py_int args with
              | None => Ok (m, NightTargetNotNumber)
              | Some target_num =>
                  match living_target game target_num with
                  | None => Ok (m, NightTargetInvalid)
                  | Some _ =>
                      '(m', _) <~ record_night_action "witch_poison" args i game m ;;
                      Ok (m', NightWitchPoisoned)
                  end
              end
          end
      else Ok (m, NightUnhandled)
    else
      match args, p_role player with
      | "", _ => Ok (m, NightMissingTarget)
      | _, None => Raise m
      | _, Some role =>
          if String.eqb action "swap" || String.eqb action "choose"
          then
            match py_split args with
            | a :: b :: _ =>
                match py_int a, py_int b with
                | Some target1, Some target2 =>
                    match living_target game target1, living_target game target2 with
                    | Some _, Some _ =>
                        '(m', _) <~ record_night_action (_get_role_action_key role)
                                      (py_str target1 ++ " " ++ py_str target2) i game m ;;
                        Ok (m', NightRecorded)
                    | _, _ => Ok (m, NightTargetInvalid)
                    end
                | _, _ => Ok (m, NightTargetNotNumber)
                end
            | _ => Ok (m, NightMissingTarget)
            end
          else
            match py_int args with
            | None => Ok (m, NightTargetNotNumber)
            | Some target_num =>
                match living_target game target_num with
                | None => Ok (m, NightTargetInvalid)
                | Some _ =>
                    '(m', _) <~ record_night_action (_get_role_action_key role)
                                  args i game m ;;
                    Ok (m', NightRecorded)
                end
            end
      end.

Definition _handle_witch_save_action (game : Game) (player : Player) (args : string)
    (m : Manager) : outcome Manager (Manager * Reply) :=
  if negb (has_role witch player) then Ok (m, SaveNotWitch)
  else
    match args with
    | "" => Ok (m, SaveMissingTarget)
    | _ =>
        match py_int args with
        | None => Ok (m, SaveTargetNotNumber)
        | Some target_num =>
            if negb (existsb (Z.eqb target_num) (map fst (g_witch_save_candidates game)))
            then Ok (m, SaveTargetNotCandidate)
            else
              let game' :=
                set_g_night_actions (dict_set (g_night_actions game) "witch_save" args)
                  game in
              '(m', _) <~ process_witch_save_phase code room_id (put_game room_id game' m) ;;
              Ok (m', SaveUsed)
        end
    end.

Definition _handle_witch_skip_action (game : Game) (player : Player) (m : Manager)
  : outcome Manager (Manager * Reply) :=
  if negb (has_role witch player) then Ok (m, SkipNotWitch)
  else
    let game' :=
      set_g_night_actions (dict_set (g_night_actions game) "witch_skip" "true") game in
    '(m', _) <~ process_witch_save_phase code room_id (put_game room_id game' m) ;;
    Ok (m', SkipDone).

(** the vote is recorded, the progress is counted (the [KeyError] of a voter
    who is not a player), and the resolution is tried *)
Definition _handle_vote_action (game : Game) (player : Player) (args : string)
    (m : Manager) : outcome Manager (Manager * Reply) :=
  match args with
  | "" => Ok (m, VoteMissingTarget)
  | _ =>
      match py_int args with
      | None => Ok (m, VoteTargetNotNumber)
      | Some vote_target =>
          match living_target game vote_target with
          | None => Ok (m, VoteTargetInvalid)
          | Some _ =>
              let game' :=
                set_g_votes (dict_set (g_votes game) (p_qq player) vote_target) game in
              let m1 := put_game room_id game' m in
              _ <~ raising m1 (alive_votes game' (g_votes game')) ;;
              '(m', _) <~ process_vote room_id m1 ;;
              Ok (m', VoteVoted vote_target)
          end
      end
  end.

(** the state reset of the white wolf and hunter handlers when the night
    starts *)
Definition next_night (g : Game) : Game :=
  set_g_night_actions []
    (set_g_votes []
       (set_g_day_count (S (g_day_count g)) (set_g_phase GamePhase.NIGHT g))).

(** the night-start message of the command class is one group message and
    looks nothing up *)
Definition _handle_white_wolf_action (game : Game) (i : nat) (player : Player)
    (args : string) (m : Manager) : outcome Manager (Manager * Reply) :=
  if negb (has_role white_wolf player) then Ok (m, ExplodeNotWhiteWolf)
  else
    match args with
    | "" => Ok (m, ExplodeMissingTarget)
    | _ =>
        match py_int args with
        | None => Ok (m, ExplodeTargetNotNumber)
        | Some target_num =>
            match living_target game target_num with
            | None => Ok (m, ExplodeTargetInvalid)
            | Some (j, _) =>
                let g1 := alter_player (kill DeathReason.WHITE_WOLF (p_qq player)) i game in
                let g2 := alter_player (kill DeathReason.WHITE_WOLF (p_qq player)) j g1 in
                let g3 := set_g_white_wolf_exploded true g2 in
                Ok (put_game room_id (next_night g3) m, ExplodeDone)
            end
        end
    end.

Definition _handle_hunter_action (game : Game) (player : Player) (args : string)
    (m : Manager) : outcome Manager (Manager * Reply) :=
  if negb (has_role hunter player) then Ok (m, ShootNotHunter)
  else
    match args with
    | "" => Ok (m, ShootMissingTarget)
    | _ =>
        match py_int args with
        | None => Ok (m, ShootTargetNotNumber)
        | Some target_num =>
            match living_target game target_num with
            | None => Ok (m, ShootTargetInvalid)
            | Some (j, _) =>
                let g1 := alter_player (kill DeathReason.HUNTER_SHOOT (p_qq player)) j game in
                Ok (put_game room_id (next_night g1) m, ShootDone)
            end
        end
    end.
End Handlers.

(** [_handle_game_action]: the router of every in-game verb *)
Definition _handle_game_action (code : string) (user_id action args : string) (m : Manager)
  : outcome Manager (Manager * Reply) :=
  if String.eqb action "destroy" then _destroy_game user_id m
  else
    match truthy (_find_user_game user_id m) with
    | None => Ok (m, ActUserNotInAnyGame)
    | Some room_id =>
        game <~ raising m (dict_get (games m) room_id) ;;
        match player_ref game user_id with
        | None => Ok (m, ActPlayerNotInGame)
        | Some (i, player) =>
            if negb (is_alive player) then Ok (m, ActPlayerOut)
            else
              match g_phase game with
              | GamePhase.WITCH_SAVE_PHASE =>
                  if String.eqb action "save"
                  then _handle_witch_save_action code room_id game player args m
                  else if String.eqb action "skip"
                  then _handle_witch_skip_action code room_id game player m
                  else Ok (m, ActWitchSavePhaseOnlySaveSkip)
              | GamePhase.NIGHT =>
                  _handle_night_action code room_id game i player action args m
              | GamePhase.DAY =>
                  if String.eqb action "vote"
                  then _handle_vote_action room_id game player args m
                  else if String.eqb action "explode"
                  then _handle_white_wolf_action room_id game i player args m
                  else Ok (m, ActDayOnlyVoteExplode)
              | GamePhase.HUNTER_REVENGE =>
                  if String.eqb action "shoot"
                  then _handle_hunter_action room_id game player args m
                  else Ok (m, ActHunterPhaseOnlyShoot)
              | _ => Ok (m, ActWrongPhase)
              end
        end
    end.

Definition lower_ascii (c : ascii) : ascii :=
  let n := nat_of_ascii c in
  if ((65 <=? n) && (n <=? 90))%nat then ascii_of_nat (n + 32) else c.

(** [s.lower()] on an ASCII string *)
Definition py_lower (s : string) : string :=
  string_of_list_ascii (map lower_ascii (list_ascii_of_string s)).

(** ** Nicknames *)

(** A string is its UTF-8 bytes: a character is a lead byte and the
    continuation bytes (10xxxxxx) after it. *)
Definition is_continuation (c : ascii) : bool :=
  let n := nat_of_ascii c in (128 <=? n)%nat && (n <? 192)%nat.

(** [len(s)] *)
Definition py_len (s : string) : nat :=
  List.length (filter (fun c => negb (is_continuation c)) (list_ascii_of_string s)).

Fixpoint take_chars (n : nat) (l : list ascii) : list ascii :=
  match l with
  | [] => []
  | c :: r =>
      if is_continuation c then c :: take_chars n r
      else match n with
           | O => []
           | S n' => c :: take_chars n' r
           end
  end.

(** [s[:n]] *)
Definition py_prefix (n : nat) (s : string) : string :=
  string_of_list_ascii (take_chars n (list_ascii_of_string s)).

(** [f"玩家{user_id[:5]}"] *)
Definition default_nickname (user_id : string) : string :=
  "玩家" ++ py_prefix 5 user_id.

(** [_get_user_nickname]: the name of the profile when there is one and it is
    not empty *)
Definition _get_user_nickname (user_id : string) (m : Manager) : string :=
  match dict_get (player_profiles m) user_id with
  | Some profile =>
      match pf_name profile with
      | "" => default_nickname user_id
      | name => name
      end
  | None => default_nickname user_id
  end.

Definition set_pf_name (name : string) (p : Profile) : Profile :=
  {| pf_qq := pf_qq p; pf_name := name; pf_total_games := pf_total_games p;
     pf_wins := pf_wins p; pf_losses := pf_losses p;
     pf_kills := pf_kills p; pf_votes := pf_votes p;
     pf_recent_win_rate := pf_recent_win_rate p;
     pf_recent_games := pf_recent_games p |}.

(** [_set_nickname]: the profile is created if need be, then renamed *)
Definition _set_nickname (nickname user_id : string) (m : Manager) : Manager * Reply :=
  let m1 := register_profile user_id nickname m in
  (set_player_profiles (dict_alter user_id (set_pf_name nickname) (player_profiles m1)) m1,
   NameSet).

Definition _view_nickname (user_id : string) (m : Manager) : Manager * Reply :=
  match dict_get (player_profiles m) user_id with
  | Some profile =>
      match pf_name profile with
      | "" => (m, NameNotSet)
      | _ => (m, NameViewed)
      end
  | None => (m, NameNotSet)
  end.

(** the first word of [l] and what follows it *)
Fixpoint break_ws (cur : list ascii) (l : list ascii) : list ascii * list ascii :=
  match l with
  | [] => (rev cur, [])
  | c :: r => if is_space c then (rev cur, r) else break_ws (c :: cur) r
  end.

(** [s.split(maxsplit=1)] *)
Definition py_split1 (s : string) : list string :=
  match lstrip (list_ascii_of_string s) with
  | [] => []
  | l =>
      let '(word, after) := break_ws [] l in
      match lstrip after with
      | [] => [string_of_list_ascii word]
      | rest => [string_of_list_ascii word; string_of_list_ascii rest]
      end
  end.

(** [_handle_name_command]: [parts[0]] raises [IndexError] when [args] is
    blank *)
Definition _handle_name_command (args user_id : string) (m : Manager)
  : outcome Manager (Manager * Reply) :=
  match args with
  | "" => Ok (m, NameMissingOperation)
  | _ =>
      match py_split1 args with
      | [] => Raise m
      | first :: more =>
          let operation := string_of_list_ascii
                             (map lower_ascii (list_ascii_of_string first)) in
          if String.eqb operation "set"
          then
            match more with
            | [] => Ok (m, NameMissingNickname)
            | second :: _ =>
                let nickname := py_strip second in
                if (20 <? py_len nickname)%nat then Ok (m, NameTooLong)
                else if (py_len nickname <? 1)%nat then Ok (m, NameEmpty)
                else Ok (_set_nickname nickname user_id m)
            end
          else if String.eqb operation "view" then Ok (_view_nickname user_id m)
          else Ok (m, NameUnknownOperation)
      end
  end.

(** ** The router *)

(** An incoming [/wwg] message: the sender, the group the host framework
    reports for it, the matched groups of the command pattern, and what the
    handling of this message reads from its environment (the clock, the
    random source, the digest used as game code). *)
Record Message : Type := mkMessage {
  msg_user_id : string;
  msg_group : option string;
  msg_subcommand : string;
  msg_args : string;
  msg_now : Z;
  msg_draw : nat -> nat;
  msg_code : string
}.

(** the body of the [try] of [execute]; the read-only commands leave the
    manager as it is, and what they answer is not modelled *)
Definition dispatch (msg : Message) (m : Manager) : outcome Manager (Manager * Reply) :=
  let subcommand := py_lower (msg_subcommand msg) in
  let args := msg_args msg in
  let user_id := msg_user_id msg in
  if String.eqb subcommand "destroy" then _destroy_game user_id m
  else if String.eqb subcommand "" then Ok (m, Help)
  else if String.eqb subcommand "host"
  then Ok (_host_game (msg_now msg) user_id (_get_user_nickname user_id m) (msg_group msg) m)
  else if String.eqb subcommand "join"
  then Ok (_join_game args user_id (_get_user_nickname user_id m) m)
  else if String.eqb subcommand "status" then Ok (m, OtherCommand)
  else if String.eqb subcommand "settings" then _handle_settings args user_id m
  else if String.eqb subcommand "start" then _start_game (msg_draw msg) user_id m
  else if String.eqb subcommand "profile" then Ok (m, OtherCommand)
  else if String.eqb subcommand "archive" then Ok (m, OtherCommand)
  else if String.eqb subcommand "test_private" then Ok (m, OtherCommand)
  else if String.eqb subcommand "name" then _handle_name_command args user_id m
  else _handle_game_action (msg_code msg) user_id subcommand args m.

(** [execute]: an exception of the handler is caught and answered with an
    error reply; what the handler had written by then stays written *)
Definition execute (msg : Message) (m : Manager) : Manager * Reply :=
  match dispatch msg m with
  | Ok r => r
  | Raise m' => (m', ExecuteError)
  end.

(** a session: the messages handled one after the other *)
Fixpoint run (msgs : list Message) (m : Manager) : Manager :=
  match msgs with
  | [] => m
  | msg :: rest => run rest (fst (execute msg m))
  end.

Definition empty_manager : Manager :=
  {| games := []; player_profiles := []; finished := [] |}.
(** ** Sessions used in the evaluations below

    Every room of the evaluations is reached from the empty manager by a
    session of commands.  All messages come from group ["g1"] at clock 1000,
    so the room id is ["WWG001000"]; the random source always draws 0.  No
    player has set a nickname, so player ["u1"] is named ["玩家u1"]. *)

Definition msg (u sub args : string) : Message :=
  {| msg_user_id := u; msg_group := Some "g1";
     msg_subcommand := sub; msg_args := args; msg_now := 1000;
     msg_draw := fun _ => 0%nat; msg_code := "c0de" |}.

Definition room : string := "WWG001000".

Definition joins (users : list string) : list Message :=
  map (fun u => msg u "join" room) users.

(** the host ["u1"] opens a room, sets the role counts [cfg], five more
    players join and the host starts the game *)
Definition setup (cfg : list string) : list Message :=
  msg "u1" "host" "" :: map (fun a => msg "u1" "settings" ("roles " ++ a)) cfg
    ++ joins ["u2"; "u3"; "u4"; "u5"; "u6"] ++ [msg "u1" "start" ""].

Definition votes (voters : list string) (n : string) : list Message :=
  map (fun u => msg u "vote" n) voters.

Definition everyone : list string := ["u1"; "u2"; "u3"; "u4"; "u5"; "u6"].

(** a session none of whose commands raises: [None] as soon as a command is
    answered by the [except] branch of [execute] *)
Fixpoint run_ok (msgs : list Message) (m : Manager) : option Manager :=
  match msgs with
  | [] => Some m
  | msg :: rest =>
      match dispatch msg m with
      | Ok (m', _) => run_ok rest m'
      | Raise _ => None
      end
  end.

(** the room of the sessions, once the session is over *)
Definition room_after (session : list Message) : option Game :=
  m <- run_ok session empty_manager ;; dict_get (games m) room.

Definition seat_status (g : Game) (n : Z) : option PlayerStatus.t :=
  option_map (fun ip => p_status (snd ip)) (_get_player_by_number g n).

(** what the win rules say over the living players of a room *)
Definition living_winner (g : Game) : option (option string) :=
  option_map decide_winner (count_alive (player_values g) (mkCounts 0 0 0 0)).

(** Seats dealt: 1 villager, 2 seer, 3 witch, 4 hunter, 5 wolf, 6 villager.
    Night 1: the wolf attacks seat 1 and the witch saves it.  Day 1: all six
    vote for seat 5, the only wolf. *)
Definition vote_session : list Message :=
  setup ["wolf 1"]
    ++ [msg "u2" "check" "5"; msg "u5" "kill" "1"; msg "u3" "save" "1"]
    ++ votes everyone "5".

(** Seats dealt: 1 seer, 2 witch, 3 hunter, 4 hunter, 5 wolf, 6 villager.
    Day 1: the hunter of seat 3 is exiled; the living hunter of seat 4 shoots
    seat 5, the only wolf. *)
Definition shoot_session : list Message :=
  setup ["wolf 1"; "villager 1"; "hunter 2"]
    ++ [msg "u1" "check" "5"; msg "u5" "kill" "6"; msg "u2" "save" "6"]
    ++ votes everyone "3" ++ [msg "u4" "shoot" "5"].

(** Seats dealt: 1 villager, 2 seer, 3 witch, 4 hunter, 5 white wolf,
    6 villager.  Day 1: the white wolf, the only wolf, explodes on seat 1. *)
Definition explode_session : list Message :=
  setup ["wolf 0"; "white_wolf 1"]
    ++ [msg "u2" "check" "5"; msg "u5" "explode" "1"].

(** a session after which the room is still live, not ended and about to
    play a night, although the win rules already name a winner *)
Definition skips_win_check (session : list Message) (w : string) : Prop :=
  exists m g,
    run_ok session empty_manager = Some m /\
    dict_get (games m) room = Some g /\
    living_winner g = Some (Some w) /\
    g_phase g = GamePhase.NIGHT /\
    g_winner g = None /\
    finished m = [].

(** Day 1 of the vote session with the hunter of seat 4 exiled: the room
    waits in HUNTER_REVENGE. *)
Definition revenge_session : list Message :=
  setup ["wolf 1"]
    ++ [msg "u2" "check" "5"; msg "u5" "kill" "1"; msg "u3" "save" "1"]
    ++ votes everyone "4".

(** Seats dealt: 1 seer, 2 witch, 3 hunter, 4 wolf, 5 cupid, 6 villager.
    Night 1: cupid pairs seats 1 and 6.  Day 1: all six vote for seat 6. *)
Definition lover_vote_session : list Message :=
  setup ["wolf 1"; "villager 1"; "cupid 1"]
    ++ [msg "u5" "choose" "1 6"; msg "u1" "check" "4"; msg "u4" "kill" "2";
        msg "u2" "save" "2"]
    ++ votes everyone "6".

(** Seats dealt: 1 villager, 2 seer, 3 witch, 4 white wolf, 5 cupid,
    6 villager.  Night 1: cupid pairs seats 1 and 6.  Day 1: the white wolf
    explodes on seat 6. *)
Definition lover_explode_session : list Message :=
  setup ["wolf 0"; "white_wolf 1"; "hunter 0"; "cupid 1"]
    ++ [msg "u5" "choose" "1 6"; msg "u2" "check" "4"; msg "u4" "explode" "6"].

(** the same pairing, the wolf of [lover_vote_session] attacking seat 6 at
    night and the witch keeping her save *)
Definition lover_night_session : list Message :=
  setup ["wolf 1"; "villager 1"; "cupid 1"]
    ++ [msg "u5" "choose" "1 6"; msg "u1" "check" "4"; msg "u4" "kill" "6";
        msg "u2" "skip" ""].

(** Seats dealt: 1 villager, 2 villager, 3 seer, 4 wolf, 5 double-faced,
    6 villager.  Night 1: the wolf attacks seat 5.  Day 1: the seer is
    exiled.  Night 2: the wolf kills seat 1. *)
Definition double_faced_session : list Message :=
  setup ["wolf 1"; "villager 3"; "witch 0"; "hunter 0"; "double_faced 1"]
    ++ [msg "u3" "check" "4"; msg "u4" "kill" "5"]
    ++ votes everyone "3"
    ++ [msg "u4" "kill" "1"].

(** Seats dealt: 1 villager, 2 villager, 3 seer, 4 wolf, 5 guard,
    6 villager.  Night 1: the guard protects seat 2, the wolf kills seat 1.
    Day 1: a tie.  Night 2: the guard names seat 2 again. *)
Definition guard_night1 : list Message :=
  setup ["wolf 1"; "villager 3"; "witch 0"; "hunter 0"; "guard 1"]
    ++ [msg "u5" "guard" "2"; msg "u4" "kill" "1"; msg "u3" "check" "4"]
    ++ votes ["u2"; "u3"] "4" ++ votes ["u4"; "u5"] "3" ++ votes ["u6"] "6".

Definition guard_repeat_session : list Message :=
  guard_night1 ++ [msg "u5" "guard" "2"; msg "u4" "kill" "2"; msg "u3" "check" "4"].

(** Seats dealt: 1 villager, 2 seer, 3 witch, 4 wolf, 5 guard, 6 villager.
    Night 1: the guard protects seat 1 and the wolf attacks seat 1. *)
Definition guarded_target_session : list Message :=
  setup ["wolf 1"; "hunter 0"; "guard 1"]
    ++ [msg "u5" "guard" "1"; msg "u4" "kill" "1"; msg "u2" "check" "4"].

(** the manager a session leaves, and the room of the sessions in it (a
    fresh room when there is none) *)
Definition manager_after (session : list Message) : Manager :=
  run session empty_manager.

Definition game_in (m : Manager) : Game :=
  match dict_get (games m) room with
  | Some g => g
  | None => new_game room "" "" ""
  end.

Definition player_of (g : Game) (o : option (nat * Player)) : Player :=
  match o with
  | Some (_, p) => p
  | None => new_player "" "" 0
  end.

(** the room of [guarded_target_session] with the three night actions
    recorded, before the collection check runs *)
Definition witch_pending_game : Game :=
  let g := game_in (manager_after
                      (setup ["wolf 1"; "hunter 0"; "guard 1"]
                         ++ [msg "u5" "guard" "1"; msg "u4" "kill" "1"])) in
  set_g_night_actions (dict_set (g_night_actions g) "seer" "4") g.

Definition witch_pending_manager : Manager :=
  put_game room witch_pending_game
    (manager_after (setup ["wolf 1"; "hunter 0"; "guard 1"]
                      ++ [msg "u5" "guard" "1"; msg "u4" "kill" "1"])).

(** day 1 of [vote_session] with the six votes for seat 5 recorded, before
    the resolution runs *)
Definition vote_pending_game : Game :=
  let g := game_in (manager_after
                      (setup ["wolf 1"]
                         ++ [msg "u2" "check" "5"; msg "u5" "kill" "1"; msg "u3" "save" "1"]
                         ++ votes ["u1"; "u2"; "u3"; "u4"; "u5"] "5")) in
  set_g_votes (dict_set (g_votes g) "u6" 5) g.

Definition vote_pending_manager : Manager :=
  put_game room vote_pending_game
    (manager_after
       (setup ["wolf 1"]
          ++ [msg "u2" "check" "5"; msg "u5" "kill" "1"; msg "u3" "save" "1"]
          ++ votes ["u1"; "u2"; "u3"; "u4"; "u5"] "5")).

(** the manager with the one room that ["u1"] opened *)
Definition hosted : Manager := manager_after [msg "u1" "host" ""].


(** a default room with every seat taken *)
Definition full_default_room : list Message :=
  msg "u1" "host" "" :: joins ["u2"; "u3"; "u4"; "u5"; "u6"; "u7"; "u8"].

(** ** Predicates of the statements *)

(** the sum of the configured role counts *)
Definition role_sum (s : Settings) : nat := list_sum (map (roles s) all_roles).

(** a room as [create_game] and [join_game] build it: [player_order] lists
    the keys of [players], each once *)
Definition wf_room (g : Game) : Prop :=
  dict_keys (g_players g) = g_player_order g /\ NoDup (g_player_order g).








(** [user] is seated in a live room that has not ended *)
Definition in_unfinished_room (user : string) (g : Game) : bool :=
  dict_mem (g_players g) user && negb (GamePhase.eqb (g_phase g) GamePhase.ENDED).

Definition unfinished_rooms_of (user : string) (m : Manager) : list Game :=
  filter (in_unfinished_room user) (dict_values (games m)).

(** every identity is seated in at most one live room that has not ended *)
Definition one_room_per_player (m : Manager) : Prop :=
  forall user, (List.length (unfinished_rooms_of user m) <= 1)%nat.

(** the wolf-kill target as the candidate list of the witch sees it: the
    seat the wolves named when it is the seat of a living player who is not
    double-faced *)
Definition wolf_target (g : Game) : option (Z * string) :=
  raw <- truthy (dict_get (g_night_actions g) "wolf_kill") ;;
  n <- py_int raw ;;
  '(_, p) <- _get_player_by_number g n ;;
  if is_alive p && negb (has_role double_faced p) then Some (n, p_name p) else None.

(** ** Definitions of the further properties *)

(** the characters of a decimal numeral, without and with the ["0"] of the
    empty numeral *)
Definition uint_chars (d : Decimal.uint) : list ascii :=
  list_ascii_of_string (NilEmpty.string_of_uint d).

Definition nz_chars (d : Decimal.uint) : list ascii :=
  list_ascii_of_string (NilZero.string_of_uint d).

(** no character of the list is blank *)
Definition no_blank (l : list ascii) : bool := forallb (fun c => negb (is_space c)) l.

(** the players dict of a room as the manager builds it: no key is
    repeated, and the key of an entry is the ["qq"] of its player *)
Definition wf_players (g : Game) : Prop :=
  NoDup (dict_keys (g_players g)) /\
  forall k p, In (k, p) (g_players g) -> p_qq p = k.

(** the seats of a room are numbered 1, 2, ... in the order of joining *)
Definition seats_sequential (g : Game) : Prop :=
  map p_number (player_values g)
  = map Z.of_nat (seq 1 (List.length (g_players g))).

(** the seat cap of every live room is within the bounds of the settings
    command *)
Definition caps_in_bounds (m : Manager) : Prop :=
  forall room_id g, In (room_id, g) (games m) ->
    6 <= player_count (g_settings g) <= 18.

(** no live room is in phase ENDED *)
Definition no_ended_room (m : Manager) : Prop :=
  forall room_id g, In (room_id, g) (games m) -> g_phase g <> GamePhase.ENDED.

(** [g'] seats the players of [g] under the same keys, and every player who
    is out in [g] is the same in [g'] *)
Definition out_players_kept (g g' : Game) : Prop :=
  dict_keys (g_players g') = dict_keys (g_players g) /\
  forall i p,
    nth_error (player_values g) i = Some p -> is_alive p = false ->
    nth_error (player_values g') i = Some p.

(** the victim of a death-queue entry is a player of [g] who is out *)
Definition victim_out (g : Game) (death : Death) : Prop :=
  exists i p, player_ref g (d_player_qq death) = Some (i, p) /\ is_alive p = false.

(** [g'] has the cast of [g]: the same identity, seat number, role and
    original role at every place *)
Definition same_cast (g g' : Game) : Prop :=
  map p_qq (player_values g') = map p_qq (player_values g) /\
  map p_number (player_values g') = map p_number (player_values g) /\
  map p_role (player_values g') = map p_role (player_values g) /\
  map p_original_role (player_values g') = map p_original_role (player_values g).

(** what a step of the night resolution keeps: the cast, the players who are
    out, the phase, the day count, the votes, the settings and the recorded
    night actions *)
Definition night_step_ok (g g' : Game) : Prop :=
  out_players_kept g g' /\ same_cast g g' /\
  g_phase g' = g_phase g /\ g_day_count g' = g_day_count g /\
  g_votes g' = g_votes g /\ g_settings g' = g_settings g /\
  g_night_actions g' = g_night_actions g.

(** the record of the wolf-kill target once the attack is resolved: the
    guard is looked at first, then the double-faced role, then the save *)
Definition attacked (g : Game) (n : Z) (tp : Player) : Player :=
  if opt_Z_eqb n (g_guard_protected g) then tp
  else if has_role double_faced tp then set_p_camp (Some Camp.WOLF) tp
  else if str_mem (p_qq tp) (g_saved_players g) then tp
  else kill DeathReason.WOLF_KILL "wolf" tp.


(** ** Rooms on which the further properties are instantiated *)

(** the room of [setup ["wolf 1"]] right after the start: 1 villager, 2 seer,
    3 witch, 4 hunter, 5 wolf, 6 villager *)
Definition started_manager : Manager := manager_after (setup ["wolf 1"]).

(** night 1 with the pairing of seats 1 and 6 recorded *)
Definition cupid_recorded_game : Game :=
  game_in (manager_after (setup ["wolf 1"; "villager 1"; "cupid 1"]
                            ++ [msg "u5" "choose" "1 6"])).

(** the same room once cupid's action is resolved *)
Definition paired_game : Game :=
  match _process_cupid_action cupid_recorded_game with
  | Some g => g
  | None => cupid_recorded_game
  end.

(** night 1 with the attack on seat 1 recorded, and with the attack
    resolved into the death queue *)
Definition kill_recorded_game : Game :=
  game_in (manager_after (setup ["wolf 1"] ++ [msg "u5" "kill" "1"])).

Definition wolf_queued_game : Game :=
  match _process_wolf_action kill_recorded_game with
  | Some g => g
  | None => kill_recorded_game
  end.

(** night 1 with the poison on seat 5 recorded: seat 5 is the wolf in the
    first room and the double-faced role in the second *)
Definition poison_recorded_game : Game :=
  game_in (manager_after (setup ["wolf 1"] ++ [msg "u3" "poison" "5"])).

Definition immune_poison_game : Game :=
  game_in (manager_after (setup ["wolf 1"; "hunter 0"; "double_faced 1"]
                            ++ [msg "u3" "poison" "5"])).

(** the witch phase of night 1 with the save of seat 1 recorded, before the
    phase is processed *)
Definition save_recorded_game : Game :=
  let g := game_in (manager_after
                      (setup ["wolf 1"] ++ [msg "u2" "check" "5"; msg "u5" "kill" "1"])) in
  set_g_night_actions (dict_set (g_night_actions g) "witch_save" "1") g.

(** what an optional result holds, [d] when there is none *)
Definition result_or (A : Type) (d : A) (o : option A) : A :=
  match o with
  | Some a => a
  | None => d
  end.

(** the check of [wf_players] on a concrete room *)
Fixpoint nodupb (l : list string) : bool :=
  match l with
  | [] => true
  | x :: r => negb (existsb (String.eqb x) r) && nodupb r
  end.

Definition wf_playersb (g : Game) : bool :=
  nodupb (dict_keys (g_players g))
  && forallb (fun kp => String.eqb (p_qq (snd kp)) (fst kp)) (g_players g).

(** every living player of the room holds a role *)
Definition living_dealt (g : Game) : bool :=
  forallb (fun p => negb (is_alive p)
                    || match p_role p with Some _ => true | None => false end)
    (player_values g).

(** ** Predicates on profiles *)

(** the number of seats that [qq] holds in the room: 1 or 0 *)
Definition seated (game : Game) (qq : string) : nat :=
  if dict_mem (g_players game) qq then 1%nat else 0%nat.

(** the games a profile has counted as won or as lost *)
Definition decided (pf : Profile) : nat := (pf_wins pf + pf_losses pf)%nat.

(** the number of entries of the players dict under key [qq] *)
Definition entries_of (qq : string) (entries : list (string * Player)) : nat :=
  List.length (filter (fun e => String.eqb (fst e) qq) entries).

(** the recent list of a profile whose last recorded game is [code]: at most
    ten entries, the last one of game [code], and a rate between 0 and 1 *)
Definition recent_ok (code : string) (pf : Profile) : Prop :=
  (List.length (pf_recent_games pf) <= 10)%nat /\
  (exists older r w,
     pf_recent_games pf = (older ++ [mkRecentGame code r w])%list) /\
  (0 <= pf_recent_win_rate pf)%Q /\ (pf_recent_win_rate pf <= 1)%Q.

(** the profile of [qq], if there is one, satisfies [P] *)
Definition profile_at (P : Profile -> Prop) (ps : list (string * Profile))
    (qq : string) : Prop :=
  forall pf, dict_get ps qq = Some pf -> P pf.

(** the profiles of the six players of the sessions, as [create_game] and
    [join_game] register them *)
Definition session_profiles : list (string * Profile) :=
  player_profiles (manager_after vote_session).

(** the room of [vote_session] as the profile loop of [archive_game] sees it
    when the end-of-game check runs on it: the winner, the phase ENDED and
    the game code are written *)
Definition archived_game : Game :=
  let g := game_in (manager_after vote_session) in
  set_g_game_code (Some "c0de")
    (set_g_phase GamePhase.ENDED
       (set_g_winner
          (result_or None (option_map decide_winner
                             (count_alive (player_values g) (mkCounts 0 0 0 0))))
          g)).

(** what an outcome holds when it is a return, [d] when it is a raise *)
Definition return_or (S A : Type) (d : A) (o : outcome S A) : A :=
  match o with
  | Ok a => a
  | Raise _ => d
  end.

(** ** Sessions that end in an exception *)

(** the replies of a session, one per message *)
Fixpoint replies (msgs : list Message) (m : Manager) : list Reply :=
  match msgs with
  | [] => []
  | msg :: rest => snd (execute msg m) :: replies rest (fst (execute msg m))
  end.

(** the live rooms, ended or not, in which [user] is seated *)
Definition live_rooms_of (user : string) (m : Manager) : list string :=
  map fst (filter (fun kg => dict_mem (g_players (snd kg)) user) (games m)).

(** Seats dealt: 1 villager, 2 seer, 3 witch, 4 hunter, 5 white wolf,
    6 villager.  Night 1: nobody dies.  Day 1: ["u7"] joins the running game
    and holds no role; the white wolf, the only wolf, explodes on seat 7.
    Night 2: the check of the seer completes the night and the village has
    won.  Then the host of the ended room opens a room at clock 2000. *)
Definition ended_room_prefix : list Message :=
  setup ["wolf 0"; "white_wolf 1"]
    ++ [msg "u2" "check" "5"; msg "u7" "join" room; msg "u5" "explode" "7"].

Definition ended_room_session : list Message :=
  ended_room_prefix ++ [msg "u2" "check" "1"].

Definition host_at (now : Z) (u : string) : Message :=
  {| msg_user_id := u; msg_group := Some "g1"; msg_subcommand := "host";
     msg_args := ""; msg_now := now; msg_draw := fun _ => 0%nat;
     msg_code := "c0de" |}.

Definition two_rooms_session : list Message :=
  ended_room_session ++ [host_at 2000 "u1"].


(** every player of the room holds a role *)
Definition all_dealt (g : Game) : Prop :=
  forall p, In p (player_values g) -> p_role p <> None.

Definition all_dealtb (g : Game) : bool :=
  forallb (fun p => match p_role p with Some _ => true | None => false end)
    (player_values g).

(** ** The random source of the deal *)






(** the room of a game that the win check has just ended *)
Definition ended_with (w : string) (game : Game) : Game :=
  set_g_phase GamePhase.ENDED (set_g_winner (Some w) game).

(** a handler that returns does not answer with the error reply, and answers
    a refusal with the manager it was given *)
Definition returns_cleanly (m : Manager) (o : outcome Manager (Manager * Reply)) : Prop :=
  forall m' r, o = Ok (m', r) ->
    r <> ExecuteError /\ (reply_ok r = false -> m' = m).
(** * Properties *)

(** ** Win check after a death (C1) *)

(** In the room of [vote_session], night resolution does run the win check:
    one more night and the room is archived under its code and leaves the
    live map. *)
Lemma night_resolution_ends_game :
  exists m,
    run_ok (vote_session ++ [msg "u2" "check" "1"]) empty_manager = Some m /\
    games m = [] /\
    finished m = ["c0de"].
Proof.
  eexists.
  split; [vm_compute; reflexivity|].
  repeat split.
Qed.

(** C1: after a vote exile, a hunter shot and a white-wolf detonation the
    engine enters the next night without evaluating the win rules: in each of
    the three sessions the last wolf has just left the game, so rule 1 names
    the village as winner over the living players, yet the room is in NIGHT,
    no winner is recorded and nothing is archived. *)
Theorem win_check_skipped_after_day_deaths :
  skips_win_check vote_session "village" /\
  skips_win_check shoot_session "village" /\
  skips_win_check explode_session "village".
Proof.
  repeat split; unfold skips_win_check;
    (eexists; eexists; split; [vm_compute; reflexivity|];
     split; [vm_compute; reflexivity|]; repeat split).
Qed.

(** ** Hunter revenge (C2) *)

(** A sender whose player is dead or exiled is turned away before the phase
    is looked at, whatever the verb (except [destroy]). *)
Lemma out_player_is_rejected (code user action args room_id : string) (m : Manager)
    (game : Game) (i : nat) (player : Player) :
  String.eqb action "destroy" = false ->
  truthy (_find_user_game user m) = Some room_id ->
  dict_get (games m) room_id = Some game ->
  player_ref game user = Some (i, player) ->
  is_alive player = false ->
  _handle_game_action code user action args m = Ok (m, ActPlayerOut).
Proof.
  intros Hd Hf Hg Hp Ha.
  unfold _handle_game_action.
  rewrite Hd, Hf. rewrite Hg. cbn [obind raising]. rewrite Hp, Ha.
  reflexivity.
Qed.

(** C2: in the room of [revenge_session] the hunter of seat 4 has been exiled
    and the room waits in HUNTER_REVENGE; the [shoot] of that hunter is
    rejected as coming from a player who is out, and the [shoot] of any
    living player is rejected as not coming from a hunter.  The manager is
    unchanged by each of these commands: nobody can fire the shot. *)
Theorem exiled_hunter_cannot_shoot :
  exists m g,
    run_ok revenge_session empty_manager = Some m /\
    dict_get (games m) room = Some g /\
    g_phase g = GamePhase.HUNTER_REVENGE /\
    seat_status g 4 = Some PlayerStatus.EXILED /\
    seat_status g 5 = Some PlayerStatus.ALIVE /\
    execute (msg "u4" "shoot" "5") m = (m, ActPlayerOut) /\
    forall u, In u ["u1"; "u2"; "u3"; "u5"; "u6"] ->
      execute (msg u "shoot" "5") m = (m, ShootNotHunter).
Proof.
  eexists; eexists.
  split; [vm_compute; reflexivity|].
  split; [vm_compute; reflexivity|].
  repeat split.
  intros u Hu. cbn [In] in Hu.
  repeat (destruct Hu as [<- | Hu]; [vm_compute; reflexivity|]).
  contradiction.
Qed.

(** ** Lover cascade (C3) *)

(** At night the cascade runs: the wolf kill of seat 6 takes the partner of
    seat 1 along, with cause lover suicide and the dead lover as killer. *)
Lemma lover_cascade_at_night :
  exists g i p,
    room_after lover_night_session = Some g /\
    seat_status g 6 = Some PlayerStatus.DEAD /\
    _get_player_by_number g 1 = Some (i, p) /\
    p_status p = PlayerStatus.DEAD /\
    p_death_reason p = Some DeathReason.LOVER_SUICIDE /\
    p_killer p = Some "u6".
Proof.
  do 3 eexists.
  split; [vm_compute; reflexivity|].
  split; [vm_compute; reflexivity|].
  split; [vm_compute; reflexivity|].
  repeat split.
Qed.

(** C3: the cascade is missing by day.  After cupid paired seats 1 and 6,
    seat 6 is exiled by the vote (and, in the second session, killed by the
    detonation of the white wolf) and the partner of seat 1 is still alive
    when the next night starts. *)
Theorem lover_survives_partner_day_death :
  (exists g i p,
     room_after lover_vote_session = Some g /\
     seat_status g 6 = Some PlayerStatus.EXILED /\
     _get_player_by_number g 1 = Some (i, p) /\
     p_is_lover p = true /\ p_lover_partner p = Some "u6" /\
     p_status p = PlayerStatus.ALIVE /\
     g_phase g = GamePhase.NIGHT) /\
  (exists g i p,
     room_after lover_explode_session = Some g /\
     seat_status g 6 = Some PlayerStatus.DEAD /\
     _get_player_by_number g 1 = Some (i, p) /\
     p_is_lover p = true /\ p_lover_partner p = Some "u6" /\
     p_status p = PlayerStatus.ALIVE /\
     g_phase g = GamePhase.NIGHT).
Proof.
  split; do 3 eexists;
    (split; [vm_compute; reflexivity|];
     split; [vm_compute; reflexivity|];
     split; [vm_compute; reflexivity|]; repeat split).
Qed.

(** ** Camps counted by the win check (C4) *)

(** C4: the win check never reads the flipped camp.  In the room of
    [double_faced_session] the double-faced player of seat 5 was attacked by
    the wolf, is alive and carries camp WOLF; at the end of night 2 the
    living players are the wolf, the double-faced player and two villagers.
    The check counts the double-faced player as third party (2 village,
    1 wolf, 1 third party) and the game goes on to DAY, while with that
    player counted under the flipped camp (2 village, 2 wolves) rule 2 makes
    the wolves win. *)
Theorem flipped_camp_not_counted :
  exists g i p,
    room_after double_faced_session = Some g /\
    _get_player_by_number g 5 = Some (i, p) /\
    p_original_role p = Some double_faced /\
    p_status p = PlayerStatus.ALIVE /\
    p_camp p = Some Camp.WOLF /\
    count_alive (player_values g) (mkCounts 0 0 0 0) = Some (mkCounts 2 1 1 0) /\
    decide_winner (mkCounts 2 1 1 0) = None /\
    decide_winner (mkCounts 2 2 0 0) = Some "wolf" /\
    g_phase g = GamePhase.DAY /\ g_winner g = None.
Proof.
  do 3 eexists.
  split; [vm_compute; reflexivity|].
  split; [vm_compute; reflexivity|].
  repeat split.
Qed.

(** ** Guard (C9) *)

(** Once a seat is both the recorded protection and the last guarded seat,
    a guard action naming it again changes nothing, and a wolf attack on
    that seat leaves the death queue as it is. *)
Lemma stale_guard_blocks_attack (g : Game) (x : Z) (raw_guard raw_kill : string) :
  g_guard_protected g = Some x ->
  g_last_guard_target g = Some x ->
  dict_get (g_night_actions g) "guard" = Some raw_guard ->
  dict_get (g_night_actions g) "wolf_kill" = Some raw_kill ->
  py_int raw_guard = Some x ->
  py_int raw_kill = Some x ->
  _process_guard_action g = Some g /\ _process_wolf_action g = Some g.
Proof.
  intros Hp Hl Hg Hk Hig Hik. split.
  - unfold _process_guard_action. rewrite Hg.
    destruct raw_guard; [vm_compute in Hig; discriminate|].
    cbn [truthy]. rewrite Hig.
    destruct (_get_player_by_number g x) as [[i p]|]; auto.
    rewrite Hl. cbn. rewrite Z.eqb_refl. cbn. destruct (is_alive p); reflexivity.
  - unfold _process_wolf_action. rewrite Hk.
    destruct raw_kill; [vm_compute in Hik; discriminate|].
    cbn [truthy]. rewrite Hik.
    destruct (_get_player_by_number g x) as [[i p]|]; auto.
    rewrite Hp. cbn. rewrite Z.eqb_refl. destruct (is_alive p); reflexivity.
Qed.

(** C9: the protection of the previous night is never cleared.  The guard
    protected seat 2 on night 1; on night 2 the guard names seat 2 again and
    the wolf attacks seat 2.  The repeated guard action changes nothing
    ([guard_protected] and [last_guard_target] are still seat 2 from night
    1), and the wolf attack on seat 2 fails against that stale protection:
    seat 2 is alive when day 2 starts. *)
Theorem repeated_guard_target_still_protected :
  exists g1 g2,
    room_after guard_night1 = Some g1 /\
    g_phase g1 = GamePhase.NIGHT /\ g_day_count g1 = 2%nat /\
    g_guard_protected g1 = Some 2 /\ g_last_guard_target g1 = Some 2 /\
    room_after guard_repeat_session = Some g2 /\
    g_phase g2 = GamePhase.DAY /\ g_day_count g2 = 2%nat /\
    g_guard_protected g2 = Some 2 /\ g_last_guard_target g2 = Some 2 /\
    seat_status g2 2 = Some PlayerStatus.ALIVE /\
    filter (fun p => negb (is_alive p)) (player_values g2)
    = filter (fun p => negb (is_alive p)) (player_values g1).
Proof.
  do 2 eexists.
  split; [vm_compute; reflexivity|].
  do 4 (split; [reflexivity|]).
  split; [vm_compute; reflexivity|].
  repeat split.
Qed.

(** ** Dicts and references *)

Section DictFacts.
Variable V : Type.
Implicit Types (d : list (string * V)) (k : string) (v : V).

Lemma dict_get_set_same d k v : dict_get (dict_set d k v) k = Some v.
Proof.
  induction d as [|[k' v'] d IH]; cbn.
  - now rewrite String.eqb_refl.
  - destruct (String.eqb k' k) eqn:E; cbn; rewrite E; auto.
Qed.

Lemma dict_get_set_other d k k' v :
  k' <> k -> dict_get (dict_set d k v) k' = dict_get d k'.
Proof.
  intros Hne. induction d as [|[k0 v0] d IH]; cbn.
  - destruct (String.eqb k k') eqn:E; auto.
    apply String.eqb_eq in E. congruence.
  - destruct (String.eqb k0 k) eqn:E; cbn.
    + apply String.eqb_eq in E. subst k0.
      destruct (String.eqb k k') eqn:E'; auto.
      apply String.eqb_eq in E'. congruence.
    + now rewrite IH.
Qed.

Lemma dict_mem_set_other d k k' v :
  k' <> k -> dict_mem (dict_set d k v) k' = dict_mem d k'.
Proof. intros. unfold dict_mem. now rewrite dict_get_set_other. Qed.

Lemma dict_mem_set_same d k v : dict_mem (dict_set d k v) k = true.
Proof. unfold dict_mem. now rewrite dict_get_set_same. Qed.

Lemma dict_index_get d k :
  dict_index d k = None <-> dict_get d k = None.
Proof.
  induction d as [|[k' v'] d IH]; cbn; [tauto|].
  destruct (String.eqb k' k); [split; discriminate|].
  destruct (dict_index d k) as [j|]; cbn.
  - split; [discriminate|]. intros H. apply IH in H. discriminate.
  - split; auto. intros _. now apply IH.
Qed.

(** the entry a reference points to, after a mutation through it *)
Lemma dict_get_alter d k (f : V -> V) i v :
  dict_index d k = Some i -> dict_get d k = Some v ->
  dict_get (alter_at (fun kv => (fst kv, f (snd kv))) i d) k = Some (f v).
Proof.
  revert i. induction d as [|[k' v'] d IH]; cbn; [discriminate|].
  intros i. destruct (String.eqb k' k) eqn:E.
  - intros [= <-] [= <-]. cbn. now rewrite E.
  - destruct (dict_index d k) as [j|]; cbn; [|discriminate].
    intros [= <-] Hg. cbn. rewrite E. now apply IH.
Qed.

Lemma dict_keys_alter d (f : V -> V) i :
  dict_keys (alter_at (fun kv => (fst kv, f (snd kv))) i d) = dict_keys d.
Proof.
  unfold dict_keys.
  revert i. induction d as [|[k' v'] d IH]; intros [|i]; cbn; auto.
  f_equal. apply IH.
Qed.
End DictFacts.

Lemma put_game_get room_id (g g' : Game) (m : Manager) :
  dict_get (games m) room_id = Some g ->
  dict_get (games (put_game room_id g' m)) room_id = Some g'.
Proof.
  intros Hg. unfold put_game, upd_game.
  destruct (dict_index (games m) room_id) as [i|] eqn:Hi.
  - cbn. now apply dict_get_alter with (f := fun _ => g') (v := g).
  - apply dict_index_get in Hi. congruence.
Qed.

Section FindFacts.
Variable A : Type.
Variable f : A -> bool.

Lemma find_index_sound (l : list A) i :
  find_index f l = Some i -> exists x, nth_error l i = Some x /\ f x = true.
Proof.
  revert i. induction l as [|x l IH]; cbn; [discriminate|].
  intros i. destruct (f x) eqn:E.
  - intros [= <-]. now exists x.
  - destruct (find_index f l) as [j|]; cbn; [|discriminate].
    intros [= <-]. now apply IH.
Qed.

Lemma find_index_none (l : list A) :
  find_index f l = None -> forall x, In x l -> f x = false.
Proof.
  induction l as [|x l IH]; cbn; [tauto|].
  destruct (f x) eqn:E; [discriminate|].
  destruct (find_index f l); cbn; [discriminate|].
  intros _ y [<-|Hy]; auto.
Qed.
End FindFacts.

Lemma find_player_sound f g i p :
  find_player f g = Some (i, p) ->
  nth_error (player_values g) i = Some p /\ f p = true.
Proof.
  unfold find_player. intros H.
  destruct (find_index f (player_values g)) as [j|] eqn:Hj; [|discriminate].
  cbn in H. destruct (find_index_sound _ _ Hj) as (x & Hx & Hf).
  rewrite Hx in H. cbn in H. injection H as <- <-. auto.
Qed.

(** ** Candidate list of the witch (C5) *)

(** C5, as stated, fails: the guard protects seat 1 on the night the wolf
    attacks seat 1, and seat 1 is on the candidate list presented to the
    witch.  Whatever she answers, the resolution that follows records the
    protection of seat 1, and seat 1 lives. *)
Lemma guarded_target_is_a_candidate :
  exists g g',
    room_after guarded_target_session = Some g /\
    g_phase g = GamePhase.WITCH_SAVE_PHASE /\
    dict_get (g_night_actions g) "guard" = Some "1" /\
    dict_get (g_night_actions g) "wolf_kill" = Some "1" /\
    g_witch_save_candidates g = [(1, "玩家u1")] /\
    room_after (guarded_target_session ++ [msg "u3" "skip" ""]) = Some g' /\
    g_phase g' = GamePhase.DAY /\
    g_guard_protected g' = Some 1 /\
    seat_status g' 1 = Some PlayerStatus.ALIVE.
Proof.
  do 2 eexists.
  split; [vm_compute; reflexivity|].
  do 4 (split; [reflexivity|]).
  split; [vm_compute; reflexivity|].
  repeat split.
Qed.

Lemma potential_deaths_wolf_target (g : Game) :
  _calculate_potential_deaths g =
  match wolf_target g with
  | Some c => [c]
  | None => []
  end.
Proof.
  unfold _calculate_potential_deaths, wolf_target.
  destruct (truthy (dict_get (g_night_actions g) "wolf_kill")) as [raw|]; cbn; auto.
  destruct (py_int raw) as [n|]; cbn; auto.
  destruct (_get_player_by_number g n) as [[i p]|]; cbn; auto.
  destruct (is_alive p && negb (has_role double_faced p)); auto.
Qed.

(** C5, amended: when collection is complete and the living witch still has
    her save, the list presented to her is the wolf-kill target if it is the
    seat of a living player who is not double-faced, and is empty otherwise;
    the list does not depend on the guard (neither on the recorded
    protection, nor on the last guarded seat, nor on the guard action of the
    night); a target is presented by entering WITCH_SAVE_PHASE with the list
    stored, and a [save] naming a seat outside the stored list is rejected
    with the manager unchanged. *)
Theorem witch_candidates_ignore_guard (code room_id : string) (m : Manager) (game : Game)
    (i : nat) (w : Player) :
  dict_get (games m) room_id = Some game ->
  _check_all_night_actions_completed game = Some true ->
  _get_player_by_role game witch = Some (i, w) ->
  has_save (g_witch_status game) = true ->
  g_witch_used_save_this_night game = false ->
  (_calculate_potential_deaths game =
   match wolf_target game with Some c => [c] | None => [] end) /\
  (forall protected last action,
      _calculate_potential_deaths
        (set_g_guard_protected protected
           (set_g_last_guard_target last
              (set_g_night_actions (dict_set (g_night_actions game) "guard" action) game)))
      = _calculate_potential_deaths game) /\
  (forall c, wolf_target game = Some c ->
      process_night_actions code room_id m =
      Ok (put_game room_id
            (set_g_phase GamePhase.WITCH_SAVE_PHASE
               (set_g_witch_save_candidates [c] game)) m, true)) /\
  (forall game' player args n m',
      has_role witch player = true ->
      py_int args = Some n ->
      ~ In n (map fst (g_witch_save_candidates game')) ->
      _handle_witch_save_action code room_id game' player args m'
      = Ok (m', SaveTargetNotCandidate)).
Proof.
  intros Hg Hall Hw Hsave Hused.
  split; [apply potential_deaths_wolf_target|].
  split.
  { intros protected last action.
    unfold _calculate_potential_deaths. cbn [g_night_actions set_g_guard_protected
      set_g_last_guard_target set_g_night_actions].
    rewrite dict_get_set_other by discriminate.
    reflexivity. }
  split.
  { intros c Hc. unfold process_night_actions.
    rewrite Hg, Hall. cbn [obind raising negb]. rewrite Hw.
    destruct (find_player_sound _ _ Hw) as [_ Hp].
    apply andb_prop in Hp as [_ Halive].
    rewrite Halive, Hsave, Hused. cbn [andb negb].
    rewrite potential_deaths_wolf_target, Hc. reflexivity. }
  intros game' player args n m' Hrole Hint Hnot.
  unfold _handle_witch_save_action. rewrite Hrole. cbn [negb].
  destruct args as [|c args]; [vm_compute in Hint; discriminate|].
  rewrite Hint.
  destruct (existsb (Z.eqb n) (map fst (g_witch_save_candidates game'))) eqn:E; auto.
  apply existsb_exists in E as (x & Hin & Hx).
  apply Z.eqb_eq in Hx. subst x. contradiction.
Qed.

(** the theorem at the room of [guarded_target_session], all night actions
    recorded: seat 1, guarded and attacked, is presented, and a [save] of
    seat 2 is rejected *)
Lemma witch_candidates_ignore_guard_witness :
  _calculate_potential_deaths witch_pending_game = [(1, "玩家u1")] /\
  process_night_actions "c0de" room witch_pending_manager =
  Ok (put_game room
        (set_g_phase GamePhase.WITCH_SAVE_PHASE
           (set_g_witch_save_candidates [(1, "玩家u1")] witch_pending_game))
        witch_pending_manager, true) /\
  _handle_witch_save_action "c0de" room
    (set_g_witch_save_candidates [(1, "玩家u1")] witch_pending_game)
    (player_of witch_pending_game (_get_player_by_role witch_pending_game witch))
    "2" witch_pending_manager
  = Ok (witch_pending_manager, SaveTargetNotCandidate).
Proof.
  destruct (@witch_candidates_ignore_guard "c0de" room witch_pending_manager
              witch_pending_game 2%nat
              (player_of witch_pending_game (_get_player_by_role witch_pending_game witch)))
    as (H1 & _ & H3 & H4); try (vm_compute; reflexivity).
  split; [rewrite H1; vm_compute; reflexivity|].
  split; [apply H3; vm_compute; reflexivity|].
  apply H4 with (n := 2).
  - vm_compute; reflexivity.
  - vm_compute; reflexivity.
  - cbn. intros [H|[]]. discriminate.
Defined.

(** ** Default room (C7) *)

(** C7, as stated, fails: the default role counts of the room that
    [create_game] returns sum to 7, not to 8, and the default room with all
    eight seats taken does not start. *)
Lemma default_roles_sum_is_not_8 :
  role_sum (g_settings (snd (create_game room "u1" "g1" "Pu1" empty_manager))) <> 8%nat /\
  exists m g,
    run_ok full_default_room empty_manager = Some m /\
    dict_get (games m) room = Some g /\
    Z.of_nat (List.length (g_players g)) = player_count (g_settings g) /\
    start_game (fun _ => 0%nat) room m = Ok (m, false).
Proof.
  split; [cbn; discriminate|].
  do 2 eexists.
  split; [vm_compute; reflexivity|].
  split; [vm_compute; reflexivity|].
  split; reflexivity.
Qed.

(** C7, amended: every room returned by [create_game] is stored under its
    id, has the host as its only player, seated at seat 1, and the default
    settings: a seat cap of 8 and a role mix whose counts sum to 7.  So a
    default room satisfies the role-sum precondition of start with seven
    players seated, not with all eight. *)
Theorem create_game_defaults (room_id host_qq group_id host_name : string) (m : Manager) :
  let m' := fst (create_game room_id host_qq group_id host_name m) in
  let game := snd (create_game room_id host_qq group_id host_name m) in
  dict_get (games m') room_id = Some game /\
  g_host game = host_qq /\
  g_players game = [(host_qq, new_player host_name host_qq 1)] /\
  g_player_order game = [host_qq] /\
  _get_player_by_number game 1 = Some (0%nat, new_player host_name host_qq 1) /\
  g_phase game = GamePhase.SETUP /\
  player_count (g_settings game) = 8 /\
  role_sum (g_settings game) = 7%nat.
Proof.
  cbn zeta. unfold create_game.
  cbn [fst snd games set_games register_profile set_player_profiles].
  split; [apply dict_get_set_same|].
  repeat split.
Qed.

(** a default room does start once seven players are seated *)
Lemma default_room_starts_with_seven :
  exists m m',
    run_ok (msg "u1" "host" "" :: joins ["u2"; "u3"; "u4"; "u5"; "u6"; "u7"]) empty_manager
    = Some m /\
    start_game (fun _ => 0%nat) room m = Ok (m', true).
Proof.
  do 2 eexists. split; vm_compute; reflexivity.
Qed.

(** ** Start of a game (C6) *)

Section ShuffleFacts.
Variable A : Type.
Implicit Types (x : list A) (i j : nat).
















End ShuffleFacts.

Section ShuffleMap.
Variables A B : Type.
Variable f : A -> B.




End ShuffleMap.

















Lemma dict_set_fresh_keys (V : Type) (d : list (string * V)) k v :
  dict_mem d k = false ->
  dict_keys (dict_set d k v) = (dict_keys d ++ [k])%list /\ ~ In k (dict_keys d).
Proof.
  unfold dict_mem, dict_keys. induction d as [|[k' v'] d IH]; cbn.
  - intros _. split; [reflexivity|tauto].
  - destruct (String.eqb k' k) eqn:E; [discriminate|].
    intros H. destruct (IH H) as [IH1 IH2]. cbn. rewrite IH1. split; auto.
    intros [->|Hin]; [|tauto]. rewrite String.eqb_refl in E. discriminate.
Qed.

(** the rooms that [create_game] returns are well formed, and [join_game]
    keeps them so *)
Lemma create_game_wf room_id host_qq group_id host_name m :
  wf_room (snd (create_game room_id host_qq group_id host_name m)).
Proof.
  split; [reflexivity|]. cbn. constructor; [cbn; tauto|constructor].
Qed.

Lemma join_game_wf room_id player_qq player_name m game game' :
  dict_get (games m) room_id = Some game ->
  wf_room game ->
  dict_get (games (fst (join_game room_id player_qq player_name m))) room_id
  = Some game' ->
  wf_room game'.
Proof.
  intros Hg [Hkeys Hnd]. unfold join_game. rewrite Hg.
  assert (Hsame : dict_get (games m) room_id = Some game' -> wf_room game').
  { intros H. rewrite Hg in H. injection H as <-. now split. }
  destruct (_ >=? _); [exact Hsame|].
  destruct (dict_mem (g_players game) player_qq) eqn:Hmem; [exact Hsame|].
  cbn [fst]. rewrite put_game_get with (g := game) by exact Hg.
  intros [= <-]. unfold wf_room.
  cbn [g_players g_player_order set_g_player_order set_g_players].
  destruct (@dict_set_fresh_keys _ (g_players game) player_qq
              (new_player player_name player_qq
                 (Z.of_nat (List.length (g_players game)) + 1)) Hmem) as [H1 H2].
  rewrite H1, Hkeys. split; [reflexivity|].
  rewrite Hkeys in H2.
  apply NoDup_rev in Hnd. rewrite <- (rev_involutive (_ ++ _)).
  apply NoDup_rev. rewrite rev_app_distr. cbn.
  constructor; auto. now rewrite <- in_rev.
Qed.



(** ** Vote resolution (C8) *)

Section TallyFacts.
Implicit Types (vc : list (Z * nat)) (n k : Z).












End TallyFacts.



Lemma nth_error_alter_at (V : Type) (f : V -> V) (l : list V) i j :
  nth_error (alter_at f i l) j
  = if (i =? j)%nat then option_map f (nth_error l j) else nth_error l j.
Proof.
  revert i j. induction l as [|x l IH]; intros [|i] [|j]; cbn; auto.
  destruct (i =? j)%nat; reflexivity.
Qed.

Lemma player_values_alter f i g :
  player_values (alter_player f i g) = alter_at f i (player_values g).
Proof.
  unfold player_values, alter_player, dict_values. cbn.
  generalize (g_players g). intros l. revert i.
  induction l as [|[k v] l IH]; intros [|i]; cbn; auto.
  now rewrite IH.
Qed.


(** a vote is recorded only for the seat of a living player *)
Lemma vote_names_living_seat room_id game player args m m' n :
  _handle_vote_action room_id game player args m = Ok (m', VoteVoted n) ->
  exists i p, _get_player_by_number game n = Some (i, p) /\ is_alive p = true.
Proof.
  unfold _handle_vote_action, living_target.
  destruct args as [|c args]; [discriminate|].
  destruct (py_int (String c args)) as [k|]; [|discriminate].
  destruct (_get_player_by_number game k) as [[i p]|] eqn:Hk; [|discriminate].
  destruct (is_alive p) eqn:Ha; [|discriminate].
  destruct (alive_votes _ _); cbn [obind raising]; [|discriminate].
  destruct (process_vote _ _) as [[m0 b]|]; cbn [obind]; [|discriminate].
  intros [= _ <-]. exists i, p. split; assumption.
Qed.



(** the night-start message is built without an exception when every player
    holds a role *)
Lemma wolf_teammates_dealt qq ps :
  (forall p, In p ps -> p_role p <> None) -> wolf_teammates qq ps <> None.
Proof.
  induction ps as [|p ps IH]; cbn [wolf_teammates]; [discriminate|].
  intros H. assert (IH' : wolf_teammates qq ps <> None)
    by (apply IH; intros q Hq; apply H; now right).
  destruct (negb (String.eqb (p_qq p) qq)); [|exact IH'].
  destruct (p_role p) as [r|] eqn:Hr; [|exfalso; apply (H p); [now left|exact Hr]].
  cbn [ROLES_get option_map bind].
  destruct (wolf_teammates qq ps); [discriminate|contradiction].
Qed.

Lemma night_start_notices_dealt g ps :
  all_dealt g -> (forall p, In p ps -> p_role p <> None) ->
  night_start_notices g ps = Some tt.
Proof.
  intros Hg. induction ps as [|p ps IH]; cbn [night_start_notices]; [reflexivity|].
  intros H. assert (IH' : night_start_notices g ps = Some tt)
    by (apply IH; intros q Hq; apply H; now right).
  destruct (is_alive p); [|exact IH'].
  destruct (p_role p) as [r|] eqn:Hr; [|exfalso; apply (H p); [now left|exact Hr]].
  cbn [ROLES_get option_map bind].
  destruct (ri_night_action (ROLES r)); [|exact IH'].
  destruct (truthy (ri_command (ROLES r))); [|exact IH'].
  unfold _get_detailed_role_message. rewrite Hr. cbn [ROLES_get option_map bind].
  destruct (has_role wolf p); [|exact IH'].
  pose proof (@wolf_teammates_dealt (p_qq p) (player_values g) Hg) as Hw.
  destruct (wolf_teammates (p_qq p) (player_values g)); [exact IH'|contradiction].
Qed.

Lemma send_night_start_message_dealt g :
  all_dealt g -> _send_night_start_message g = Some tt.
Proof. intros H. now apply night_start_notices_dealt. Qed.


Lemma exile_role p : p_role (exile p) = p_role p.
Proof. unfold exile. destruct (has_role double_faced _); reflexivity. Qed.

Lemma resolve_vote_dealt game counted :
  all_dealt game -> all_dealt (resolve_vote game counted).
Proof.
  intros H. unfold resolve_vote.
  destruct (tally counted) as [|e vc]; [exact H|].
  destruct (candidates _) as [|n [|n' l]]; try exact H.
  destruct (find_player _ game) as [[i q]|]; [|exact H].
  intros p Hp. rewrite player_values_alter in Hp.
  apply In_nth_error in Hp as [j Hj].
  rewrite nth_error_alter_at in Hj.
  destruct (i =? j)%nat.
  - destruct (nth_error (player_values game) j) as [p0|] eqn:H0; [|discriminate].
    injection Hj as <-. rewrite exile_role.
    apply H. eapply nth_error_In; eauto.
  - apply H. eapply nth_error_In; eauto.
Qed.



Lemma all_dealtb_sound g : all_dealtb g = true -> all_dealt g.
Proof.
  unfold all_dealtb, all_dealt. rewrite forallb_forall.
  intros H p Hp. specialize (H p Hp).
  destruct (p_role p); discriminate.
Qed.


(** ** One live room per player (C10) *)

Lemma has_unfinished_iff user m :
  _has_unfinished_game user m = true <->
  exists room_id game,
    In (room_id, game) (games m) /\ dict_mem (g_players game) user = true /\
    g_phase game <> GamePhase.ENDED.
Proof.
  unfold _has_unfinished_game, dict_values. rewrite existsb_exists. split.
  - intros (g & Hin & Hp). apply in_map_iff in Hin as ([k g'] & <- & Hin).
    apply andb_prop in Hp as [H1 H2]. exists k, g'. repeat split; auto.
    cbn in *. intros E. rewrite E in H2. discriminate.
  - intros (k & g & Hin & H1 & H2). exists g. split.
    + apply in_map_iff. exists (k, g). auto.
    + rewrite H1. destruct (g_phase g); auto; congruence.
Qed.

Lemma no_unfinished_rooms user m :
  _has_unfinished_game user m = false -> unfinished_rooms_of user m = [].
Proof.
  unfold _has_unfinished_game, unfinished_rooms_of, in_unfinished_room.
  generalize (dict_values (games m)). intros l.
  induction l as [|g l IH]; cbn; auto.
  intros H. apply orb_false_elim in H as [H1 H2]. rewrite H1. auto.
Qed.

Section CountFacts.
Variable V : Type.
Variable P : V -> bool.

Lemma dict_values_alter (f : V -> V) i (d : list (string * V)) :
  dict_values (alter_at (fun kv => (fst kv, f (snd kv))) i d)
  = alter_at f i (dict_values d).
Proof.
  unfold dict_values. revert i.
  induction d as [|[k v] d IH]; intros [|i]; cbn; auto.
  now rewrite IH.
Qed.

Lemma dict_index_nth (d : list (string * V)) k i v :
  dict_index d k = Some i -> dict_get d k = Some v ->
  nth_error (dict_values d) i = Some v.
Proof.
  unfold dict_values. revert i.
  induction d as [|[k' v'] d IH]; cbn; [discriminate|].
  intros i. destruct (String.eqb k' k).
  - now intros [= <-] [= <-].
  - destruct (dict_index d k) as [j|]; cbn; [|discriminate].
    intros [= <-] H. cbn. now apply IH.
Qed.

(** replacing one entry adds at most one element to a filter *)
Lemma filter_alter_le (f : V -> V) i (l : list V) :
  (List.length (filter P (alter_at f i l)) <= S (List.length (filter P l)))%nat.
Proof.
  revert i. induction l as [|x l IH]; intros [|i]; cbn; auto.
  - destruct (P (f x)), (P x); cbn; lia.
  - specialize (IH i). destruct (P x); cbn; lia.
Qed.

(** replacing an entry by one that passes the filter alike changes
    nothing in the count *)
Lemma filter_alter_same (y : V) i (l : list V) x :
  nth_error l i = Some x -> P y = P x ->
  List.length (filter P (alter_at (fun _ => y) i l)) = List.length (filter P l).
Proof.
  revert i. induction l as [|a l IH]; intros [|i]; cbn; try discriminate.
  - intros [= ->] ->. destruct (P x); reflexivity.
  - intros Hn Hy. specialize (IH i Hn Hy). destruct (P a); cbn; congruence.
Qed.

Lemma filter_set_le (d : list (string * V)) k v :
  (List.length (filter P (dict_values (dict_set d k v)))
   <= List.length (filter P (dict_values d)) + (if P v then 1 else 0))%nat.
Proof.
  unfold dict_values. induction d as [|[k' v'] d IH]; cbn.
  - destruct (P v); cbn; lia.
  - destruct (String.eqb k' k); cbn.
    + destruct (P v), (P v'); cbn; lia.
    + destruct (P v'); cbn; lia.
Qed.
End CountFacts.

Lemma put_game_values room_id (g' : Game) m i :
  dict_index (games m) room_id = Some i ->
  dict_values (games (put_game room_id g' m))
  = alter_at (fun _ => g') i (dict_values (games m)).
Proof.
  intros Hi. unfold put_game, upd_game. rewrite Hi. cbn [games set_games].
  apply (dict_values_alter (fun _ => g')).
Qed.

Lemma host_keeps_one_room now user name group m :
  one_room_per_player m ->
  one_room_per_player (fst (_host_game now user name group m)).
Proof.
  intros Hinv. unfold _host_game.
  destruct (_has_unfinished_game user m) eqn:Hun; [exact Hinv|].
  destruct group as [group_id|]; [|exact Hinv].
  cbn. intros u. unfold unfinished_rooms_of. cbn [games set_games].
  eapply Nat.le_trans; [apply filter_set_le|].
  destruct (String.eqb user u) eqn:E.
  - apply String.eqb_eq in E. subst u.
    fold (unfinished_rooms_of user m).
    rewrite no_unfinished_rooms by exact Hun.
    cbn. destruct (in_unfinished_room user _); lia.
  - replace (in_unfinished_room u _) with false.
    + specialize (Hinv u). unfold unfinished_rooms_of in Hinv. lia.
    + unfold in_unfinished_room, dict_mem. cbn. now rewrite E.
Qed.

Lemma join_keeps_one_room args user name m :
  one_room_per_player m ->
  one_room_per_player (fst (_join_game args user name m)).
Proof.
  intros Hinv. unfold _join_game.
  destruct args as [|c args]; [exact Hinv|].
  destruct (_has_unfinished_game user m) eqn:Hun; [exact Hinv|].
  set (room_id := py_strip (String c args)).
  unfold join_game.
  destruct (dict_get (games m) room_id) as [game|] eqn:Hg; [|exact Hinv].
  destruct (_ >=? _); [exact Hinv|].
  destruct (dict_mem (g_players game) user) eqn:Hmem; [exact Hinv|].
  cbn [fst].
  destruct (dict_index (games m) room_id) as [i|] eqn:Hi.
  2:{ apply dict_index_get in Hi. congruence. }
  intros u. unfold unfinished_rooms_of.
  rewrite put_game_values with (i := i) by exact Hi.
  change (games (register_profile user name m)) with (games m).
  destruct (String.eqb user u) eqn:E.
  - apply String.eqb_eq in E. subst u.
    eapply Nat.le_trans; [apply filter_alter_le|].
    fold (unfinished_rooms_of user m).
    rewrite no_unfinished_rooms by exact Hun. cbn. lia.
  - rewrite filter_alter_same with (x := game).
    + apply Hinv.
    + eapply dict_index_nth; eauto.
    + unfold in_unfinished_room. cbn.
      rewrite dict_mem_set_other; auto.
      intros ->. rewrite String.eqb_refl in E. discriminate.
Qed.

(** X24: a user seated in a live room whose phase is not ENDED can neither
    host nor join: both commands are rejected and leave the manager as it
    was (no room created, no seat assigned).  And the two commands that seat
    a player keep every identity in at most one live room that has not
    ended. *)
Theorem unfinished_room_blocks_host_and_join (m : Manager) (user : string) :
  ((exists room_id game,
       In (room_id, game) (games m) /\ dict_mem (g_players game) user = true /\
       g_phase game <> GamePhase.ENDED) ->
   (forall now name group,
       _host_game now user name group m = (m, HostUnfinishedGame)) /\
   (forall args name,
       fst (_join_game args user name m) = m /\
       reply_ok (snd (_join_game args user name m)) = false)) /\
  (one_room_per_player m ->
   (forall now name group,
       one_room_per_player (fst (_host_game now user name group m))) /\
   (forall args name,
       one_room_per_player (fst (_join_game args user name m)))).
Proof.
  split.
  - intros Hseated. apply has_unfinished_iff in Hseated.
    split.
    + intros now name group. unfold _host_game. now rewrite Hseated.
    + intros args name. unfold _join_game. rewrite Hseated.
      destruct args; split; reflexivity.
  - intros Hinv. split.
    + intros. now apply host_keeps_one_room.
    + intros. now apply join_keeps_one_room.
Qed.

(** the theorem at the manager in which ["u1"] has opened a room: ["u1"]
    can neither host again nor join *)
Lemma unfinished_room_blocks_host_and_join_witness :
  _host_game 2000 "u1" "Pu1" (Some "g1") hosted = (hosted, HostUnfinishedGame) /\
  fst (_join_game "WWG001000" "u1" "Pu1" hosted) = hosted /\
  one_room_per_player (fst (_join_game "WWG001000" "u2" "Pu2" hosted)).
Proof.
  destruct (unfinished_room_blocks_host_and_join hosted "u1") as [Hrej _].
  destruct Hrej as [Hhost Hjoin].
  { exists room, (game_in hosted).
    split; [left; vm_compute; reflexivity|].
    split; [vm_compute; reflexivity|vm_compute; discriminate]. }
  split; [apply Hhost|].
  split; [apply Hjoin|].
  destruct (unfinished_room_blocks_host_and_join hosted "u2") as [_ Hinv2].
  apply Hinv2.
  intros u. unfold unfinished_rooms_of.
  change (dict_values (games hosted)) with [game_in hosted].
  cbn [filter]. destruct (in_unfinished_room u (game_in hosted)); cbn; lia.
Defined.

(** C10: a player can be seated in two live rooms.  In [ended_room_session]
    the last night ends the game: the winner and the phase ENDED are written,
    then the role reveal of the result message raises on the player who
    joined after the deal and holds no role, so the command is answered by
    the error reply and the room is never archived: it stays in the live map
    in phase ENDED.  [_has_unfinished_game] skips such a room, so its host
    opens a second room and a second player of it joins that room: both are
    now seated in two live rooms. *)
Theorem player_seated_in_two_live_rooms :
  exists m g m1 m2,
    run ended_room_session empty_manager = m /\
    last (replies ended_room_session empty_manager) Help = ExecuteError /\
    dict_get (games m) room = Some g /\
    g_phase g = GamePhase.ENDED /\ g_winner g = Some "village" /\
    finished m = [] /\
    live_rooms_of "u1" m = [room] /\
    execute (host_at 2000 "u1") m = (m1, HostCreated "WWG002000") /\
    live_rooms_of "u1" m1 = [room; "WWG002000"] /\
    execute (msg "u2" "join" "WWG002000") m1 = (m2, JoinJoined "WWG002000") /\
    live_rooms_of "u2" m2 = [room; "WWG002000"].
Proof.
  do 4 eexists.
  split; [vm_compute; reflexivity|].
  split; [vm_compute; reflexivity|].
  split; [vm_compute; reflexivity|].
  do 4 (split; [reflexivity|]).
  split; [vm_compute; reflexivity|].
  split; [reflexivity|].
  split; [vm_compute; reflexivity|].
  reflexivity.
Qed.
(** * Further properties of the engine *)


(** ** Decimal round trip *)

Ltac eval_digit :=
  match goal with
  | |- context [digit_of ?c] =>
      let v := eval vm_compute in (digit_of c) in
      change (digit_of c) with v; cbv iota beta
  end.

Lemma parse_digits_acc (d : Decimal.uint) (acc : positive) :
  parse_digits (Zpos acc) false (uint_chars d) = Some (Zpos (Pos.of_uint_acc d acc)).
Proof.
  revert acc. unfold uint_chars.
  induction d; intros acc;
    cbn [NilEmpty.string_of_uint list_ascii_of_string Pos.of_uint_acc parse_digits];
    [reflexivity|..];
    eval_digit;
    match goal with
    | |- parse_digits ?z false _ = Some (Zpos (Pos.of_uint_acc d ?a)) =>
        replace z with (Zpos a) by lia; apply IHd
    end.
Qed.

Lemma parse_digits_uint (d : Decimal.uint) :
  parse_digits 0 false (uint_chars d) = Some (Z.of_N (Pos.of_uint d)).
Proof.
  unfold uint_chars.
  induction d;
    cbn [NilEmpty.string_of_uint list_ascii_of_string Pos.of_uint parse_digits];
    [reflexivity|..];
    eval_digit; cbn [Z.mul Z.add Z.of_N];
    first [exact IHd | apply (parse_digits_acc d)].
Qed.

Lemma lstrip_no_blank l : no_blank l = true -> lstrip l = l.
Proof.
  destruct l as [|c l]; cbn; auto.
  intros H. apply andb_prop in H as [H _].
  destruct (is_space c); [discriminate|reflexivity].
Qed.

Lemma strip_no_blank l : no_blank l = true -> strip l = l.
Proof.
  intros H. unfold strip. rewrite (lstrip_no_blank _ H).
  rewrite lstrip_no_blank.
  - apply rev_involutive.
  - unfold no_blank in *. rewrite forallb_forall in *.
    intros c Hc. apply H. now apply in_rev.
Qed.

Lemma uint_chars_no_blank d : no_blank (uint_chars d) = true.
Proof.
  unfold uint_chars, no_blank.
  induction d; cbn [NilEmpty.string_of_uint list_ascii_of_string forallb]; auto.
Qed.

Lemma nz_chars_cases d :
  nz_chars d = ["0"%char] /\ Pos.of_uint d = 0%N \/
  d <> Decimal.Nil /\ nz_chars d = uint_chars d.
Proof.
  unfold nz_chars, uint_chars, NilZero.string_of_uint.
  destruct d; [left; split; reflexivity|..]; right; split; congruence.
Qed.

Lemma nz_chars_no_blank d : no_blank (nz_chars d) = true.
Proof.
  destruct (nz_chars_cases d) as [[-> _]|[_ ->]]; [reflexivity|].
  apply uint_chars_no_blank.
Qed.

Lemma parse_unsigned_nz d :
  parse_unsigned (nz_chars d) = Some (Z.of_N (Pos.of_uint d)).
Proof.
  destruct (nz_chars_cases d) as [[-> ->]|[Hd ->]]; [reflexivity|].
  rewrite <- parse_digits_uint. unfold parse_unsigned, uint_chars.
  destruct d; [congruence|..]; reflexivity.
Qed.

Lemma parse_unsigned_head c r v :
  parse_unsigned (c :: r) = Some v ->
  Ascii.eqb c "-" = false /\ Ascii.eqb c "+" = false.
Proof.
  unfold parse_unsigned.
  destruct (digit_of c) eqn:Hc; [|discriminate]. intros _.
  split.
  - destruct (Ascii.eqb_spec c "-"%char); auto. subst. vm_compute in Hc. discriminate.
  - destruct (Ascii.eqb_spec c "+"%char); auto. subst. vm_compute in Hc. discriminate.
Qed.

(** [int(str(n)) == n] *)
Lemma py_int_str (n : Z) : py_int (py_str n) = Some n.
Proof.
  unfold py_str, py_int.
  rewrite <- (DecimalZ.of_to n) at 2.
  destruct (Z.to_int n) as [d|d]; cbn [NilZero.string_of_int Z.of_int list_ascii_of_string].
  - fold (nz_chars d). rewrite strip_no_blank by apply nz_chars_no_blank.
    pose proof (parse_unsigned_nz d) as Hp.
    destruct (nz_chars d) as [|c r]; [discriminate|].
    destruct (parse_unsigned_head _ _ Hp) as [-> ->]. exact Hp.
  - fold (nz_chars d).
    rewrite strip_no_blank
      by (cbn [no_blank forallb]; apply (nz_chars_no_blank d)).
    cbn [Ascii.eqb]. rewrite parse_unsigned_nz. reflexivity.
Qed.

Lemma chars_app (s1 s2 : string) :
  list_ascii_of_string (s1 ++ s2) = (list_ascii_of_string s1 ++ list_ascii_of_string s2)%list.
Proof. induction s1; cbn; congruence. Qed.

Lemma split_ws_word (l cur rest : list ascii) :
  no_blank l = true ->
  split_ws cur (l ++ rest) = split_ws (rev l ++ cur) rest.
Proof.
  revert cur. induction l as [|c l IH]; intros cur H; cbn; auto.
  cbn in H. apply andb_prop in H as [Hc Hl].
  destruct (is_space c); [discriminate|].
  rewrite IH by exact Hl. now rewrite <- app_assoc.
Qed.

Lemma py_str_chars (n : Z) :
  no_blank (list_ascii_of_string (py_str n)) = true /\
  list_ascii_of_string (py_str n) <> [].
Proof.
  unfold py_str.
  destruct (Z.to_int n) as [d|d]; cbn [NilZero.string_of_int list_ascii_of_string].
  - fold (nz_chars d). split; [apply nz_chars_no_blank|].
    pose proof (parse_unsigned_nz d). destruct (nz_chars d); discriminate.
  - split; [apply (nz_chars_no_blank d)|discriminate].
Qed.

Lemma py_split_pair (a b : string) :
  no_blank (list_ascii_of_string a) = true -> list_ascii_of_string a <> [] ->
  no_blank (list_ascii_of_string b) = true -> list_ascii_of_string b <> [] ->
  py_split (a ++ " " ++ b) = [a; b].
Proof.
  intros Ha Ha' Hb Hb'. unfold py_split.
  rewrite chars_app. cbn [append list_ascii_of_string].
  rewrite split_ws_word by exact Ha. rewrite app_nil_r.
  cbn [split_ws]. change (is_space " ") with true. cbv iota.
  destruct (rev (list_ascii_of_string a)) as [|c r] eqn:Hr.
  { apply (f_equal (@rev _)) in Hr. rewrite rev_involutive in Hr. contradiction. }
  rewrite <- Hr, rev_involutive, string_of_list_ascii_of_string.
  f_equal.
  rewrite <- (app_nil_r (list_ascii_of_string b)).
  rewrite split_ws_word by exact Hb. rewrite app_nil_r. cbn [split_ws].
  destruct (rev (list_ascii_of_string b)) as [|c' r'] eqn:Hr'.
  { apply (f_equal (@rev _)) in Hr'. rewrite rev_involutive in Hr'. contradiction. }
  now rewrite <- Hr', rev_involutive, string_of_list_ascii_of_string.
Qed.

(** X1: The value that [swap] and [choose] record, [f"{target1} {target2}"],
    is read back at resolution ([split], then [int] on the first two
    parts) as the same two seats. *)
Theorem recorded_pair_parses_back (target1 target2 : Z) :
  two_ints (py_split (py_str target1 ++ " " ++ py_str target2))
  = Some (target1, target2).
Proof.
  destruct (py_str_chars target1) as [H1 H1'], (py_str_chars target2) as [H2 H2'].
  rewrite py_split_pair by assumption.
  unfold two_ints. now rewrite !py_int_str.
Qed.

(** ** The win rules *)

Lemma decide_winner_eq (c : Counts) :
  decide_winner c =
  if (wolf_alive c =? 0)%nat then Some "village"
  else if (village_alive c + third_party_alive c <=? wolf_alive c)%nat
       then Some "wolf" else None.
Proof.
  unfold decide_winner.
  destruct (wolf_alive c =? 0)%nat eqn:Hw; [reflexivity|].
  apply Nat.eqb_neq in Hw.
  destruct (village_alive c + third_party_alive c <=? wolf_alive c)%nat; [reflexivity|].
  replace (village_alive c + wolf_alive c + third_party_alive c =? 0)%nat with false
    by (symmetry; apply Nat.eqb_neq; lia).
  replace (village_alive c + wolf_alive c + lovers_alive c =? 0)%nat with false
    by (symmetry; apply Nat.eqb_neq; lia).
  now rewrite !andb_false_r.
Qed.

(** X2: Only rules 1 and 2 can fire.  Rule 3 (lovers) and rule 4 (third party)
    both require that no wolf is alive, and then rule 1 has already named the
    village: the evaluator answers village exactly when no wolf is counted,
    wolf exactly when at least one wolf is counted and the wolves are at
    least as many as village and third party together, and never lover or
    third party. *)
Theorem decide_winner_village_or_wolf (c : Counts) :
  (decide_winner c = Some "village" <-> wolf_alive c = 0%nat) /\
  (decide_winner c = Some "wolf" <->
     wolf_alive c <> 0%nat /\
     (village_alive c + third_party_alive c <= wolf_alive c)%nat) /\
  (decide_winner c = None <->
     wolf_alive c <> 0%nat /\
     (wolf_alive c < village_alive c + third_party_alive c)%nat) /\
  decide_winner c <> Some "lover" /\
  decide_winner c <> Some "third_party".
Proof.
  rewrite decide_winner_eq.
  destruct (wolf_alive c =? 0)%nat eqn:Hw;
    [apply Nat.eqb_eq in Hw|apply Nat.eqb_neq in Hw];
    [|destruct (village_alive c + third_party_alive c <=? wolf_alive c)%nat eqn:Hle;
      [apply Nat.leb_le in Hle|apply Nat.leb_gt in Hle]];
    intuition (try discriminate; try lia).
Qed.

(** ** The tally *)

Lemma vote_incr_sum (vc : list (Z * nat)) (n : Z) :
  list_sum (map snd (vote_incr vc n)) = S (list_sum (map snd vc)).
Proof.
  unfold list_sum.
  induction vc as [|[k c] vc IH]; cbn; auto.
  destruct (k =? n); cbn; [reflexivity|]. rewrite IH. lia.
Qed.

Lemma tally_sum_from (votes : list (string * Z)) (vc : list (Z * nat)) :
  list_sum (map snd (fold_left (fun vc v => vote_incr vc (snd v)) votes vc))
  = (list_sum (map snd vc) + List.length votes)%nat.
Proof.
  revert vc. induction votes as [|v votes IH]; intros vc;
    cbn [fold_left List.length]; [lia|].
  rewrite IH, vote_incr_sum. lia.
Qed.

(** X3: The tally neither loses nor duplicates a vote: its counts add up to the
    number of counted votes, and the highest count is at most that number. *)
Theorem tally_counts_every_vote_once (counted : list (string * Z)) :
  list_sum (map snd (tally counted)) = List.length counted /\
  (max_votes (tally counted) <= List.length counted)%nat.
Proof.
  assert (H : list_sum (map snd (tally counted)) = List.length counted)
    by apply (tally_sum_from counted []).
  split; [exact H|].
  rewrite <- H. unfold max_votes.
  generalize (map snd (tally counted)). intros l.
  unfold list_sum. induction l as [|x l IH]; cbn; lia.
Qed.

(** ** Joining a room *)

Lemma dict_set_fresh (V : Type) (d : list (string * V)) k v :
  dict_mem d k = false -> dict_set d k v = (d ++ [(k, v)])%list.
Proof.
  unfold dict_mem. induction d as [|[k' v'] d IH]; cbn; auto.
  destruct (String.eqb k' k); [discriminate|].
  intros H. now rewrite IH.
Qed.

(** X4: [join_game] on a live room refuses exactly a full room and a player who
    is already seated, and then changes nothing; otherwise the newcomer is
    appended with the next seat number, so the seats stay numbered 1, 2, ...
    in joining order. *)
Theorem join_game_next_seat (room_id player_qq player_name : string) (m : Manager)
    (game : Game) :
  dict_get (games m) room_id = Some game ->
  seats_sequential game ->
  let r := join_game room_id player_qq player_name m in
  (snd r = false <->
     player_count (g_settings game) <= Z.of_nat (List.length (g_players game))
     \/ dict_mem (g_players game) player_qq = true) /\
  (snd r = false -> fst r = m) /\
  (snd r = true ->
     exists game',
       dict_get (games (fst r)) room_id = Some game' /\
       g_players game' =
       (g_players game ++
          [(player_qq,
            new_player player_name player_qq
              (Z.of_nat (List.length (g_players game)) + 1))])%list /\
       g_player_order game' = (g_player_order game ++ [player_qq])%list /\
       seats_sequential game').
Proof.
  intros Hg Hseq. cbv zeta. unfold join_game. rewrite Hg.
  destruct (Z.of_nat (List.length (g_players game)) >=? player_count (g_settings game))
    eqn:Hfull.
  { apply Z.geb_le in Hfull. cbn [fst snd].
    split; [tauto|]. split; [reflexivity|discriminate]. }
  rewrite Z.geb_leb in Hfull. apply Z.leb_gt in Hfull.
  destruct (dict_mem (g_players game) player_qq) eqn:Hmem; cbn [fst snd].
  { split; [tauto|]. split; [reflexivity|discriminate]. }
  split; [split; [discriminate|intros [H|H]; [lia|discriminate]]|].
  split; [discriminate|].
  intros _. eexists.
  split; [apply (@put_game_get room_id game _ (register_profile player_qq player_name m) Hg)|].
  cbn [g_players g_player_order set_g_players set_g_player_order].
  rewrite dict_set_fresh by exact Hmem.
  split; [reflexivity|]. split; [reflexivity|].
  unfold seats_sequential, player_values, dict_values in *.
  cbn [g_players set_g_players set_g_player_order].
  rewrite map_app, map_app, length_app, Hseq. cbn [map snd List.length p_number new_player].
  rewrite Nat.add_1_r, seq_S, map_app. cbn [map]. do 2 f_equal. lia.
Qed.

(** ** Archival at the end of a game *)

Section RemovalFacts.
Variable V : Type.
Implicit Types (d : list (string * V)) (k : string).

Lemma dict_get_none_keys d k : ~ In k (dict_keys d) -> dict_get d k = None.
Proof.
  unfold dict_keys. induction d as [|[k' v'] d IH]; cbn; auto.
  intros H. destruct (String.eqb_spec k' k); [tauto|]. apply IH. tauto.
Qed.

Lemma dict_get_del_same d k :
  NoDup (dict_keys d) -> dict_get (dict_del d k) k = None.
Proof.
  unfold dict_keys. induction d as [|[k' v'] d IH]; cbn; auto.
  intros Hnd. inversion Hnd as [|? ? Hk Hnd']; subst.
  destruct (String.eqb_spec k' k) as [->|Hne].
  - now apply dict_get_none_keys.
  - cbn. destruct (String.eqb_spec k' k); [contradiction|]. now apply IH.
Qed.

Lemma in_dict_del d k k' v : In (k', v) (dict_del d k) -> In (k', v) d.
Proof.
  induction d as [|[k0 v0] d IH]; cbn; auto.
  destruct (String.eqb k0 k); cbn; [tauto|].
  intros [H|H]; auto.
Qed.

Lemma in_dict_del_neq d k k' v :
  NoDup (dict_keys d) -> In (k', v) (dict_del d k) -> k' <> k.
Proof.
  unfold dict_keys. induction d as [|[k0 v0] d IH]; cbn; [tauto|].
  intros Hnd. inversion Hnd as [|? ? Hk Hnd']; subst.
  destruct (String.eqb_spec k0 k) as [->|Hne].
  - intros Hin ->. apply Hk. change k with (fst (k, v)). now apply in_map.
  - intros [[= <- <-]|Hin]; auto.
Qed.

Lemma in_alter_entry d (f : V -> V) i k k' v :
  dict_index d k = Some i ->
  In (k', v) (alter_at (fun kv => (fst kv, f (snd kv))) i d) ->
  In (k', v) d \/ k' = k /\ exists v0, In (k, v0) d /\ v = f v0.
Proof.
  revert i. induction d as [|[k0 v0] d IH]; cbn; [discriminate|].
  intros i. destruct (String.eqb_spec k0 k) as [->|Hne].
  - intros [= <-]. cbn. intros [[= <- <-]|H]; [|tauto].
    right. split; [reflexivity|]. exists v0. auto.
  - destruct (dict_index d k) as [j|]; cbn; [|discriminate].
    intros [= <-]. cbn. intros [H|H]; auto.
    destruct (IH _ eq_refl H) as [H'|(-> & v1 & H' & ->)]; eauto 6.
Qed.
End RemovalFacts.

Lemma in_put_game room_id (x : Game) (m : Manager) r g :
  In (r, g) (games (put_game room_id x m)) ->
  In (r, g) (games m) \/ r = room_id /\ g = x.
Proof.
  unfold put_game, upd_game.
  destruct (dict_index (games m) room_id) as [i|] eqn:Hi; auto.
  cbn [games set_games]. intros H.
  apply in_alter_entry with (f := fun _ : Game => x) (k := room_id) in H; [|exact Hi].
  destruct H as [H|(-> & v0 & _ & ->)]; auto.
Qed.

Lemma put_game_keys room_id (x : Game) (m : Manager) :
  dict_keys (games (put_game room_id x m)) = dict_keys (games m).
Proof.
  unfold put_game, upd_game.
  destruct (dict_index (games m) room_id) as [i|]; auto.
  cbn [games set_games]. apply dict_keys_alter with (f := fun _ : Game => x).
Qed.

Lemma dict_get_In (V : Type) (d : list (string * V)) k v :
  dict_get d k = Some v -> In (k, v) d.
Proof.
  induction d as [|[k' v'] d IH]; cbn; [discriminate|].
  destruct (String.eqb_spec k' k) as [->|Hne]; [intros [= ->]; auto|auto].
Qed.

Lemma put_game_profiles room_id (x : Game) (m : Manager) :
  player_profiles (put_game room_id x m) = player_profiles m.
Proof. unfold put_game, upd_game. now destruct (dict_index _ _). Qed.

Lemma put_game_finished room_id (x : Game) (m : Manager) :
  finished (put_game room_id x m) = finished m.
Proof. unfold put_game, upd_game. now destruct (dict_index _ _). Qed.

Lemma reveal_roles_dealt ps :
  reveal_roles ps = Some tt <-> forall p, In p ps -> p_original_role p <> None.
Proof.
  induction ps as [|p ps IH]; cbn [reveal_roles].
  - split; [intros _ p []|reflexivity].
  - destruct (p_original_role p) as [r|] eqn:Hr; cbn [ROLES_get option_map bind].
    + rewrite IH. split.
      * intros H q [<-|Hq]; [congruence|auto].
      * intros H q Hq. apply H. now right.
    + split; [discriminate|]. intros H. exfalso. apply (H p); [now left|exact Hr].
Qed.

Lemma reveal_roles_cases ps : reveal_roles ps = Some tt \/ reveal_roles ps = None.
Proof. destruct (reveal_roles ps) as [[]|]; auto. Qed.

(** the profile loop returns when every player has an original role *)
Lemma archive_players_returns code game entries :
  (forall e, In e entries -> p_original_role (snd e) <> None) ->
  forall profiles, exists ps, archive_players code game profiles entries = Ok ps.
Proof.
  induction entries as [|e entries IH]; intros H profiles; cbn [archive_players].
  - now exists profiles.
  - assert (He : exists ps, archive_player code game profiles e = Ok ps).
    { unfold archive_player. destruct (dict_mem profiles (fst e)); [|now eexists].
      destruct (p_original_role (snd e)) as [r|] eqn:Hr;
        [|exfalso; apply (H e); [now left|exact Hr]].
      cbn [ROLES_get option_map raising obind]. now eexists. }
    destruct He as [ps ->]. cbn [obind]. apply IH. intros e' He'. apply H. now right.
Qed.

Lemma update_profiles_returns code game profiles :
  reveal_roles (player_values game) = Some tt ->
  exists ps, update_profiles code game profiles = Ok ps.
Proof.
  intros H. apply archive_players_returns.
  intros e He. apply (proj1 (reveal_roles_dealt _) H).
  unfold player_values, dict_values. now apply in_map.
Qed.

(** what [_check_game_end] does, by the winner and the role reveal *)
Lemma check_game_end_cases code room_id m game c :
  dict_get (games m) room_id = Some game ->
  count_alive (player_values game) (mkCounts 0 0 0 0) = Some c ->
  _check_game_end code room_id m =
  match decide_winner c with
  | None => Ok (m, false)
  | Some w =>
      match reveal_roles (player_values game) with
      | None => Raise (put_game room_id (ended_with w game) m)
      | Some _ =>
          match update_profiles code (set_g_game_code (Some code) (ended_with w game))
                  (player_profiles m) with
          | Ok ps =>
              Ok ({| games := dict_del (games (put_game room_id (ended_with w game) m))
                                room_id;
                     player_profiles := ps;
                     finished := finished m ++ [code] |}, true)
          | Raise ps =>
              Raise (set_player_profiles ps
                       (put_game room_id (set_g_game_code (Some code) (ended_with w game))
                          (put_game room_id (ended_with w game) m)))
          end
      end
  end.
Proof.
  intros Hg Hc. unfold _check_game_end. rewrite Hg. cbn [raising obind].
  rewrite Hc. cbn [raising obind].
  destruct (decide_winner c) as [w|]; [|reflexivity].
  fold (ended_with w game).
  change (player_values (ended_with w game)) with (player_values game).
  destruct (reveal_roles (player_values game)) as [[]|]; cbn [raising obind];
    [|reflexivity].
  unfold archive_game. rewrite (put_game_get _ (ended_with w game) _ Hg).
  rewrite put_game_profiles, put_game_finished.
  destruct (update_profiles code _ (player_profiles m)); reflexivity.
Qed.

Lemma decide_winner_names c w :
  decide_winner c = Some w -> w = "village" \/ w = "wolf".
Proof.
  rewrite decide_winner_eq.
  destruct (wolf_alive c =? 0)%nat; [left; congruence|].
  destruct (_ <=? _)%nat; [right; congruence|discriminate].
Qed.

(** X5: When the win check names no winner the manager is unchanged.  When
    it names one, the winner and the phase ENDED are written and the result
    message is built: if every player has an original role the check returns,
    the room has left the live map, its game code is appended to the archive
    list and the profiles are the updated ones; if some player has none, the
    check raises with the room still in the live map, in phase ENDED with the
    winner recorded, and nothing archived.  A check that returns leaves no
    room of phase ENDED in the live map; a check that raises after the winner
    is written does. *)
Theorem check_game_end_archives (code room_id : string) (m : Manager) (g0 : Game)
    (c : Counts) :
  NoDup (dict_keys (games m)) ->
  dict_get (games m) room_id = Some g0 ->
  count_alive (player_values g0) (mkCounts 0 0 0 0) = Some c ->
  (decide_winner c = None -> _check_game_end code room_id m = Ok (m, false)) /\
  (forall w, decide_winner c = Some w ->
     (w = "village" \/ w = "wolf") /\
     (reveal_roles (player_values g0) = Some tt ->
        exists m',
          _check_game_end code room_id m = Ok (m', true) /\
          dict_get (games m') room_id = None /\
          finished m' = (finished m ++ [code])%list /\
          update_profiles code (set_g_game_code (Some code) (ended_with w g0))
            (player_profiles m) = Ok (player_profiles m') /\
          (no_ended_room m -> no_ended_room m')) /\
     (reveal_roles (player_values g0) = None ->
        exists m',
          _check_game_end code room_id m = Raise m' /\
          dict_get (games m') room_id = Some (ended_with w g0) /\
          g_phase (ended_with w g0) = GamePhase.ENDED /\
          g_winner (ended_with w g0) = Some w /\
          g_game_code (ended_with w g0) = g_game_code g0 /\
          g_players (ended_with w g0) = g_players g0 /\
          finished m' = finished m /\
          player_profiles m' = player_profiles m /\
          ~ no_ended_room m')).
Proof.
  intros Hnd Hg Hc.
  rewrite (check_game_end_cases code _ _ Hg Hc).
  split; [intros ->; reflexivity|].
  intros w Hw. rewrite Hw.
  split; [exact (decide_winner_names _ Hw)|].
  split.
  - intros Hr. rewrite Hr.
    destruct (@update_profiles_returns code
                (set_g_game_code (Some code) (ended_with w g0)) (player_profiles m) Hr)
      as [ps Hps].
    rewrite Hps. eexists. split; [reflexivity|].
    cbn [games finished player_profiles].
    split; [apply dict_get_del_same; now rewrite put_game_keys|].
    split; [reflexivity|]. split; [reflexivity|].
    intros Hno r g Hin.
    assert (Hne : r <> room_id).
    { eapply in_dict_del_neq; [|exact Hin]. now rewrite put_game_keys. }
    apply in_dict_del in Hin.
    apply in_put_game in Hin. destruct Hin as [Hin|[-> _]]; [eapply Hno; eauto|].
    contradiction.
  - intros Hr. rewrite Hr. eexists. split; [reflexivity|].
    split; [apply (put_game_get _ _ _ Hg)|].
    do 4 (split; [reflexivity|]).
    split; [apply put_game_finished|].
    split; [apply put_game_profiles|].
    intros Hno.
    apply (Hno room_id (ended_with w g0)); [|reflexivity].
    eapply dict_get_In. apply (put_game_get _ _ _ Hg).
Qed.

(** ** Death execution *)

Lemma dict_index_keys (V : Type) (d d' : list (string * V)) k :
  dict_keys d = dict_keys d' -> dict_index d k = dict_index d' k.
Proof.
  unfold dict_keys. revert d'.
  induction d as [|[k0 v0] d IH]; intros [|[k1 v1] d']; cbn; try discriminate; auto.
  intros [= <- H]. destruct (String.eqb k0 k); auto. now rewrite (IH d').
Qed.

Lemma player_ref_nth g k i p :
  player_ref g k = Some (i, p) ->
  dict_index (g_players g) k = Some i /\ nth_error (player_values g) i = Some p.
Proof.
  unfold player_ref.
  destruct (dict_index (g_players g) k) as [j|]; cbn; [|discriminate].
  destruct (nth_error (player_values g) j) as [q|] eqn:Hq; cbn; [|discriminate].
  intros [= <- <-]. split; [reflexivity|exact Hq].
Qed.

Lemma player_ref_of_nth g k i p :
  dict_index (g_players g) k = Some i -> nth_error (player_values g) i = Some p ->
  player_ref g k = Some (i, p).
Proof. intros H1 H2. unfold player_ref. rewrite H1. cbn. now rewrite H2. Qed.

Lemma alter_player_keys f i g :
  dict_keys (g_players (alter_player f i g)) = dict_keys (g_players g).
Proof. unfold alter_player. cbn. apply dict_keys_alter with (f := f). Qed.

Lemma out_players_kept_refl g : out_players_kept g g.
Proof. split; auto. Qed.

Lemma out_players_kept_trans g1 g2 g3 :
  out_players_kept g1 g2 -> out_players_kept g2 g3 -> out_players_kept g1 g3.
Proof.
  intros [K1 H1] [K2 H2]. split; [congruence|].
  intros i p Hp Ha. apply H2; auto.
Qed.

(** a mutation of a living player keeps the players who are out *)
Lemma alter_alive_kept f i p g :
  nth_error (player_values g) i = Some p -> is_alive p = true ->
  out_players_kept g (alter_player f i g).
Proof.
  intros Hp Ha. split; [apply alter_player_keys|].
  intros j q Hq Hd. rewrite player_values_alter, nth_error_alter_at.
  destruct (i =? j)%nat eqn:E; auto.
  apply Nat.eqb_eq in E. subst j. congruence.
Qed.

Lemma victim_out_kept g g' death :
  out_players_kept g g' -> victim_out g death -> victim_out g' death.
Proof.
  intros [K H] (i & p & Hr & Ha).
  destruct (player_ref_nth _ _ Hr) as [Hi Hn].
  exists i, p. split; auto.
  apply player_ref_of_nth; auto.
  rewrite dict_index_keys with (d' := g_players g) by exact K. exact Hi.
Qed.

Lemma kill_not_alive reason killer p : is_alive (kill reason killer p) = false.
Proof. reflexivity. Qed.

Lemma execute_death_kept death g g' :
  execute_death death g = Ok g' ->
  out_players_kept g g' /\ victim_out g' death.
Proof.
  unfold execute_death.
  destruct (player_ref g (d_player_qq death)) as [[i player]|] eqn:Hr; [|discriminate].
  cbn [bind obind raising]. destruct (player_ref_nth _ _ Hr) as [Hi Hn].
  destruct (is_alive player) eqn:Ha.
  2:{ intros [= <-]. split; [apply out_players_kept_refl|].
      exists i, player. auto. }
  set (g1 := alter_player (kill (d_reason death) (d_killer death)) i g).
  assert (K1 : out_players_kept g g1) by (eapply alter_alive_kept; eauto).
  assert (V1 : victim_out g1 death).
  { exists i, (kill (d_reason death) (d_killer death) player). split; [|reflexivity].
    apply player_ref_of_nth.
    - unfold g1. rewrite dict_index_keys with (d' := g_players g)
        by apply alter_player_keys.
      exact Hi.
    - unfold g1. rewrite player_values_alter, nth_error_alter_at, Nat.eqb_refl, Hn.
      reflexivity. }
  destruct (p_is_lover player); [|intros [= <-]; auto].
  destruct (truthy (p_lover_partner player)) as [partner|]; [|intros [= <-]; auto].
  destruct (player_ref g1 partner) as [[j lover]|] eqn:Hl; [|discriminate].
  cbn [bind obind raising]. destruct (player_ref_nth _ _ Hl) as [Hj Hnl].
  destruct (is_alive lover) eqn:Hal; intros [= <-]; auto.
  assert (K2 : out_players_kept g1
                 (alter_player (kill DeathReason.LOVER_SUICIDE (p_qq player)) j g1))
    by (eapply alter_alive_kept; eauto).
  split; [eapply out_players_kept_trans; eauto|].
  eapply victim_out_kept; eauto.
Qed.

Lemma execute_death_queue_kept q g g' :
  execute_death_queue q g = Ok g' ->
  out_players_kept g g' /\ forall death, In death q -> victim_out g' death.
Proof.
  revert g. induction q as [|d q IH]; intros g; cbn.
  - intros [= <-]. split; [apply out_players_kept_refl|intros ? []].
  - destruct (execute_death d g) as [g1|] eqn:H1; cbn [obind]; [|discriminate].
    intros H2. destruct (execute_death_kept _ _ H1) as [K1 V1].
    destruct (IH _ H2) as [K2 V2].
    split; [eapply out_players_kept_trans; eauto|].
    intros death [<-|Hin]; auto.
    eapply victim_out_kept; eauto.
Qed.

(** X6: Death execution empties the queue, keeps every player at the same key
    and place, leaves every player who was already out exactly as recorded
    (status, cause and killer are never overwritten), and leaves every
    victim named in the queue out of the game. *)
Theorem execute_deaths_outcome (g g' : Game) :
  _execute_deaths g = Ok g' ->
  g_death_queue g' = [] /\
  out_players_kept g g' /\
  forall death, In death (g_death_queue g) -> victim_out g' death.
Proof.
  unfold _execute_deaths.
  destruct (execute_death_queue (g_death_queue g) g) as [g1|] eqn:H; [|discriminate].
  cbn [bind obind raising]. intros [= <-].
  destruct (execute_death_queue_kept _ _ H) as [K V].
  split; [reflexivity|]. split; [exact K|exact V].
Qed.

Lemma player_ref_alter_other f i g k j p :
  player_ref g k = Some (j, p) -> i <> j ->
  player_ref (alter_player f i g) k = Some (j, p).
Proof.
  intros Hr Hij. destruct (player_ref_nth _ _ Hr) as [Hi Hn].
  apply player_ref_of_nth.
  - rewrite dict_index_keys with (d' := g_players g) by apply alter_player_keys.
    exact Hi.
  - rewrite player_values_alter, nth_error_alter_at.
    destruct (i =? j)%nat eqn:E; auto. apply Nat.eqb_eq in E. contradiction.
Qed.

Lemma truthy_some (s : string) : s <> "" -> truthy (Some s) = Some s.
Proof. destruct s; [congruence|reflexivity]. Qed.

(** X7: The lover cascade of the night: when a living lover is killed from the
    death queue and the partner is alive, both are out after the step, the
    victim with the queued cause and killer and the partner with cause lover
    suicide and the victim as killer; nobody else changes.  The step consults
    neither the guard protection nor the witch save. *)
Theorem execute_death_lover_cascade (death : Death) (g : Game) (i j : nat)
    (player lover : Player) (partner : string) :
  player_ref g (d_player_qq death) = Some (i, player) ->
  is_alive player = true ->
  p_is_lover player = true ->
  p_lover_partner player = Some partner -> partner <> "" ->
  player_ref g partner = Some (j, lover) -> j <> i ->
  is_alive lover = true ->
  exists g',
    execute_death death g = Ok g' /\
    nth_error (player_values g') i
    = Some (kill (d_reason death) (d_killer death) player) /\
    nth_error (player_values g') j
    = Some (kill DeathReason.LOVER_SUICIDE (p_qq player) lover) /\
    forall k, k <> i -> k <> j ->
      nth_error (player_values g') k = nth_error (player_values g) k.
Proof.
  intros Hr Ha Hl Hp Hne Hr2 Hij Ha2.
  destruct (player_ref_nth _ _ Hr) as [Hi Hn].
  destruct (player_ref_nth _ _ Hr2) as [Hj Hn2].
  unfold execute_death. rewrite Hr. cbn [bind obind raising]. rewrite Ha, Hl, Hp.
  rewrite (truthy_some Hne).
  rewrite player_ref_alter_other with (j := j) (p := lover)
    by first [exact Hr2 | congruence].
  cbn [bind obind raising]. rewrite Ha2.
  eexists. split; [reflexivity|].
  rewrite !player_values_alter.
  repeat split.
  - rewrite !nth_error_alter_at.
    replace (j =? i)%nat with false by (symmetry; apply Nat.eqb_neq; exact Hij).
    now rewrite Nat.eqb_refl, Hn.
  - rewrite !nth_error_alter_at, Nat.eqb_refl.
    replace (i =? j)%nat with false by (symmetry; apply Nat.eqb_neq; congruence).
    now rewrite Hn2.
  - intros k Hki Hkj. rewrite !nth_error_alter_at.
    replace (j =? k)%nat with false by (symmetry; apply Nat.eqb_neq; congruence).
    replace (i =? k)%nat with false by (symmetry; apply Nat.eqb_neq; congruence).
    reflexivity.
Qed.

(** ** Cupid *)

(** X8: Cupid's pairing is mutual: for two different seats of living players,
    each of the two becomes a lover with the other as partner, both are
    appended to the list of lovers, and nobody else changes. *)
Theorem cupid_pairs_mutually (g : Game) (raw : string) (n1 n2 : Z) (i1 i2 : nat)
    (p1 p2 : Player) :
  dict_get (g_night_actions g) "cupid" = Some raw -> raw <> "" ->
  two_ints (py_split raw) = Some (n1, n2) ->
  _get_player_by_number g n1 = Some (i1, p1) ->
  _get_player_by_number g n2 = Some (i2, p2) ->
  is_alive p1 = true -> is_alive p2 = true ->
  n1 <> n2 ->
  exists g' q1 q2,
    _process_cupid_action g = Some g' /\
    nth_error (player_values g') i1 = Some q1 /\
    nth_error (player_values g') i2 = Some q2 /\
    p_qq q1 = p_qq p1 /\ p_qq q2 = p_qq p2 /\
    p_is_lover q1 = true /\ p_lover_partner q1 = Some (p_qq q2) /\
    p_is_lover q2 = true /\ p_lover_partner q2 = Some (p_qq q1) /\
    is_alive q1 = true /\ is_alive q2 = true /\
    g_lovers g' = (g_lovers g ++ [p_qq p1; p_qq p2])%list /\
    forall k, k <> i1 -> k <> i2 ->
      nth_error (player_values g') k = nth_error (player_values g) k.
Proof.
  intros Hraw Hne Hints H1 H2 Ha1 Ha2 Hn.
  destruct (find_player_sound _ _ H1) as [Hn1 Hf1].
  destruct (find_player_sound _ _ H2) as [Hn2 Hf2].
  apply Z.eqb_eq in Hf1, Hf2.
  assert (Hi : i1 <> i2) by (intros ->; congruence).
  unfold _process_cupid_action. rewrite Hraw, (truthy_some Hne), Hints, H1, H2, Ha1, Ha2.
  cbn [andb].
  do 3 eexists. split; [reflexivity|].
  cbn [g_lovers set_g_lovers].
  change (player_values (set_g_lovers ?l ?x)) with (player_values x).
  rewrite !player_values_alter, !nth_error_alter_at, !Nat.eqb_refl.
  replace (i2 =? i1)%nat with false by (symmetry; apply Nat.eqb_neq; congruence).
  replace (i1 =? i2)%nat with false by (symmetry; apply Nat.eqb_neq; congruence).
  rewrite Hn1, Hn2. cbn [option_map].
  split; [reflexivity|]. split; [reflexivity|].
  repeat split; auto.
  intros k Hk1 Hk2. rewrite !nth_error_alter_at.
  replace (i2 =? k)%nat with false by (symmetry; apply Nat.eqb_neq; congruence).
  replace (i1 =? k)%nat with false by (symmetry; apply Nat.eqb_neq; congruence).
  reflexivity.
Qed.

(** ** Poison *)

Lemma dict_index_of_nth (V : Type) (d : list (string * V)) i k v :
  NoDup (dict_keys d) -> nth_error d i = Some (k, v) -> dict_index d k = Some i.
Proof.
  unfold dict_keys. revert i.
  induction d as [|[k0 v0] d IH]; intros [|i]; cbn; try discriminate.
  - intros _ [= -> ->]. now rewrite String.eqb_refl.
  - intros Hnd Hn. inversion Hnd as [|? ? Hk Hnd']; subst.
    destruct (String.eqb_spec k0 k) as [->|Hne].
    + exfalso. apply Hk. apply nth_error_In in Hn.
      change k with (fst (k, v)). now apply in_map.
    + now rewrite (IH i Hnd' Hn).
Qed.

(** in a well-formed room the ["qq"] of a player is the key of its entry *)
Lemma wf_player_ref g i p :
  wf_players g -> nth_error (player_values g) i = Some p ->
  player_ref g (p_qq p) = Some (i, p).
Proof.
  intros [Hnd Hqq] Hn. apply player_ref_of_nth; [|exact Hn].
  unfold player_values, dict_values in Hn. rewrite nth_error_map in Hn.
  destruct (nth_error (g_players g) i) as [[k q]|] eqn:E; [|discriminate].
  cbn in Hn. injection Hn as ->.
  rewrite (Hqq k p) by (eapply nth_error_In; eauto).
  eapply dict_index_of_nth; eauto.
Qed.

Lemma use_poison_spent w : has_poison w = true -> has_poison (use_poison w) = false.
Proof. destruct w; cbn; congruence. Qed.

(** X9: Poison on a spiritualist or on a double-faced player spends the charge
    and kills nobody: the death queue and the players are unchanged, the
    poison charge is gone and the night is marked as poisoned. *)
Theorem poison_on_immune_spends_charge (g : Game) (raw : string) (n : Z) (iw it : nat)
    (w tp : Player) :
  dict_get (g_night_actions g) "witch_poison" = Some raw -> raw <> "" ->
  py_int raw = Some n ->
  _get_player_by_role g witch = Some (iw, w) ->
  _get_player_by_number g n = Some (it, tp) ->
  has_poison (g_witch_status g) = true ->
  has_role spiritualist tp = true \/ has_role double_faced tp = true ->
  exists g',
    _process_witch_poison_action g = Some g' /\
    g_death_queue g' = g_death_queue g /\
    g_players g' = g_players g /\
    g_witch_status g' = use_poison (g_witch_status g) /\
    has_poison (g_witch_status g') = false /\
    has_save (g_witch_status g') = has_save (g_witch_status g) /\
    g_witch_used_poison_this_night g' = true.
Proof.
  intros Hraw Hne Hint Hw Ht Hp Himm.
  unfold _process_witch_poison_action.
  rewrite Hraw, (truthy_some Hne), Hw, Hint, Ht, Hp. cbn [negb].
  replace (has_role spiritualist tp || has_role double_faced tp) with true
    by (destruct Himm as [-> | ->]; [reflexivity|now rewrite orb_true_r]).
  eexists. split; [reflexivity|].
  cbn. repeat split.
  - now apply use_poison_spent.
  - destruct (g_witch_status g); cbn in *; congruence.
Qed.

(** X10: Poison is independent of the wolf attack and of every protection: a
    living player who is neither spiritualist nor double-faced and is
    poisoned is dead after death execution, with cause poison and the witch
    as killer, whatever the guard protects and whomever the witch saved that
    night; the poison charge is spent. *)
Theorem poisoned_target_dies (g : Game) (raw : string) (n : Z) (iw it : nat)
    (w tp : Player) :
  wf_players g ->
  dict_get (g_night_actions g) "witch_poison" = Some raw -> raw <> "" ->
  py_int raw = Some n ->
  _get_player_by_role g witch = Some (iw, w) ->
  _get_player_by_number g n = Some (it, tp) ->
  has_poison (g_witch_status g) = true ->
  has_role spiritualist tp = false -> has_role double_faced tp = false ->
  is_alive tp = true -> p_is_lover tp = false ->
  g_death_queue g = [] ->
  exists g1 g2,
    _process_witch_poison_action g = Some g1 /\
    _execute_deaths g1 = Ok g2 /\
    nth_error (player_values g2) it
    = Some (kill DeathReason.POISON (p_qq w) tp) /\
    has_poison (g_witch_status g2) = false /\
    forall k, k <> it ->
      nth_error (player_values g2) k = nth_error (player_values g) k.
Proof.
  intros Hwf Hraw Hne Hint Hw Ht Hp Hs Hd Ha Hl Hq.
  destruct (find_player_sound _ _ Ht) as [Hn _].
  unfold _process_witch_poison_action.
  rewrite Hraw, (truthy_some Hne), Hw, Hint, Ht, Hp, Hs, Hd. cbn [negb orb].
  eexists. eexists. split; [reflexivity|].
  unfold _execute_deaths.
  cbn [g_death_queue set_g_death_queue set_g_witch_status
       set_g_witch_used_poison_this_night].
  rewrite Hq. cbn [app execute_death_queue]. unfold execute_death.
  cbn [d_player_qq d_reason d_killer bind].
  match goal with
  | |- context [player_ref ?x (p_qq tp)] =>
      replace (player_ref x (p_qq tp)) with (Some (it, tp))
        by (symmetry; apply (@wf_player_ref x it tp Hwf Hn))
  end.
  cbn [bind obind raising]. rewrite Ha, Hl. cbn [bind obind raising].
  split; [reflexivity|].
  change (player_values (set_g_death_queue ?q ?x)) with (player_values x).
  rewrite player_values_alter.
  split; [|split].
  - rewrite nth_error_alter_at, Nat.eqb_refl.
    change (nth_error (player_values _) it) with (nth_error (player_values g) it).
    now rewrite Hn.
  - cbn. now apply use_poison_spent.
  - intros k Hk. rewrite nth_error_alter_at.
    replace (it =? k)%nat with false by (symmetry; apply Nat.eqb_neq; congruence).
    reflexivity.
Qed.

(** ** Settings *)

Lemma phase_eqb_eq (a b : GamePhase.t) : GamePhase.eqb a b = true -> a = b.
Proof. destruct a, b; cbn; congruence. Qed.


Lemma put_settings_in_bounds room_id g s' m :
  dict_get (games m) room_id = Some g ->
  6 <= player_count s' <= 18 ->
  caps_in_bounds m ->
  caps_in_bounds (put_game room_id (set_g_settings s' g) m).
Proof.
  intros Hg Hs Hm r g0 Hin.
  apply in_put_game in Hin. destruct Hin as [Hin|[_ ->]]; [eauto|exact Hs].
Qed.

Ltac settings_rejected :=
  intros [= <- <-]; split; [auto|]; split; [cbn; discriminate|auto].

(** X11: The settings command changes a room only for its host and only while
    the room is in SETUP; every rejected command leaves the manager as it
    was; an accepted one changes nothing but the settings of the sender's
    room, and keeps the seat cap of every live room within 6..18. *)
Theorem settings_only_by_host_in_setup (args user_id : string) (m m' : Manager)
    (r : Reply) :
  _handle_settings args user_id m = Ok (m', r) ->
  (reply_ok r = false -> m' = m) /\
  (reply_ok r = true ->
     exists room_id g s',
       truthy (_find_user_game user_id m) = Some room_id /\
       dict_get (games m) room_id = Some g /\
       g_host g = user_id /\
       g_phase g = GamePhase.SETUP /\
       m' = put_game room_id (set_g_settings s' g) m) /\
  (caps_in_bounds m -> caps_in_bounds m').
Proof.
  unfold _handle_settings.
  destruct args as [|c args]; [settings_rejected|].
  destruct (py_split (String c args)) as [|setting_type [|value rest]];
    try (settings_rejected).
  destruct (truthy (_find_user_game user_id m)) as [room_id|] eqn:Hf;
    [|settings_rejected].
  destruct (dict_get (games m) room_id) as [g|] eqn:Hg; [|discriminate].
  cbn [bind obind raising].
  destruct (String.eqb_spec (g_host g) user_id) as [Hh|Hh]; cbn [negb];
    [|settings_rejected].
  destruct (GamePhase.eqb (g_phase g) GamePhase.SETUP) eqn:Hp; cbn [negb];
    [|settings_rejected].
  apply phase_eqb_eq in Hp.
  assert (Hb : caps_in_bounds m -> 6 <= player_count (g_settings g) <= 18)
    by (intros Hm; eapply Hm, dict_get_In; eauto).
  destruct (String.eqb setting_type "players").
  { destruct (py_int value) as [n|];
      [|settings_rejected].
    destruct ((n <? 6) || (n >? 18)) eqn:Hr;
      [settings_rejected|].
    apply orb_false_elim in Hr as [H6 H18].
    apply Z.ltb_ge in H6. rewrite Z.gtb_ltb in H18. apply Z.ltb_ge in H18.
    intros [= <- <-]. split; [discriminate|]. split.
    - intros _. exists room_id, g. eexists. repeat split; eauto.
    - intros Hm. apply put_settings_in_bounds; auto. }
  destruct (String.eqb setting_type "roles");
    [|settings_rejected].
  destruct rest as [|count rest];
    [settings_rejected|].
  destruct (role_of_key value) as [role_key|];
    [|settings_rejected].
  destruct (py_int count) as [role_count|];
    [|settings_rejected].
  destruct (role_count <? 0);
    [settings_rejected|].
  intros [= <- <-]. split; [discriminate|]. split.
  - intros _. exists room_id, g. eexists. repeat split; eauto.
  - intros Hm. apply put_settings_in_bounds; auto.
Qed.

(** ** Hosting *)

Lemma dict_set_existing (V : Type) (d : list (string * V)) k v v0 :
  dict_get d k = Some v0 ->
  dict_keys (dict_set d k v) = dict_keys d /\
  List.length (dict_set d k v) = List.length d.
Proof.
  unfold dict_keys. induction d as [|[k' v'] d IH]; cbn; [discriminate|].
  destruct (String.eqb_spec k' k) as [->|Hne]; cbn; [auto|].
  intros H. destruct (IH H) as [H1 H2]. split; congruence.
Qed.

Lemma room_id_period (now k : Z) :
  room_id_of_time (now + k * 1000000) = room_id_of_time now.
Proof.
  unfold room_id_of_time. do 3 f_equal. apply Z.mod_add. discriminate.
Qed.

(** X12: The room id depends on the clock modulo 1000000 only.  When a user who
    may host does so in the same second as, or a multiple of 1000000 seconds
    after, the creation of a room that is still live, the new room takes the
    place of the old one: the old room is dropped from the live map without
    being archived, and the new room seats the host alone, so nobody else is
    seated under that id any more. *)
Theorem host_replaces_room_with_same_id (now k : Z)
    (user_id user_name group_id : string) (m : Manager) (old : Game) :
  _has_unfinished_game user_id m = false ->
  dict_get (games m) (room_id_of_time now) = Some old ->
  let m' :=
    fst (_host_game (now + k * 1000000) user_id user_name (Some group_id) m) in
  dict_get (games m') (room_id_of_time now)
  = Some (new_game (room_id_of_time now) user_id group_id user_name) /\
  dict_keys (games m') = dict_keys (games m) /\
  finished m' = finished m /\
  forall u, u <> user_id ->
    dict_mem (g_players (new_game (room_id_of_time now) user_id group_id user_name)) u
    = false.
Proof.
  intros Hun Hold. cbv zeta. unfold _host_game. rewrite Hun, room_id_period.
  cbn [create_game fst games set_games finished].
  split; [apply dict_get_set_same|].
  split; [eapply dict_set_existing; eauto|].
  split; [reflexivity|].
  intros u Hu. unfold dict_mem. cbn.
  destruct (String.eqb_spec user_id u); congruence.
Qed.

(** ** A player without a role *)

Lemma night_action_players_undealt ps p :
  In p ps -> is_alive p = true -> p_role p = None ->
  night_action_players ps = None.
Proof.
  induction ps as [|q ps IH]; cbn; [tauto|].
  intros [->|Hin] Ha Hr.
  - rewrite Ha, Hr. reflexivity.
  - rewrite (IH Hin Ha Hr).
    destruct (is_alive q); auto.
    destruct (ROLES_get (p_role q)); reflexivity.
Qed.

(** X13: [join_game] does not look at the phase.  A player who joins a room has
    no role, and from then on the collection check of the night raises on
    that living player: every call of [process_night_actions] for the room
    raises and leaves the manager as it is, whatever actions are recorded. *)
Theorem joined_player_blocks_night (code room_id player_qq player_name : string)
    (m m' : Manager) :
  join_game room_id player_qq player_name m = (m', true) ->
  exists game',
    dict_get (games m') room_id = Some game' /\
    _check_all_night_actions_completed game' = None /\
    process_night_actions code room_id m' = Raise m'.
Proof.
  unfold join_game.
  destruct (dict_get (games m) room_id) as [game|] eqn:Hg; [|discriminate].
  destruct (_ >=? _); [discriminate|].
  destruct (dict_mem (g_players game) player_qq) eqn:Hmem; [discriminate|].
  intros [= <-].
  assert (Hg' := @put_game_get room_id game
                   (set_g_player_order (g_player_order game ++ [player_qq])
                      (set_g_players
                         (dict_set (g_players game) player_qq
                            (new_player player_name player_qq
                               (Z.of_nat (List.length (g_players game)) + 1))) game))
                   (register_profile player_qq player_name m) Hg).
  eexists. split; [exact Hg'|].
  assert (H : forall g0, g_players g0 =
                (g_players game ++
                   [(player_qq, new_player player_name player_qq
                       (Z.of_nat (List.length (g_players game)) + 1))])%list ->
              _check_all_night_actions_completed g0 = None).
  { intros g0 Hp. unfold _check_all_night_actions_completed.
    rewrite night_action_players_undealt
      with (p := new_player player_name player_qq
                   (Z.of_nat (List.length (g_players game)) + 1)); auto.
    unfold player_values, dict_values. rewrite Hp, map_app.
    apply in_or_app. right. now left. }
  split.
  - apply H. cbn. now apply dict_set_fresh.
  - unfold process_night_actions. rewrite Hg'.
    rewrite H; [reflexivity|]. cbn. now apply dict_set_fresh.
Qed.

(** ** Collection of the night actions *)

Lemma night_action_players_dealt ps :
  (forall p, In p ps -> is_alive p = true -> p_role p <> None) ->
  exists l,
    night_action_players ps = Some l /\
    forall p, In p l <->
      In p ps /\ is_alive p = true /\
      exists r, p_role p = Some r /\ ri_night_action (ROLES r) = true /\ r <> witch.
Proof.
  induction ps as [|q ps IH]; intros Hd; cbn.
  - exists []. split; [reflexivity|]. intros p. cbn. tauto.
  - destruct IH as (l & Hl & Hspec); [intros; apply Hd; auto; now right|].
    rewrite Hl. destruct (is_alive q) eqn:Ha.
    2:{ exists l. split; [reflexivity|]. intros p. rewrite Hspec.
        split; [intros (H1 & H2 & H3); auto|].
        intros ([->|H1] & H2 & H3); [congruence|auto]. }
    destruct (p_role q) as [r|] eqn:Hr; [|exfalso; eapply Hd; eauto; now left].
    cbn [ROLES_get option_map bind].
    assert (Hw : has_role witch q = true <-> r = witch).
    { unfold has_role. rewrite Hr. destruct r; cbn; split; congruence. }
    destruct (ri_night_action (ROLES r) && negb (has_role witch q)) eqn:E.
    + apply andb_prop in E as [E1 E2].
      exists (q :: l). split; [reflexivity|]. intros p. cbn. rewrite Hspec.
      split.
      * intros [<-|(H1 & H2 & H3)]; [|tauto].
        split; [now left|]. split; [exact Ha|].
        exists r. repeat split; auto. intros ->.
        rewrite (proj2 Hw eq_refl) in E2. discriminate.
      * intros ([->|H1] & H2 & H3); auto.
    + exists l. split; [reflexivity|]. intros p. rewrite Hspec.
      split; [intros (H1 & H2 & H3); auto|].
      intros ([->|H1] & H2 & r' & H3 & H4 & H5); [|eauto 6].
      exfalso. rewrite Hr in H3. injection H3 as <-.
      rewrite H4 in E. cbn in E.
      destruct (has_role witch p) eqn:E'; [|discriminate].
      apply H5, Hw. reflexivity.
Qed.

(** X14: When every living player holds a role, the collection check returns,
    and it is satisfied exactly when the action key of every living player
    whose role acts at night, the witch excepted, is recorded.  The key
    belongs to the role, not to the player: one recorded [kill] serves every
    living wolf, and the witch and the players who are out are never waited
    for. *)
Theorem collection_complete_iff (g : Game) :
  (forall p, In p (player_values g) -> is_alive p = true -> p_role p <> None) ->
  exists b,
    _check_all_night_actions_completed g = Some b /\
    (b = true <->
       forall p r,
         In p (player_values g) -> is_alive p = true -> p_role p = Some r ->
         ri_night_action (ROLES r) = true -> r <> witch ->
         dict_mem (g_night_actions g) (_get_role_action_key r) = true).
Proof.
  intros Hd. unfold _check_all_night_actions_completed.
  destruct (night_action_players_dealt _ Hd) as (l & -> & Hspec).
  cbn [bind obind raising]. eexists. split; [reflexivity|].
  rewrite forallb_forall. split.
  - intros H p r Hin Ha Hr Hn Hw.
    specialize (H p). rewrite Hr in H. apply H. apply Hspec. eauto 7.
  - intros H p Hp. apply Hspec in Hp as (Hin & Ha & r & Hr & Hn & Hw).
    rewrite Hr. eauto.
Qed.

(** ** Destroying a room *)

Lemma dict_get_del_other (V : Type) (d : list (string * V)) k k' :
  k' <> k -> dict_get (dict_del d k) k' = dict_get d k'.
Proof.
  intros Hne. induction d as [|[k0 v0] d IH]; cbn; auto.
  destruct (String.eqb_spec k0 k) as [->|H0]; cbn.
  - destruct (String.eqb_spec k k'); [congruence|reflexivity].
  - now rewrite IH.
Qed.

(** X15: Only the host destroys a room.  A refused [destroy] leaves the manager
    as it was; an accepted one, in whatever phase the room is, removes the
    room from the live map without archiving it and touches no other room. *)
Theorem destroy_only_by_host (user_id : string) (m m' : Manager) (r : Reply) :
  NoDup (dict_keys (games m)) ->
  _destroy_game user_id m = Ok (m', r) ->
  (reply_ok r = false -> m' = m) /\
  (reply_ok r = true ->
     exists room_id g,
       truthy (_find_user_game user_id m) = Some room_id /\
       dict_get (games m) room_id = Some g /\
       g_host g = user_id /\
       r = DestroyDestroyed room_id /\
       dict_get (games m') room_id = None /\
       finished m' = finished m /\
       forall room_id', room_id' <> room_id ->
         dict_get (games m') room_id' = dict_get (games m) room_id').
Proof.
  intros Hnd. unfold _destroy_game.
  destruct (truthy (_find_user_game user_id m)) as [room_id|] eqn:Hf.
  2:{ intros [= <- <-]. split; [auto|cbn; discriminate]. }
  destruct (dict_get (games m) room_id) as [g|] eqn:Hg; [|discriminate].
  cbn [bind obind raising].
  destruct (String.eqb_spec (g_host g) user_id) as [Hh|Hh]; cbn [negb].
  2:{ intros [= <- <-]. split; [auto|cbn; discriminate]. }
  unfold destroy_game, dict_mem. rewrite Hg.
  intros [= <- <-]. split; [cbn; discriminate|].
  intros _. exists room_id, g. cbn [games set_games finished].
  repeat split; auto.
  - now apply dict_get_del_same.
  - intros r' Hr'. now apply dict_get_del_other.
Qed.

(** ** The wolf attack *)

(** X16: The outcome of the wolf attack on a living player who is not a lover,
    resolved from an empty death queue: a target the guard protects is
    untouched (also when double-faced); otherwise a double-faced target lives
    and gets camp wolf (also when saved); otherwise a saved target is
    untouched; otherwise the target is dead after death execution, with
    cause wolf kill and killer ["wolf"].  Nobody else changes. *)
Theorem wolf_attack_outcome (g : Game) (raw : string) (n : Z) (i : nat) (tp : Player) :
  wf_players g ->
  dict_get (g_night_actions g) "wolf_kill" = Some raw -> raw <> "" ->
  py_int raw = Some n ->
  _get_player_by_number g n = Some (i, tp) ->
  is_alive tp = true -> p_is_lover tp = false ->
  g_death_queue g = [] ->
  exists g1 g2,
    _process_wolf_action g = Some g1 /\
    _execute_deaths g1 = Ok g2 /\
    nth_error (player_values g2) i = Some (attacked g n tp) /\
    forall k, k <> i ->
      nth_error (player_values g2) k = nth_error (player_values g) k.
Proof.
  intros Hwf Hraw Hne Hint Ht Ha Hl Hq.
  destruct (find_player_sound _ _ Ht) as [Hn _].
  unfold _process_wolf_action, attacked.
  rewrite Hraw, (truthy_some Hne), Hint, Ht, Ha.
  destruct (opt_Z_eqb n (g_guard_protected g)).
  { exists g. eexists. split; [reflexivity|].
    unfold _execute_deaths. rewrite Hq. cbn. auto. }
  destruct (has_role double_faced tp).
  { do 2 eexists. split; [reflexivity|].
    unfold _execute_deaths. cbn [g_death_queue alter_player set_g_players].
    rewrite Hq. cbn [execute_death_queue bind]. split; [reflexivity|].
    change (player_values (set_g_death_queue ?q ?x)) with (player_values x).
    rewrite player_values_alter. split.
    - now rewrite nth_error_alter_at, Nat.eqb_refl, Hn.
    - intros k Hk. rewrite nth_error_alter_at.
      replace (i =? k)%nat with false by (symmetry; apply Nat.eqb_neq; congruence).
      reflexivity. }
  destruct (str_mem (p_qq tp) (g_saved_players g)).
  { exists g. eexists. split; [reflexivity|].
    unfold _execute_deaths. rewrite Hq. cbn. auto. }
  do 2 eexists. split; [reflexivity|].
  unfold _execute_deaths. cbn [g_death_queue set_g_death_queue].
  rewrite Hq. cbn [app execute_death_queue]. unfold execute_death.
  cbn [d_player_qq d_reason d_killer bind].
  match goal with
  | |- context [player_ref ?x (p_qq tp)] =>
      replace (player_ref x (p_qq tp)) with (Some (i, tp))
        by (symmetry; apply (@wf_player_ref x i tp Hwf Hn))
  end.
  cbn [bind obind raising]. rewrite Ha, Hl. cbn [bind obind raising].
  split; [reflexivity|].
  change (player_values (set_g_death_queue ?q ?x)) with (player_values x).
  rewrite player_values_alter. split.
  - rewrite nth_error_alter_at, Nat.eqb_refl.
    change (nth_error (player_values _) i) with (nth_error (player_values g) i).
    now rewrite Hn.
  - intros k Hk. rewrite nth_error_alter_at.
    replace (i =? k)%nat with false by (symmetry; apply Nat.eqb_neq; congruence).
    reflexivity.
Qed.

(** ** What the night keeps *)

Lemma map_alter_at (A B : Type) (h : A -> B) (f : A -> A) i (l : list A) :
  (forall x, h (f x) = h x) -> map h (alter_at f i l) = map h l.
Proof.
  intros Hf. revert i. induction l as [|x l IH]; intros [|i]; cbn; auto.
  - now rewrite Hf.
  - now rewrite IH.
Qed.

Lemma night_step_refl g : night_step_ok g g.
Proof. repeat split; auto. Qed.

Lemma night_step_trans g1 g2 g3 :
  night_step_ok g1 g2 -> night_step_ok g2 g3 -> night_step_ok g1 g3.
Proof.
  intros (K1 & (A1 & B1 & C1 & D1) & E1 & F1 & G1 & H1 & I1)
         (K2 & (A2 & B2 & C2 & D2) & E2 & F2 & G2 & H2 & I2).
  split; [eapply out_players_kept_trans; eauto|].
  repeat split; congruence.
Qed.

(** a mutation of a living player that keeps identity, seat and roles *)
Lemma night_step_alter f i p g :
  nth_error (player_values g) i = Some p -> is_alive p = true ->
  (forall x, p_qq (f x) = p_qq x) -> (forall x, p_number (f x) = p_number x) ->
  (forall x, p_role (f x) = p_role x) ->
  (forall x, p_original_role (f x) = p_original_role x) ->
  night_step_ok g (alter_player f i g).
Proof.
  intros Hn Ha H1 H2 H3 H4.
  split; [eapply alter_alive_kept; eauto|].
  split; [|repeat split].
  unfold same_cast. rewrite player_values_alter.
  repeat split; apply map_alter_at; auto.
Qed.

Ltac night_step_done :=
  intros [= <-];
  first [ apply night_step_refl
        | exact (night_step_refl _)
        | eapply night_step_alter; eauto; reflexivity ].

Ltac night_step_case :=
  match goal with
  | |- context [match ?x with _ => _ end] =>
      lazymatch x with
      | truthy _ => destruct x eqn:?
      | py_int _ => destruct x eqn:?
      | two_ints _ => destruct x as [[? ?]|] eqn:?
      | _get_player_by_number _ _ => destruct x as [[? ?]|] eqn:?
      | _get_player_by_role _ _ => destruct x as [[? ?]|] eqn:?
      | ROLES_get _ => destruct x eqn:?
      end
  | |- context [bind (ROLES_get ?r) _] => destruct (ROLES_get r) eqn:?
  | |- context [raising _ (ROLES_get ?r)] => destruct (ROLES_get r) eqn:?
  | |- context [if ?b then _ else _] => destruct b eqn:?
  end.

Ltac night_step_cases :=
  repeat first [progress cbn [bind obind raising] | night_step_case];
  cbv beta; try discriminate.

Lemma cupid_step g g' : _process_cupid_action g = Some g' -> night_step_ok g g'.
Proof.
  unfold _process_cupid_action. night_step_cases; try night_step_done.
  intros [= <-].
  match goal with
  | H1 : _get_player_by_number g _ = Some (?i1, ?p1),
    H2 : _get_player_by_number g _ = Some (?i2, ?p2),
    Hb : is_alive ?p1 && is_alive ?p2 = true |- _ =>
      destruct (find_player_sound _ _ H1) as [Hn1 _];
      destruct (find_player_sound _ _ H2) as [Hn2 _];
      apply andb_prop in Hb as [Ha1 Ha2];
      set (f1 := fun p => set_p_lover_partner (Some (p_qq p2)) (set_p_is_lover true p));
      set (g1 := alter_player f1 i1 g);
      assert (S1 : night_step_ok g g1)
        by (eapply night_step_alter; eauto; reflexivity);
      assert (Hn2' : exists q, nth_error (player_values g1) i2 = Some q
                               /\ is_alive q = true)
  end.
  { unfold g1. rewrite player_values_alter, nth_error_alter_at.
    destruct (_ =? _)%nat; rewrite Hn2; cbn; eauto. }
  destruct Hn2' as (q & Hq & Haq).
  eapply night_step_trans; [exact S1|].
  match goal with
  | |- night_step_ok g1 (set_g_lovers _ (alter_player ?f2 ?i2 g1)) =>
      eapply night_step_trans;
        [apply (@night_step_alter f2 i2 q g1); auto; intros; reflexivity|]
  end.
  repeat split. intros i p1 Hp _. exact Hp.
Qed.

Lemma guard_step g g' : _process_guard_action g = Some g' -> night_step_ok g g'.
Proof. unfold _process_guard_action. night_step_cases; night_step_done. Qed.

Lemma wolf_step g g' : _process_wolf_action g = Some g' -> night_step_ok g g'.
Proof.
  unfold _process_wolf_action. night_step_cases; try night_step_done.
  intros [= <-].
  match goal with
  | H : _get_player_by_number g _ = Some _ |- _ =>
      destruct (find_player_sound _ _ H) as [Hn _]
  end.
  eapply night_step_alter; eauto; reflexivity.
Qed.

Lemma seer_step g g' : _process_seer_action g = Some g' -> night_step_ok g g'.
Proof. unfold _process_seer_action. night_step_cases; night_step_done. Qed.

Lemma poison_step g g' : _process_witch_poison_action g = Some g' -> night_step_ok g g'.
Proof. unfold _process_witch_poison_action. night_step_cases; night_step_done. Qed.

Lemma spiritualist_step g g' :
  _process_spiritualist_action g = Some g' -> night_step_ok g g'.
Proof.
  unfold _process_spiritualist_action. night_step_cases; night_step_done.
Qed.

Lemma magician_step g g' : _process_magician_action g = Some g' -> night_step_ok g g'.
Proof. unfold _process_magician_action. night_step_cases; night_step_done. Qed.

Lemma painter_step g g' : _process_painter_action g = Ok g' -> night_step_ok g g'.
Proof.
  unfold _process_painter_action. night_step_cases; night_step_done.
Qed.

Lemma execute_death_step death g g' :
  execute_death death g = Ok g' -> night_step_ok g g'.
Proof.
  unfold execute_death.
  destruct (player_ref g (d_player_qq death)) as [[i player]|] eqn:Hr; [|discriminate].
  cbn [bind obind raising]. destruct (player_ref_nth _ _ Hr) as [_ Hn].
  destruct (is_alive player) eqn:Ha; [|night_step_done].
  set (g1 := alter_player (kill (d_reason death) (d_killer death)) i g).
  assert (S1 : night_step_ok g g1) by (eapply night_step_alter; eauto; reflexivity).
  destruct (p_is_lover player); [|intros [= <-]; exact S1].
  destruct (truthy (p_lover_partner player)) as [partner|]; [|intros [= <-]; exact S1].
  destruct (player_ref g1 partner) as [[j lover]|] eqn:Hl; [|discriminate].
  cbn [bind obind raising]. destruct (player_ref_nth _ _ Hl) as [_ Hnl].
  destruct (is_alive lover) eqn:Hal; intros [= <-]; [|exact S1].
  eapply night_step_trans; [exact S1|].
  eapply night_step_alter; eauto; reflexivity.
Qed.

Lemma execute_death_queue_step q g g' :
  execute_death_queue q g = Ok g' -> night_step_ok g g'.
Proof.
  revert g. induction q as [|d q IH]; intros g; cbn.
  - night_step_done.
  - destruct (execute_death d g) as [g1|] eqn:H1; cbn [obind]; [|discriminate].
    intros H2. eapply night_step_trans; [eapply execute_death_step; eauto|eauto].
Qed.

(** X17: The resolution of a night keeps the cast (identity, seat number, role
    and original role of every place), leaves every player who was already
    out exactly as recorded, empties the death queue, and changes neither the
    phase, the day count, the votes nor the settings. *)
Theorem resolve_night_keeps_cast (g g' : Game) :
  resolve_night g = Ok g' ->
  out_players_kept g g' /\ same_cast g g' /\
  g_death_queue g' = [] /\
  g_phase g' = g_phase g /\ g_day_count g' = g_day_count g /\
  g_votes g' = g_votes g /\ g_settings g' = g_settings g.
Proof.
  unfold resolve_night.
  destruct (if (g_day_count g =? 1)%nat
            then raising g (_process_cupid_action g) else Ok g)
    as [g1|] eqn:H1; [|discriminate].
  assert (S1 : night_step_ok g g1).
  { destruct (g_day_count g =? 1)%nat; [|injection H1 as <-; apply night_step_refl].
    destruct (_process_cupid_action g) as [g0|] eqn:H0; [|discriminate].
    injection H1 as <-. now apply cupid_step. }
  cbn [bind obind raising].
  destruct (_process_guard_action g1) as [g2|] eqn:H2; [|discriminate]. cbn [bind obind raising].
  destruct (_process_wolf_action g2) as [g3|] eqn:H3; [|discriminate]. cbn [bind obind raising].
  destruct (_process_seer_action g3) as [g4|] eqn:H4; [|discriminate]. cbn [bind obind raising].
  destruct (_process_witch_poison_action g4) as [g5|] eqn:H5; [|discriminate].
  cbn [bind obind raising].
  destruct (_process_spiritualist_action g5) as [g6|] eqn:H6; [|discriminate].
  cbn [bind obind raising].
  destruct (_process_magician_action g6) as [g7|] eqn:H7; [|discriminate]. cbn [bind obind raising].
  destruct (if (2 <=? g_day_count g7)%nat then _process_painter_action g7 else Ok g7)
    as [g8|] eqn:H8; [|discriminate].
  assert (S8 : night_step_ok g7 g8).
  { destruct (2 <=? g_day_count g7)%nat; [now apply painter_step|].
    injection H8 as <-. apply night_step_refl. }
  cbn [bind obind raising]. unfold _execute_deaths.
  destruct (execute_death_queue (g_death_queue g8) g8) as [g9|] eqn:H9; [|discriminate].
  cbn [bind obind raising]. intros [= <-].
  assert (S : night_step_ok g g9).
  { eapply night_step_trans; [exact S1|].
    eapply night_step_trans; [eapply guard_step; eauto|].
    eapply night_step_trans; [eapply wolf_step; eauto|].
    eapply night_step_trans; [eapply seer_step; eauto|].
    eapply night_step_trans; [eapply poison_step; eauto|].
    eapply night_step_trans; [eapply spiritualist_step; eauto|].
    eapply night_step_trans; [eapply magician_step; eauto|].
    eapply night_step_trans; [exact S8|].
    eapply execute_death_queue_step; eauto. }
  destruct S as (K & C & P & D & V & St & _).
  repeat split; auto; apply K || apply C.
Qed.

(** ** The router of the in-game verbs *)

Ltac router_case :=
  match goal with
  | |- context [obind ?x _] =>
      first [ destruct x as [[? ?]|?] eqn:? | destruct x as [?|?] eqn:? ]
  | |- context [bind ?x _] => destruct x as [[? ?]|] eqn:?
  | |- context [bind ?x _] => destruct x eqn:?
  | |- context [match ?x with _ => _ end] =>
      lazymatch x with
      | truthy _ => destruct x eqn:?
      | py_int _ => destruct x eqn:?
      | py_split _ => destruct x as [|? [|? ?]] eqn:?
      | py_split1 _ => destruct x as [|? [|? ?]] eqn:?
      | role_of_key _ => destruct x eqn:?
      | living_target _ _ => destruct x as [[? ?]|] eqn:?
      | player_ref _ _ => destruct x as [[? ?]|] eqn:?
      | dict_get _ _ => destruct x eqn:?
      | ri_command _ => destruct x eqn:?
      | p_role _ => destruct x eqn:?
      | pf_name _ => destruct x eqn:?
      | g_phase _ => destruct x eqn:?
      | _ => is_var x;
             lazymatch type of x with
             | string => destruct x
             | list string => destruct x
             | option string => destruct x
             end
      end
  | |- context [if ?b then _ else _] => destruct b eqn:?
  end.

(** a leaf of a handler: the reply is not the error reply, and a refusal
    comes with the manager it was given *)
Ltac router_leaf :=
  cbv beta;
  first [ discriminate
        | intros [= <- <-]; split;
          [discriminate|intros Hrej; first [reflexivity | discriminate Hrej]] ].

Ltac router_cases :=
  repeat first [progress cbn [bind obind raising] | router_case]; router_leaf.

Lemma destroy_rejected user_id m : returns_cleanly m (_destroy_game user_id m).
Proof.
  intros m' r. unfold _destroy_game, destroy_game. router_cases.
Qed.

Lemma settings_rejected_unchanged args user_id m :
  returns_cleanly m (_handle_settings args user_id m).
Proof.
  intros m' r. unfold _handle_settings. router_cases.
Qed.

Lemma start_game_refused draw room_id m m' :
  start_game draw room_id m = Ok (m', false) -> m' = m.
Proof.
  unfold start_game.
  destruct (dict_get (games m) room_id) as [game|]; [|now intros [= <-]].
  destruct (_ <? _)%nat; [now intros [= <-]|].
  destruct (negb _); [now intros [= <-]|].
  destruct (assign_roles _ _ _ _); cbn [raise_map obind]; discriminate.
Qed.

Lemma start_rejected draw user_id m : returns_cleanly m (_start_game draw user_id m).
Proof.
  intros m' r. unfold _start_game.
  destruct (truthy (_find_user_game user_id m)) as [room_id|]; [|router_leaf].
  destruct (dict_get (games m) room_id) as [game|]; cbn [raising obind];
    [|discriminate].
  destruct (negb _); [router_leaf|].
  destruct (start_game draw room_id m) as [[m0 [|]]|m0] eqn:Hs; cbn [obind];
    [| |discriminate].
  - router_cases.
  - apply start_game_refused in Hs. subst m0. router_leaf.
Qed.

Lemma join_game_refused room_id player_qq player_name m m' :
  join_game room_id player_qq player_name m = (m', false) -> m' = m.
Proof.
  unfold join_game.
  destruct (dict_get (games m) room_id) as [game|]; [|now intros [= <-]].
  destruct (_ >=? _); [now intros [= <-]|].
  destruct (dict_mem _ _); [now intros [= <-]|discriminate].
Qed.

Lemma host_rejected now user_id user_name group m :
  returns_cleanly m (Ok (_host_game now user_id user_name group m)).
Proof.
  intros m' r. unfold _host_game, create_game. router_cases.
Qed.

Lemma join_rejected args user_id user_name m :
  returns_cleanly m (Ok (_join_game args user_id user_name m)).
Proof.
  intros m' r. unfold _join_game.
  destruct args as [|c args]; [router_leaf|].
  destruct (_has_unfinished_game user_id m); [router_leaf|].
  destruct (join_game _ user_id user_name m) as [m0 [|]] eqn:Hj; [router_leaf|].
  apply join_game_refused in Hj. subst m0. router_leaf.
Qed.

Lemma name_rejected args user_id m :
  returns_cleanly m (_handle_name_command args user_id m).
Proof.
  intros m' r. unfold _handle_name_command, _set_nickname, _view_nickname.
  router_cases.
Qed.

Lemma game_action_rejected code user_id action args m :
  returns_cleanly m (_handle_game_action code user_id action args m).
Proof.
  intros m' r. unfold _handle_game_action.
  destruct (String.eqb action "destroy"); [apply destroy_rejected|].
  destruct (truthy (_find_user_game user_id m)) as [room_id|]; [|router_leaf].
  destruct (dict_get (games m) room_id) as [game|]; [|discriminate].
  cbn [bind obind raising].
  destruct (player_ref game user_id) as [[i player]|]; [|router_leaf].
  destruct (is_alive player); cbn [negb]; [|router_leaf].
  destruct (g_phase game); try router_leaf.
  - unfold _handle_night_action. router_cases.
  - destruct (String.eqb action "vote").
    { unfold _handle_vote_action. router_cases. }
    destruct (String.eqb action "explode"); [|router_leaf].
    unfold _handle_white_wolf_action. router_cases.
  - destruct (String.eqb action "shoot"); [|router_leaf].
    unfold _handle_hunter_action. router_cases.
  - destruct (String.eqb action "save").
    { unfold _handle_witch_save_action. router_cases. }
    destruct (String.eqb action "skip"); [|router_leaf].
    unfold _handle_witch_skip_action. router_cases.
Qed.

Lemma dispatch_rejected msg m : returns_cleanly m (dispatch msg m).
Proof.
  unfold dispatch.
  destruct (String.eqb _ "destroy"); [apply destroy_rejected|].
  destruct (String.eqb _ ""); [intros m' r; router_leaf|].
  destruct (String.eqb _ "host"); [apply host_rejected|].
  destruct (String.eqb _ "join"); [apply join_rejected|].
  destruct (String.eqb _ "status"); [intros m' r; router_leaf|].
  destruct (String.eqb _ "settings"); [apply settings_rejected_unchanged|].
  destruct (String.eqb _ "start"); [apply start_rejected|].
  destruct (String.eqb _ "profile"); [intros m' r; router_leaf|].
  destruct (String.eqb _ "archive"); [intros m' r; router_leaf|].
  destruct (String.eqb _ "test_private"); [intros m' r; router_leaf|].
  destruct (String.eqb _ "name"); [apply name_rejected|].
  apply game_action_rejected.
Qed.

(** X18: Every command that [execute] answers with a refusal other than the
    error reply of its [except] branch leaves the manager exactly as it was:
    a wrong phase, a wrong role, a missing or malformed argument, a target
    that is not a living seat, a sender who is out or seated nowhere, a host
    or join that is turned away, a start that fails.  The error reply is the
    answer to an exception of the handler, and it comes with the manager as
    the handler had mutated it when the exception was raised. *)
Theorem rejected_action_changes_nothing (msg : Message) (m m' : Manager) (r : Reply) :
  execute msg m = (m', r) ->
  reply_ok r = false ->
  (r <> ExecuteError -> m' = m) /\
  (r = ExecuteError -> dispatch msg m = Raise m').
Proof.
  unfold execute.
  destruct (dispatch msg m) as [[m1 r1]|m1] eqn:Hd.
  - intros [= <- <-] Hrej.
    destruct (@dispatch_rejected msg m m1 r1 Hd) as [Hne Hsame].
    split; [intros _; now apply Hsame|contradiction].
  - intros [= <- <-] _. split; [congruence|reflexivity].
Qed.

(** ** The phase after a vote *)

Lemma resolve_vote_kept game counted :
  out_players_kept game (resolve_vote game counted).
Proof.
  unfold resolve_vote.
  destruct (tally counted) as [|e vc]; [apply out_players_kept_refl|].
  destruct (candidates (e :: vc)) as [|n [|n' l]]; try apply out_players_kept_refl.
  destruct (find_player _ game) as [[i p]|] eqn:Hf; [|apply out_players_kept_refl].
  destruct (find_player_sound _ _ Hf) as [Hn Hp].
  apply andb_prop in Hp as [_ Ha].
  eapply alter_alive_kept; eauto.
Qed.

Lemma hunter_triggered_out p : hunter_triggered p = true -> is_alive p = false.
Proof.
  unfold hunter_triggered. destruct (is_alive p); cbn; congruence.
Qed.

(** what [process_vote] does once every living player has voted *)
Lemma process_vote_resolved room_id m game counted :
  dict_get (games m) room_id = Some game ->
  alive_votes game (g_votes game) = Some counted ->
  (List.length (filter is_alive (player_values game)) <= List.length counted)%nat ->
  process_vote room_id m =
  if existsb hunter_triggered (player_values (resolve_vote game counted))
  then Ok (put_game room_id
             (set_g_phase GamePhase.HUNTER_REVENGE (resolve_vote game counted)) m, true)
  else
    match _send_night_start_message (enter_night (resolve_vote game counted)) with
    | Some _ => Ok (put_game room_id (enter_night (resolve_vote game counted)) m, true)
    | None => Raise (put_game room_id (enter_night (resolve_vote game counted)) m)
    end.
Proof.
  intros Hg Hv Hall. unfold process_vote. rewrite Hg, Hv. cbn [obind raising].
  apply Nat.ltb_ge in Hall. rewrite Hall.
  destruct (existsb hunter_triggered _); [reflexivity|].
  now destruct (_send_night_start_message _).
Qed.

(** X19: A resolved vote leads to HUNTER_REVENGE, with day count and votes as
    they were, when some hunter is out for a cause other than poison, and
    otherwise to NIGHT with the day count increased by one and the votes and
    night actions cleared.  The test is on every player, not on the exile of
    this vote: once a hunter is out by a cause other than poison, every
    resolved vote of the room ends in HUNTER_REVENGE.  The move is written
    before the night-start message is built: [process_vote] returns [True]
    with the room moved, or, exactly when the room has moved to NIGHT and the
    message cannot be built, raises with the room moved; it returns when
    every player holds a role. *)
Theorem vote_resolution_next_phase (room_id : string) (m : Manager) (game : Game)
    (counted : list (string * Z)) :
  dict_get (games m) room_id = Some game ->
  alive_votes game (g_votes game) = Some counted ->
  (List.length (filter is_alive (player_values game)) <= List.length counted)%nat ->
  exists game',
    (process_vote room_id m = Ok (put_game room_id game' m, true) \/
     process_vote room_id m = Raise (put_game room_id game' m)) /\
    (process_vote room_id m = Raise (put_game room_id game' m) <->
       g_phase game' = GamePhase.NIGHT /\ _send_night_start_message game' = None) /\
    (all_dealt game -> process_vote room_id m = Ok (put_game room_id game' m, true)) /\
    g_players game' = g_players (resolve_vote game counted) /\
    ((existsb hunter_triggered (player_values game') = true /\
      g_phase game' = GamePhase.HUNTER_REVENGE /\
      g_day_count game' = g_day_count game /\
      g_votes game' = g_votes game)
     \/
     (existsb hunter_triggered (player_values game') = false /\
      g_phase game' = GamePhase.NIGHT /\
      g_day_count game' = S (g_day_count game) /\
      g_votes game' = [] /\ g_night_actions game' = [])) /\
    (forall p, In p (player_values game) -> hunter_triggered p = true ->
               g_phase game' = GamePhase.HUNTER_REVENGE).
Proof.
  intros Hg Hv Hall. rewrite (process_vote_resolved _ _ Hg Hv Hall).
  set (game1 := resolve_vote game counted).
  assert (Hstay : forall p, In p (player_values game) -> hunter_triggered p = true ->
                            existsb hunter_triggered (player_values game1) = true).
  { intros p Hin Hp. apply existsb_exists. exists p. split; [|exact Hp].
    apply In_nth_error in Hin as [i Hi].
    destruct (resolve_vote_kept game counted) as [_ Hk].
    eapply nth_error_In. apply Hk; eauto. now apply hunter_triggered_out. }
  assert (Hsame : g_day_count game1 = g_day_count game /\ g_votes game1 = g_votes game).
  { unfold game1, resolve_vote.
    destruct (tally counted) as [|e vc]; auto.
    destruct (candidates (e :: vc)) as [|n [|n' l]]; auto.
    destruct (find_player _ game) as [[i p]|]; auto. }
  destruct Hsame as [Hday Hvotes].
  destruct (existsb hunter_triggered (player_values game1)) eqn:Hh.
  - exists (set_g_phase GamePhase.HUNTER_REVENGE game1).
    split; [now left|].
    split; [split; [discriminate|intros [H _]; discriminate]|].
    split; [reflexivity|]. split; [reflexivity|].
    split; [left; repeat split; auto|]. intros; reflexivity.
  - exists (enter_night game1).
    assert (Hphase :
              g_players (enter_night game1) = g_players game1 /\
              ((existsb hunter_triggered (player_values (enter_night game1)) = true /\
                g_phase (enter_night game1) = GamePhase.HUNTER_REVENGE /\
                g_day_count (enter_night game1) = g_day_count game /\
                g_votes (enter_night game1) = g_votes game)
               \/
               (existsb hunter_triggered (player_values (enter_night game1)) = false /\
                g_phase (enter_night game1) = GamePhase.NIGHT /\
                g_day_count (enter_night game1) = S (g_day_count game) /\
                g_votes (enter_night game1) = [] /\
                g_night_actions (enter_night game1) = [])) /\
              (forall p, In p (player_values game) -> hunter_triggered p = true ->
                         g_phase (enter_night game1) = GamePhase.HUNTER_REVENGE)).
    { split; [reflexivity|].
      split; [right; cbn; repeat split; auto; congruence|].
      intros p Hin Hp. specialize (Hstay p Hin Hp). discriminate. }
    pose proof (@send_night_start_message_dealt (enter_night game1)) as Hmsg.
    destruct (_send_night_start_message (enter_night game1)) as [[]|].
    + split; [now left|].
      split; [split; [discriminate|intros [_ H]; discriminate]|].
      split; [reflexivity|]. exact Hphase.
    + split; [now right|].
      split; [split; [intros _; split; reflexivity|reflexivity]|].
      split; [|exact Hphase].
      intros Hd. exfalso.
      assert (H1 : all_dealt (enter_night game1))
        by (apply (@resolve_vote_dealt game counted Hd)).
      specialize (Hmsg H1). discriminate.
Qed.

(** ** The witch's save *)

Lemma set_add_mem x s : str_mem x (set_add x s) = true.
Proof.
  unfold set_add. destruct (str_mem x s) eqn:E; auto.
  unfold str_mem. rewrite existsb_app. cbn. now rewrite String.eqb_refl, orb_true_r.
Qed.

(** X20: A save of a presented candidate spends the save charge and rescues the
    target: the target is recorded as saved, and the wolf attack on it that
    is resolved afterwards queues no death and changes no status, whether
    the attack fails on the guard, on the double-faced role or on the save. *)
Theorem witch_save_rescues_target (g : Game) (raw_save raw_kill : string) (n : Z)
    (i : nat) (tp : Player) :
  dict_get (g_night_actions g) "witch_save" = Some raw_save -> raw_save <> "" ->
  py_int raw_save = Some n ->
  In n (map fst (g_witch_save_candidates g)) ->
  dict_get (g_night_actions g) "wolf_kill" = Some raw_kill -> raw_kill <> "" ->
  py_int raw_kill = Some n ->
  _get_player_by_number g n = Some (i, tp) ->
  let g1 := apply_witch_save g in
  g_witch_status g1 = use_save (g_witch_status g) /\
  has_poison (g_witch_status g1) = has_poison (g_witch_status g) /\
  g_witch_used_save_this_night g1 = true /\
  str_mem (p_qq tp) (g_saved_players g1) = true /\
  exists g2,
    _process_wolf_action g1 = Some g2 /\
    g_death_queue g2 = g_death_queue g /\
    map p_status (player_values g2) = map p_status (player_values g).
Proof.
  intros Hs Hne Hint Hin Hk Hnk Hintk Ht. cbv zeta.
  assert (E : apply_witch_save g =
              set_g_saved_players (set_add (p_qq tp) (g_saved_players g))
                (set_g_witch_status (use_save (g_witch_status g))
                   (set_g_witch_used_save_this_night true g))).
  { unfold apply_witch_save. rewrite Hs, (truthy_some Hne), Hint.
    replace (existsb (Z.eqb n) (map fst (g_witch_save_candidates g))) with true.
    - change (_get_player_by_number (set_g_witch_status ?a (set_g_witch_used_save_this_night ?b g)) n)
        with (_get_player_by_number g n).
      now rewrite Ht.
    - symmetry. apply existsb_exists. exists n. split; [exact Hin|apply Z.eqb_refl]. }
  rewrite E. cbn [g_witch_status g_witch_used_save_this_night g_saved_players
                  set_g_saved_players set_g_witch_status
                  set_g_witch_used_save_this_night].
  split; [reflexivity|].
  split; [destruct (g_witch_status g); reflexivity|].
  split; [reflexivity|].
  split; [apply set_add_mem|].
  unfold _process_wolf_action.
  cbn [g_night_actions set_g_saved_players set_g_witch_status
       set_g_witch_used_save_this_night].
  rewrite Hk, (truthy_some Hnk), Hintk.
  change (_get_player_by_number (set_g_saved_players ?a (set_g_witch_status ?b (set_g_witch_used_save_this_night ?c g))) n)
    with (_get_player_by_number g n).
  rewrite Ht.
  destruct (is_alive tp); [|eexists; repeat split].
  destruct (opt_Z_eqb n _); [eexists; repeat split|].
  destruct (has_role double_faced tp).
  { eexists. split; [reflexivity|]. split; [reflexivity|].
    rewrite player_values_alter. now apply map_alter_at. }
  cbn [g_saved_players set_g_saved_players]. rewrite set_add_mem.
  eexists; repeat split.
Qed.


(** ** The statistics of archival *)

Section AlterFacts.
Variable V : Type.
Implicit Types (d : list (string * V)) (f : V -> V).

Lemma dict_alter_nil k f : dict_alter k f (@nil (string * V)) = [].
Proof. reflexivity. Qed.

Lemma dict_alter_cons k f k' v d :
  dict_alter k f ((k', v) :: d)
  = if String.eqb k' k then (k', f v) :: d else (k', v) :: dict_alter k f d.
Proof.
  unfold dict_alter. cbn [dict_index].
  destruct (String.eqb k' k); [reflexivity|].
  destruct (dict_index d k); reflexivity.
Qed.

Lemma dict_keys_dict_alter k f d : dict_keys (dict_alter k f d) = dict_keys d.
Proof.
  unfold dict_keys. induction d as [|[k' v] d IH]; [reflexivity|].
  rewrite dict_alter_cons. destruct (String.eqb k' k); cbn [map fst]; [reflexivity|].
  now rewrite IH.
Qed.

Lemma dict_get_dict_alter k f d q :
  dict_get (dict_alter k f d) q
  = if String.eqb k q then option_map f (dict_get d q) else dict_get d q.
Proof.
  induction d as [|[k' v] d IH].
  - rewrite dict_alter_nil. cbn [dict_get option_map]. now destruct (String.eqb k q).
  - rewrite dict_alter_cons. destruct (String.eqb_spec k' k) as [->|Hne].
    + cbn [dict_get]. destruct (String.eqb k q); reflexivity.
    + cbn [dict_get]. rewrite IH.
      destruct (String.eqb_spec k' q) as [->|Hq]; [|reflexivity].
      destruct (String.eqb_spec k q) as [->|]; [congruence|reflexivity].
Qed.

Lemma dict_mem_keys d (d' : list (string * V)) k :
  dict_keys d = dict_keys d' -> dict_mem d k = dict_mem d' k.
Proof.
  unfold dict_keys, dict_mem. revert d'.
  induction d as [|[k0 v0] d IH]; intros [|[k1 v1] d']; cbn [map fst dict_get];
    try discriminate; [reflexivity|].
  intros [= <- H]. destruct (String.eqb k0 k); [reflexivity|]. now apply IH.
Qed.

Lemma dict_mem_In_keys d k : dict_mem d k = true -> In k (dict_keys d).
Proof.
  unfold dict_keys, dict_mem.
  induction d as [|[k' v] d IH]; cbn [map fst dict_get In]; [discriminate|].
  destruct (String.eqb_spec k' k) as [->|Hne]; [now left|]. intros H. right. now apply IH.
Qed.

End AlterFacts.

(** the changes of [credit] and the recent list leave the keys alone *)
Lemma credit_votes_keys (n : Z) (votes : list (string * Z)) (ps : list (string * Profile)) :
  dict_keys
    (fold_left (fun ps v => if snd v =? n then dict_alter (fst v) incr_votes ps else ps)
       votes ps)
  = dict_keys ps.
Proof.
  revert ps. induction votes as [|v votes IH]; intros ps; cbn [fold_left]; [reflexivity|].
  rewrite IH. destruct (snd v =? n); [apply dict_keys_dict_alter|reflexivity].
Qed.

Lemma credit_keys (game : Game) (qq : string) (player : Player)
    (ps : list (string * Profile)) :
  dict_keys (credit game qq player ps) = dict_keys ps.
Proof.
  unfold credit.
  destruct (opt_string_eqb (p_killer player) qq); [reflexivity|].
  destruct (reason_is DeathReason.HUNTER_SHOOT player || reason_is DeathReason.POISON player).
  { destruct (p_killer player); [apply dict_keys_dict_alter|reflexivity]. }
  destruct (reason_is DeathReason.VOTE player); [apply credit_votes_keys|reflexivity].
Qed.

Lemma ROLES_get_none (r : option Role) : ROLES_get r = None <-> r = None.
Proof. destruct r; cbn; split; congruence. Qed.

(** one iteration either raises, on a seated player with a profile and no
    original role, or keeps the keys of the profiles *)
Lemma archive_player_cases (code : string) (game : Game) (ps : list (string * Profile))
    (qq : string) (player : Player) :
  (archive_player code game ps (qq, player)
   = Raise (dict_alter qq incr_total_games ps) /\
   dict_mem ps qq = true /\ p_original_role player = None)
  \/
  (exists ps1,
     archive_player code game ps (qq, player) = Ok ps1 /\
     dict_keys ps1 = dict_keys ps /\
     (dict_mem ps qq = true -> p_original_role player <> None)).
Proof.
  unfold archive_player. cbn [fst snd].
  destruct (dict_mem ps qq) eqn:Hmem.
  - destruct (ROLES_get (p_original_role player)) as [info|] eqn:Hr; cbn [bind obind raising].
    + right. eexists. split; [reflexivity|]. split.
      * now rewrite dict_keys_dict_alter, credit_keys, dict_keys_dict_alter.
      * intros _ Hn. apply ROLES_get_none in Hn. congruence.
    + left. apply ROLES_get_none in Hr. auto.
  - right. exists ps. split; [reflexivity|]. split; [reflexivity|discriminate].
Qed.

Lemma archive_players_keys (code : string) (game : Game)
    (entries : list (string * Player)) :
  forall ps ps',
    archive_players code game ps entries = Ok ps' -> dict_keys ps' = dict_keys ps.
Proof.
  induction entries as [|[qq player] entries IH]; intros ps ps'; cbn [archive_players].
  - now intros [= <-].
  - destruct (archive_player_cases code game ps qq player)
      as [(E & _)|(ps1 & E & Hk & _)]; rewrite E; cbn [bind obind raising]; [discriminate|].
    intros H. rewrite (IH _ _ H). exact Hk.
Qed.

Lemma archive_players_fails_iff (code : string) (game : Game)
    (entries : list (string * Player)) :
  forall ps,
    (exists ps', archive_players code game ps entries = Raise ps') <->
    exists qq player,
      In (qq, player) entries /\ dict_mem ps qq = true /\ p_original_role player = None.
Proof.
  induction entries as [|[qq player] entries IH]; intros ps; cbn [archive_players].
  - split; [intros [? ?]; discriminate|]. intros (? & ? & [] & _).
  - destruct (archive_player_cases code game ps qq player)
      as [(E & Hm & Hn)|(ps1 & E & Hk & Hrole)]; rewrite E; cbn [bind obind raising].
    + split; [|intros _; eexists; reflexivity].
      intros _. exists qq, player. split; [now left|auto].
    + rewrite IH. split.
      * intros (q & p & Hin & Hmem & Hnone). exists q, p.
        split; [now right|]. split; [|exact Hnone].
        now rewrite <- (dict_mem_keys ps1 ps q Hk).
      * intros (q & p & [[= <- <-]|Hin] & Hmem & Hnone).
        { exfalso. now apply Hrole. }
        exists q, p. split; [exact Hin|]. split; [|exact Hnone].
        now rewrite (dict_mem_keys ps1 ps q Hk).
Qed.

(** ** What an archive adds to the counters *)

Section Counters.
Variable m : Profile -> nat.
Hypothesis m_count : forall won p, m (count_game won p) = S (m p).
Hypothesis m_kills : forall p, m (incr_kills p) = m p.
Hypothesis m_votes : forall p, m (incr_votes p) = m p.
Hypothesis m_recent : forall e p, m (record_recent e p) = m p.

Lemma alter_counter (k : string) (f : Profile -> Profile) (ps : list (string * Profile))
    (q : string) :
  (forall p, m (f p) = m p) ->
  option_map m (dict_get (dict_alter k f ps) q) = option_map m (dict_get ps q).
Proof.
  intros Hf. rewrite dict_get_dict_alter.
  destruct (String.eqb k q); [|reflexivity].
  destruct (dict_get ps q); cbn [option_map]; [now rewrite Hf|reflexivity].
Qed.

Lemma credit_votes_counter (n : Z) (votes : list (string * Z))
    (ps : list (string * Profile)) (q : string) :
  option_map m
    (dict_get
       (fold_left (fun ps v => if snd v =? n then dict_alter (fst v) incr_votes ps else ps)
          votes ps) q)
  = option_map m (dict_get ps q).
Proof.
  revert ps. induction votes as [|v votes IH]; intros ps; cbn [fold_left]; [reflexivity|].
  rewrite IH. destruct (snd v =? n); [now apply alter_counter|reflexivity].
Qed.

Lemma credit_counter (game : Game) (qq : string) (player : Player)
    (ps : list (string * Profile)) (q : string) :
  option_map m (dict_get (credit game qq player ps) q) = option_map m (dict_get ps q).
Proof.
  unfold credit.
  destruct (opt_string_eqb (p_killer player) qq); [reflexivity|].
  destruct (reason_is DeathReason.HUNTER_SHOOT player || reason_is DeathReason.POISON player).
  { destruct (p_killer player); [now apply alter_counter|reflexivity]. }
  destruct (reason_is DeathReason.VOTE player); [apply credit_votes_counter|reflexivity].
Qed.

Lemma archive_player_counter (code : string) (game : Game)
    (ps ps1 : list (string * Profile)) (qq : string) (player : Player) (q : string) :
  archive_player code game ps (qq, player) = Ok ps1 ->
  option_map m (dict_get ps1 q)
  = option_map (fun p => (m p + (if String.eqb qq q then 1 else 0))%nat) (dict_get ps q).
Proof.
  unfold archive_player. cbn [fst snd].
  destruct (dict_mem ps qq) eqn:Hmem.
  - destruct (ROLES_get (p_original_role player)) as [info|]; cbn [bind obind raising]; [|discriminate].
    intros [= <-].
    rewrite alter_counter by (intros; apply m_recent).
    rewrite credit_counter, dict_get_dict_alter.
    destruct (String.eqb qq q); destruct (dict_get ps q); cbn [option_map];
      rewrite ?m_count; try reflexivity; f_equal; lia.
  - intros [= <-]. destruct (String.eqb_spec qq q) as [->|Hne].
    + unfold dict_mem in Hmem. destruct (dict_get ps q); [discriminate|reflexivity].
    + destruct (dict_get ps q); cbn [option_map]; [f_equal; lia|reflexivity].
Qed.

Lemma archive_players_counter (code : string) (game : Game)
    (entries : list (string * Player)) (q : string) :
  forall ps ps',
    archive_players code game ps entries = Ok ps' ->
    option_map m (dict_get ps' q)
    = option_map (fun p => (m p + entries_of q entries)%nat) (dict_get ps q).
Proof.
  unfold entries_of.
  induction entries as [|[qq player] entries IH]; intros ps ps'; cbn [archive_players].
  - intros [= <-]. destruct (dict_get ps q); cbn; [f_equal; lia|reflexivity].
  - destruct (archive_player code game ps (qq, player)) as [ps1|] eqn:E; cbn [bind obind raising];
      [|discriminate].
    intros H. rewrite (IH _ _ H).
    pose proof (archive_player_counter code game ps qq player q E) as E1.
    cbn [filter fst].
    destruct (dict_get ps1 q), (dict_get ps q); cbn [option_map] in *;
      try discriminate; [|reflexivity].
    injection E1 as E1.
    destruct (String.eqb qq q); cbn [List.length]; f_equal; lia.
Qed.

End Counters.

Lemma entries_of_seated (game : Game) (qq : string) :
  NoDup (dict_keys (g_players game)) ->
  entries_of qq (g_players game) = seated game qq.
Proof.
  unfold entries_of, seated, dict_keys, dict_mem.
  induction (g_players game) as [|[q p] entries IH]; cbn [map fst filter dict_get];
    [reflexivity|].
  intros Hnd. inversion Hnd as [|? ? Hnotin Hnd']; subst.
  destruct (String.eqb_spec q qq) as [->|Hne].
  - cbn [List.length]. f_equal. rewrite (IH Hnd').
    now rewrite (dict_get_none_keys entries qq Hnotin).
  - now apply IH.
Qed.

(** X21: Archival raises exactly when a seated player with a profile has no
    original role, that is, was seated without being dealt a role. *)
Theorem update_profiles_raises_iff (code : string) (game : Game)
    (ps : list (string * Profile)) :
  (exists ps', update_profiles code game ps = Raise ps') <->
  exists qq player,
    In (qq, player) (g_players game) /\
    dict_mem ps qq = true /\ p_original_role player = None.
Proof. apply archive_players_fails_iff. Qed.

(** X22: An archive that returns keeps the profile keys, and adds exactly one
    game, decided as a win or as a loss, to the profile of every seated
    player and nothing to the other profiles. *)
Theorem update_profiles_counts_each_seat_once (code : string) (game : Game)
    (ps ps' : list (string * Profile)) :
  NoDup (dict_keys (g_players game)) ->
  update_profiles code game ps = Ok ps' ->
  dict_keys ps' = dict_keys ps /\
  forall qq pf,
    dict_get ps qq = Some pf ->
    exists pf',
      dict_get ps' qq = Some pf' /\
      pf_total_games pf' = (pf_total_games pf + seated game qq)%nat /\
      decided pf' = (decided pf + seated game qq)%nat.
Proof.
  intros Hnd H. unfold update_profiles in H.
  split; [exact (archive_players_keys _ _ _ _ H)|].
  intros qq pf Hpf.
  assert (Ht := @archive_players_counter pf_total_games
                  (fun _ _ => eq_refl) (fun _ => eq_refl) (fun _ => eq_refl)
                  (fun _ _ => eq_refl) code game (g_players game) qq ps ps' H).
  assert (Hd : forall won p, decided (count_game won p) = S (decided p)).
  { intros [] p; unfold decided; cbn [pf_wins pf_losses count_game]; lia. }
  assert (Hw := @archive_players_counter decided Hd
                  (fun _ => eq_refl) (fun _ => eq_refl)
                  (fun _ _ => eq_refl) code game (g_players game) qq ps ps' H).
  rewrite Hpf, (entries_of_seated game qq Hnd) in Ht, Hw.
  destruct (dict_get ps' qq) as [pf'|]; cbn [option_map] in Ht, Hw; [|discriminate].
  injection Ht as Ht. injection Hw as Hw.
  exists pf'. auto.
Qed.

(** ** The recent games of a profile *)

Lemma filter_length_le_all (A : Type) (f : A -> bool) (l : list A) :
  (List.length (filter f l) <= List.length l)%nat.
Proof.
  induction l as [|x l IH]; cbn [filter List.length]; [lia|].
  destruct (f x); cbn [List.length]; lia.
Qed.

Lemma win_rate_bounds (recent : list RecentGame) :
  (0 <= win_rate recent)%Q /\ (win_rate recent <= 1)%Q.
Proof.
  destruct recent as [|e recent]; [split; discriminate|].
  unfold win_rate.
  pose proof (filter_length_le_all rg_won (e :: recent)) as Hle.
  cbn [List.length] in Hle |- *.
  rewrite <- Pos.of_nat_succ.
  unfold Qle. cbn [Qnum Qden]. rewrite Zpos_P_of_succ_nat. lia.
Qed.

Lemma recent_ok_record (code : string) (r : option Role) (w : bool) (p : Profile) :
  recent_ok code (record_recent (mkRecentGame code r w) p).
Proof.
  unfold recent_ok, record_recent. cbn [pf_recent_games pf_recent_win_rate].
  split; [|split; [|apply win_rate_bounds]].
  - destruct (Nat.ltb_spec 10 (List.length (pf_recent_games p ++ [mkRecentGame code r w])))
      as [Hlt|Hge]; [|exact Hge].
    unfold last10. rewrite length_skipn. lia.
  - destruct (10 <? List.length (pf_recent_games p ++ [mkRecentGame code r w]))%nat.
    + unfold last10. rewrite skipn_app, length_app. cbn [List.length].
      replace (List.length (pf_recent_games p) + 1 - 10 - List.length (pf_recent_games p))%nat
        with 0%nat by lia.
      cbn [skipn]. eauto.
    + eauto.
Qed.

Lemma alter_profile_at (P : Profile -> Prop) (k : string) (f : Profile -> Profile)
    (ps : list (string * Profile)) (q : string) :
  (forall p, P p -> P (f p)) ->
  profile_at P ps q -> profile_at P (dict_alter k f ps) q.
Proof.
  unfold profile_at. intros Hf H pf. rewrite dict_get_dict_alter.
  destruct (String.eqb k q); [|apply H].
  destruct (dict_get ps q) as [pf0|]; cbn [option_map]; [|discriminate].
  intros [= <-]. apply Hf. now apply H.
Qed.

Lemma credit_votes_profile_at (code : string) (n : Z) (votes : list (string * Z))
    (ps : list (string * Profile)) (q : string) :
  profile_at (recent_ok code) ps q ->
  profile_at (recent_ok code)
    (fold_left (fun ps v => if snd v =? n then dict_alter (fst v) incr_votes ps else ps)
       votes ps) q.
Proof.
  revert ps. induction votes as [|v votes IH]; intros ps H; cbn [fold_left]; [exact H|].
  apply IH. destruct (snd v =? n); [|exact H].
  apply alter_profile_at; [|exact H]. intros p Hp. exact Hp.
Qed.

Lemma credit_profile_at (code : string) (game : Game) (qq : string) (player : Player)
    (ps : list (string * Profile)) (q : string) :
  profile_at (recent_ok code) ps q ->
  profile_at (recent_ok code) (credit game qq player ps) q.
Proof.
  intros H. unfold credit.
  destruct (opt_string_eqb (p_killer player) qq); [exact H|].
  destruct (reason_is DeathReason.HUNTER_SHOOT player || reason_is DeathReason.POISON player).
  { destruct (p_killer player); [|exact H].
    apply alter_profile_at; [|exact H]. intros p Hp. exact Hp. }
  destruct (reason_is DeathReason.VOTE player); [|exact H].
  now apply credit_votes_profile_at.
Qed.

(** an iteration keeps a recorded profile recorded, and records the profile
    of its own player *)
Lemma archive_player_profile_at (code : string) (game : Game)
    (ps ps1 : list (string * Profile)) (qq : string) (player : Player) (q : string) :
  archive_player code game ps (qq, player) = Ok ps1 ->
  qq = q \/ profile_at (recent_ok code) ps q ->
  profile_at (recent_ok code) ps1 q.
Proof.
  unfold archive_player. cbn [fst snd].
  destruct (dict_mem ps qq) eqn:Hmem.
  - destruct (ROLES_get (p_original_role player)) as [info|]; cbn [bind obind raising]; [|discriminate].
    intros [= <-] [->|H].
    + intros pf. rewrite dict_get_dict_alter, String.eqb_refl.
      destruct (dict_get _ q); cbn [option_map]; [|discriminate].
      intros [= <-]. apply recent_ok_record.
    + apply alter_profile_at; [intros p _; apply recent_ok_record|].
      apply credit_profile_at.
      apply alter_profile_at; [|exact H]. intros p Hp. exact Hp.
  - intros [= <-] [->|H]; [|exact H].
    intros pf Hpf. unfold dict_mem in Hmem. now rewrite Hpf in Hmem.
Qed.

Lemma archive_players_profile_at (code : string) (game : Game)
    (entries : list (string * Player)) (q : string) :
  forall ps ps',
    archive_players code game ps entries = Ok ps' ->
    In q (dict_keys entries) \/ profile_at (recent_ok code) ps q ->
    profile_at (recent_ok code) ps' q.
Proof.
  unfold dict_keys.
  induction entries as [|[qq player] entries IH]; intros ps ps'; cbn [archive_players].
  - intros [= <-] [[]|H]. exact H.
  - destruct (archive_player code game ps (qq, player)) as [ps1|] eqn:E; cbn [bind obind raising];
      [|discriminate].
    intros H Hq. apply (IH _ _ H).
    cbn [map fst In] in Hq. destruct Hq as [[Hq|Hq]|Hq].
    + right. apply (@archive_player_profile_at code game ps ps1 qq player q E). now left.
    + now left.
    + right. apply (@archive_player_profile_at code game ps ps1 qq player q E). now right.
Qed.

(** X23: After an archive that returns, the profile of every seated player holds
    at most ten recent games, the last of them the archived game, and a
    recent win rate between 0 and 1. *)
Theorem update_profiles_records_recent_game (code : string) (game : Game)
    (ps ps' : list (string * Profile)) (qq : string) (pf' : Profile) :
  update_profiles code game ps = Ok ps' ->
  dict_mem (g_players game) qq = true ->
  dict_get ps' qq = Some pf' ->
  recent_ok code pf'.
Proof.
  intros H Hmem Hpf.
  apply (@archive_players_profile_at code game (g_players game) qq ps ps' H);
    [|exact Hpf].
  left. now apply dict_mem_In_keys.
Qed.
(** ** The properties on the rooms of the sessions *)

Ltac by_eval := vm_compute; reflexivity.

Ltac nodup_keys :=
  vm_compute;
  repeat first [apply NoDup_nil | apply NoDup_cons; [cbn; intuition discriminate|]].

Lemma nodupb_sound (l : list string) : nodupb l = true -> NoDup l.
Proof.
  induction l as [|x l IH]; cbn [nodupb]; [constructor|].
  intros H. apply andb_prop in H. destruct H as [Hx Hl].
  constructor; [|now apply IH].
  intros Hin. apply negb_true_iff in Hx.
  assert (Ht : existsb (String.eqb x) l = true)
    by (apply existsb_exists; exists x; split; [exact Hin|apply String.eqb_refl]).
  now rewrite Ht in Hx.
Qed.

Lemma wf_playersb_sound (g : Game) : wf_playersb g = true -> wf_players g.
Proof.
  unfold wf_playersb, wf_players. intros H. apply andb_prop in H. destruct H as [Hn Hq].
  split; [now apply nodupb_sound|].
  intros k p Hin. rewrite forallb_forall in Hq.
  specialize (Hq (k, p) Hin). cbn [fst snd] in Hq. now apply String.eqb_eq.
Qed.

Lemma living_dealt_sound (g : Game) :
  living_dealt g = true ->
  forall p, In p (player_values g) -> is_alive p = true -> p_role p <> None.
Proof.
  unfold living_dealt. intros H p Hin Ha. rewrite forallb_forall in H.
  specialize (H p Hin). rewrite Ha in H. cbn [negb orb] in H.
  destruct (p_role p); [discriminate|discriminate H].
Qed.

(** a premise that holds by evaluation on a room of the sessions *)
Ltac premise :=
  first [ by_eval
        | vm_compute; discriminate
        | vm_compute; right; reflexivity
        | vm_compute; left; reflexivity
        | apply wf_playersb_sound; by_eval ].

Lemma join_game_next_seat_witness :
  exists game',
    dict_get (games (fst (join_game room "u2" "Pu2" hosted))) room = Some game' /\
    g_player_order game' = ["u1"; "u2"] /\
    seats_sequential game'.
Proof.
  destruct (@join_game_next_seat room "u2" "Pu2" hosted (game_in hosted))
    as (_ & _ & H); [by_eval|by_eval|].
  destruct H as (game' & H1 & _ & H3 & H4); [by_eval|].
  exists game'. split; [exact H1|]. split; [exact H3|exact H4].
Defined.

Lemma check_game_end_archives_witness :
  exists m',
    _check_game_end "c0de" room (manager_after vote_session) = Ok (m', true) /\
    dict_get (games m') room = None /\
    finished m' = ["c0de"].
Proof.
  destruct (@check_game_end_archives "c0de" room (manager_after vote_session)
              (game_in (manager_after vote_session)) (mkCounts 5 0 0 0))
    as (_ & H); [nodup_keys|by_eval|by_eval|].
  destruct (H "village") as (_ & Hret & _); [by_eval|].
  destruct Hret as (m' & H1 & H2 & H3 & _); [by_eval|].
  exists m'. split; [exact H1|]. split; [exact H2|]. rewrite H3. by_eval.
Defined.

Lemma execute_deaths_outcome_witness :
  g_death_queue (return_or wolf_queued_game (_execute_deaths wolf_queued_game)) = [] /\
  out_players_kept wolf_queued_game
    (return_or wolf_queued_game (_execute_deaths wolf_queued_game)) /\
  g_death_queue wolf_queued_game <> [].
Proof.
  destruct (@execute_deaths_outcome wolf_queued_game
              (return_or wolf_queued_game (_execute_deaths wolf_queued_game)))
    as (H1 & H2 & _); [by_eval|].
  split; [exact H1|]. split; [exact H2|]. vm_compute. discriminate.
Defined.

Lemma execute_death_lover_cascade_witness :
  exists g',
    execute_death (mkDeath "u6" DeathReason.WOLF_KILL "wolf") paired_game = Ok g' /\
    option_map p_status (nth_error (player_values g') 5) = Some PlayerStatus.DEAD /\
    option_map p_death_reason (nth_error (player_values g') 0)
    = Some (Some DeathReason.LOVER_SUICIDE).
Proof.
  destruct (@execute_death_lover_cascade (mkDeath "u6" DeathReason.WOLF_KILL "wolf")
              paired_game 5%nat 0%nat
              (player_of paired_game (player_ref paired_game "u6"))
              (player_of paired_game (player_ref paired_game "u1")) "u1")
    as (g' & H & H5 & H0 & _); [premise .. |].
  exists g'. split; [exact H|]. rewrite H5, H0. split; by_eval.
Defined.

Lemma cupid_pairs_mutually_witness :
  exists g',
    _process_cupid_action cupid_recorded_game = Some g' /\
    g_lovers g' = ["u1"; "u6"].
Proof.
  destruct (@cupid_pairs_mutually cupid_recorded_game "1 6" 1 6 0%nat 5%nat
              (player_of cupid_recorded_game (_get_player_by_number cupid_recorded_game 1))
              (player_of cupid_recorded_game (_get_player_by_number cupid_recorded_game 6)))
    as (g' & q1 & q2 & H & _ & _ & _ & _ & _ & _ & _ & _ & _ & _ & Hl & _);
    [premise .. |].
  exists g'. split; [exact H|]. rewrite Hl. by_eval.
Defined.

Lemma poison_on_immune_spends_charge_witness :
  exists g',
    _process_witch_poison_action immune_poison_game = Some g' /\
    g_death_queue g' = [] /\
    has_poison (g_witch_status g') = false.
Proof.
  destruct (@poison_on_immune_spends_charge immune_poison_game "5" 5 2%nat 4%nat
              (player_of immune_poison_game (_get_player_by_role immune_poison_game witch))
              (player_of immune_poison_game (_get_player_by_number immune_poison_game 5)))
    as (g' & H & Hq & _ & _ & Hp & _); [premise .. |].
  exists g'. split; [exact H|]. split; [|exact Hp]. rewrite Hq. by_eval.
Defined.

Lemma poisoned_target_dies_witness :
  exists g1 g2,
    _process_witch_poison_action poison_recorded_game = Some g1 /\
    _execute_deaths g1 = Ok g2 /\
    option_map p_status (nth_error (player_values g2) 4) = Some PlayerStatus.DEAD.
Proof.
  destruct (@poisoned_target_dies poison_recorded_game "5" 5 2%nat 4%nat
              (player_of poison_recorded_game (_get_player_by_role poison_recorded_game witch))
              (player_of poison_recorded_game (_get_player_by_number poison_recorded_game 5)))
    as (g1 & g2 & H1 & H2 & Hn & _); [premise .. |].
  exists g1, g2. split; [exact H1|]. split; [exact H2|]. rewrite Hn. by_eval.
Defined.

Lemma settings_only_by_host_in_setup_witness :
  exists g s',
    dict_get (games hosted) room = Some g /\
    g_host g = "u1" /\
    manager_after [msg "u1" "host" ""; msg "u1" "settings" "roles wolf 1"]
    = put_game room (set_g_settings s' g) hosted.
Proof.
  destruct (@settings_only_by_host_in_setup "roles wolf 1" "u1" hosted
              (manager_after [msg "u1" "host" ""; msg "u1" "settings" "roles wolf 1"])
              (SettingsRoleSet wolf 1))
    as (_ & H & _); [by_eval|].
  destruct H as (room_id & g & s' & Hr & Hg & Hh & _ & Hm); [reflexivity|].
  revert Hr. vm_compute. intros [= <-].
  exists g, s'. split; [exact Hg|]. split; [exact Hh|exact Hm].
Defined.

Lemma host_replaces_room_with_same_id_witness :
  dict_get (games (fst (_host_game 1001000 "u9" "Pu9" (Some "g2") hosted))) room
  = Some (new_game room "u9" "g2" "Pu9") /\
  dict_mem (g_players (new_game room "u9" "g2" "Pu9")) "u1" = false.
Proof.
  destruct (@host_replaces_room_with_same_id 1000 1 "u9" "Pu9" "g2" hosted
              (game_in hosted))
    as (H1 & _ & _ & H4); [by_eval|by_eval|].
  split; [exact H1|]. apply (H4 "u1"). discriminate.
Defined.

Lemma joined_player_blocks_night_witness :
  process_night_actions "c0de" room (fst (join_game room "u7" "Pu7" started_manager))
  = Raise (fst (join_game room "u7" "Pu7" started_manager)).
Proof.
  destruct (@joined_player_blocks_night "c0de" room "u7" "Pu7" started_manager
              (fst (join_game room "u7" "Pu7" started_manager)))
    as (g' & _ & _ & H); [by_eval|exact H].
Defined.

Lemma collection_complete_iff_witness :
  exists b,
    _check_all_night_actions_completed kill_recorded_game = Some b /\
    (b = true ->
     dict_mem (g_night_actions kill_recorded_game) (_get_role_action_key seer) = true).
Proof.
  destruct (@collection_complete_iff kill_recorded_game) as (b & H & Hb).
  - apply living_dealt_sound. by_eval.
  - exists b. split; [exact H|]. intros Ht. clear H.
    apply (proj1 Hb Ht
             (player_of kill_recorded_game (_get_player_by_number kill_recorded_game 2))
             seer).
    + vm_compute. right. left. reflexivity.
    + by_eval.
    + by_eval.
    + by_eval.
    + intros E. discriminate E.
Defined.

Lemma destroy_only_by_host_witness :
  dict_get (games (manager_after [msg "u1" "host" ""; msg "u1" "destroy" ""])) room
  = None.
Proof.
  destruct (@destroy_only_by_host "u1" hosted
              (manager_after [msg "u1" "host" ""; msg "u1" "destroy" ""])
              (DestroyDestroyed room))
    as (_ & H); [nodup_keys|by_eval|].
  destruct H as (room_id & g & Hr & _ & _ & _ & Hn & _); [reflexivity|].
  revert Hr. vm_compute. intros [= <-]. exact Hn.
Defined.

Lemma wolf_attack_outcome_witness :
  exists g1 g2,
    _process_wolf_action kill_recorded_game = Some g1 /\
    _execute_deaths g1 = Ok g2 /\
    option_map p_status (nth_error (player_values g2) 0) = Some PlayerStatus.DEAD.
Proof.
  destruct (@wolf_attack_outcome kill_recorded_game "1" 1 0%nat
              (player_of kill_recorded_game (_get_player_by_number kill_recorded_game 1)))
    as (g1 & g2 & H1 & H2 & Hn & _); [premise .. |].
  exists g1, g2. split; [exact H1|]. split; [exact H2|]. rewrite Hn. by_eval.
Defined.

Lemma resolve_night_keeps_cast_witness :
  same_cast kill_recorded_game
    (return_or kill_recorded_game (resolve_night kill_recorded_game)) /\
  seat_status (return_or kill_recorded_game (resolve_night kill_recorded_game)) 1
  = Some PlayerStatus.DEAD.
Proof.
  destruct (@resolve_night_keeps_cast kill_recorded_game
              (return_or kill_recorded_game (resolve_night kill_recorded_game)))
    as (_ & H & _); [by_eval|].
  split; [exact H|by_eval].
Defined.

Lemma rejected_action_changes_nothing_witness :
  fst (execute (msg "u1" "vote" "9") started_manager) = started_manager /\
  dispatch (msg "u2" "check" "1") (manager_after ended_room_prefix)
  = Raise (manager_after ended_room_session).
Proof.
  split.
  - destruct (@rejected_action_changes_nothing (msg "u1" "vote" "9") started_manager
                (fst (execute (msg "u1" "vote" "9") started_manager))
                NightRoleHasNoAction) as [H _]; [by_eval|by_eval|].
    apply H. discriminate.
  - destruct (@rejected_action_changes_nothing (msg "u2" "check" "1")
                (manager_after ended_room_prefix) (manager_after ended_room_session)
                ExecuteError) as [_ H]; [by_eval|by_eval|].
    apply H. reflexivity.
Defined.

Lemma vote_resolution_next_phase_witness :
  exists game',
    process_vote room vote_pending_manager
    = Ok (put_game room game' vote_pending_manager, true) /\
    g_phase game' = GamePhase.NIGHT /\
    seat_status game' 5 = Some PlayerStatus.EXILED.
Proof.
  destruct (@vote_resolution_next_phase room vote_pending_manager vote_pending_game
              (g_votes vote_pending_game))
    as (game' & _ & _ & H & Hp & Hphase & _); [by_eval|by_eval|vm_compute; lia|].
  exists game'. split; [apply H; apply all_dealtb_sound; by_eval|].
  destruct Hphase as [(Hh & _)|(_ & Hn & _)].
  - exfalso. revert Hh. unfold player_values. rewrite Hp. vm_compute. discriminate.
  - split; [exact Hn|].
    unfold seat_status, _get_player_by_number, find_player, player_values.
    rewrite Hp. by_eval.
Defined.

Lemma witch_save_rescues_target_witness :
  has_save (g_witch_status (apply_witch_save save_recorded_game)) = false /\
  exists g2,
    _process_wolf_action (apply_witch_save save_recorded_game) = Some g2 /\
    g_death_queue g2 = [].
Proof.
  destruct (@witch_save_rescues_target save_recorded_game "1" "1" 1 0%nat
              (player_of save_recorded_game (_get_player_by_number save_recorded_game 1)))
    as (Hw & _ & _ & _ & g2 & H2 & Hq & _); [premise .. |].
  split; [rewrite Hw; by_eval|].
  exists g2. split; [exact H2|]. rewrite Hq. by_eval.
Defined.

Lemma update_profiles_counts_each_seat_once_witness :
  exists pf',
    dict_get (return_or [] (update_profiles "c0de" archived_game session_profiles)) "u5"
    = Some pf' /\
    pf_total_games pf' = 1%nat /\ decided pf' = 1%nat.
Proof.
  destruct (@update_profiles_counts_each_seat_once "c0de" archived_game session_profiles
              (return_or [] (update_profiles "c0de" archived_game session_profiles)))
    as (_ & H); [apply nodupb_sound; by_eval|by_eval|].
  destruct (H "u5" (new_profile "u5" "玩家u5")) as (pf' & H1 & H2 & H3); [by_eval|].
  exists pf'. split; [exact H1|]. split; [rewrite H2|rewrite H3]; by_eval.
Defined.

Lemma update_profiles_records_recent_game_witness :
  recent_ok "c0de"
    (result_or (new_profile "" "")
       (dict_get (return_or [] (update_profiles "c0de" archived_game session_profiles))
          "u5")).
Proof.
  apply (@update_profiles_records_recent_game "c0de" archived_game session_profiles
           (return_or [] (update_profiles "c0de" archived_game session_profiles)) "u5");
    by_eval.
Defined.
